(** * cline-batch-executor: batch orchestration core

    A shallow embedding of the TypeScript sources of the extension
    (hookManager.ts, taskManager.ts, clineIntegration.ts, batchProcessor.ts,
    dashboard.ts) together with the properties that the specification states
    about them.

    Conventions of the embedding:
    - a JavaScript string is the list of its UTF-16 code units;
    - a JavaScript number that holds a counter or an integer literal is an
      exact integer ([Z]); the counters of a run stay far below 2^53, where
      the rounding of [parseInt] cannot change a comparison against them;
      [NaN] is a separate value;
    - asynchronous calls are sequenced as the [await]s sequence them; what the
      host editor, the agent, git and the file system answer is read from an
      explicit environment, and every externally visible step is recorded in
      a trace. *)

From Stdlib Require Import String Ascii DecimalString DecimalNat.
From Stdlib Require Import ZArith NArith List Bool Lia.
Import ListNotations.
Open Scope list_scope.

Set Implicit Arguments.

(* ================================================================= *)
(** ** JavaScript strings and the primitives the sources call *)

Module JS.

Definition code_unit := N.
Definition jsstring := list code_unit.

(** An ASCII literal as a JavaScript string. *)
Definition str (s : string) : jsstring :=
  map N_of_ascii (list_ascii_of_string s).

Definition unit_eqb (a b : code_unit) : bool := N.eqb a b.

Fixpoint jseqb (a b : jsstring) : bool :=
  match a, b with
  | [], [] => true
  | x :: a', y :: b' => unit_eqb x y && jseqb a' b'
  | _, _ => false
  end.

(** WhiteSpace and LineTerminator code points of ECMAScript, the set that
    [String.prototype.trim] strips and that [parseInt] skips. *)
Definition isWhiteSpace (c : code_unit) : bool :=
  ((9 <=? c) && (c <=? 13) || (c =? 32) || (c =? 160) || (c =? 5760)
   || (8192 <=? c) && (c <=? 8202) || (c =? 8232) || (c =? 8233)
   || (c =? 8239) || (c =? 8287) || (c =? 12288) || (c =? 65279))%N.

Fixpoint trimStart (s : jsstring) : jsstring :=
  match s with
  | [] => []
  | c :: s' => if isWhiteSpace c then trimStart s' else s
  end.

Definition trimEnd (s : jsstring) : jsstring := rev (trimStart (rev s)).

Definition trim (s : jsstring) : jsstring := trimEnd (trimStart s).

(** [s.startsWith(p)] *)
Fixpoint startsWith (p s : jsstring) : bool :=
  match p, s with
  | [], _ => true
  | _ :: _, [] => false
  | x :: p', y :: s' => unit_eqb x y && startsWith p' s'
  end.

(** [s.includes(p)] *)
Fixpoint includes (p s : jsstring) : bool :=
  startsWith p s ||
  match s with
  | [] => false
  | _ :: s' => includes p s'
  end.

(** [s.split(sep)] for a non-empty separator: the pieces between the
    successive, non-overlapping occurrences of [sep], scanned from the left.
    [skip] counts the code units of a matched separator still to be dropped;
    the head of the result is the piece under construction. *)
Fixpoint split_from (sep s : jsstring) (skip : nat) : list jsstring :=
  match s with
  | [] => [[]]
  | c :: s' =>
      match skip with
      | S k => split_from sep s' k
      | O =>
          if startsWith sep s then [] :: split_from sep s' (length sep - 1)
          else match split_from sep s' 0 with
               | piece :: pieces => (c :: piece) :: pieces
               | [] => [[c]]
               end
      end
  end.

Definition split (sep s : jsstring) : list jsstring := split_from sep s 0.

(** [pieces.join(sep)] *)
Fixpoint join (sep : jsstring) (pieces : list jsstring) : jsstring :=
  match pieces with
  | [] => []
  | [p] => p
  | p :: rest => p ++ sep ++ join sep rest
  end.

(** A JavaScript number as the sources use it: an integer or [NaN]. *)
Inductive number := Num (z : Z) | NaN.

Definition lt (a : Z) (b : number) : bool :=
  match b with Num z => (a <? z)%Z | NaN => false end.
Definition gt (a : Z) (b : number) : bool :=
  match b with Num z => (a >? z)%Z | NaN => false end.
Definition le (a : Z) (b : number) : bool :=
  match b with Num z => (a <=? z)%Z | NaN => false end.
Definition ge (a : Z) (b : number) : bool :=
  match b with Num z => (a >=? z)%Z | NaN => false end.
(** [a !== b] *)
Definition strict_ne (a : Z) (b : number) : bool :=
  match b with Num z => negb (a =? z)%Z | NaN => true end.

(** The value of a code unit as a digit of the given radix. *)
Definition digitValue (radix : Z) (c : code_unit) : option Z :=
  let v :=
    if ((48 <=? c) && (c <=? 57))%N then Some (Z.of_N c - 48)%Z
    else if ((97 <=? c) && (c <=? 122))%N then Some (Z.of_N c - 87)%Z
    else if ((65 <=? c) && (c <=? 90))%N then Some (Z.of_N c - 55)%Z
    else None in
  match v with
  | Some d => if (d <? radix)%Z then Some d else None
  | None => None
  end.

(** The longest prefix of digits, accumulated from the left: [None] when the
    prefix is empty. *)
Fixpoint digitsFrom (radix : Z) (s : jsstring) (acc : option Z) : option Z :=
  match s with
  | [] => acc
  | c :: s' =>
      match digitValue radix c with
      | Some d =>
          digitsFrom radix s'
            (Some (match acc with Some a => a * radix + d | None => d end)%Z)
      | None => acc
      end
  end.

(** [parseInt(s)] with no radix argument: leading white space, an optional
    sign, an optional [0x]/[0X] prefix, then the longest run of digits. *)
Definition parseInt (s : jsstring) : number :=
  let s1 := trimStart s in
  let '(negative, s2) :=
    match s1 with
    | c :: r =>
        if (c =? 45)%N then (true, r)
        else if (c =? 43)%N then (false, r)
        else (false, s1)
    | [] => (false, s1)
    end in
  let '(radix, s3) :=
    match s2 with
    | c0 :: c1 :: r =>
        if ((c0 =? 48) && ((c1 =? 120) || (c1 =? 88)))%N then (16%Z, r)
        else (10%Z, s2)
    | _ => (10%Z, s2)
    end in
  match digitsFrom radix s3 None with
  | Some v => Num (if negative then - v else v)%Z
  | None => NaN
  end.

(** [parseInt(undefined)]: the argument is first turned into the string
    ["undefined"]. *)
Definition parseInt_opt (s : option jsstring) : number :=
  match s with
  | Some s => parseInt s
  | None => parseInt (str "undefined")
  end.

(** [String(n)] for a non-negative integer. *)
Definition numberToString (n : nat) : jsstring :=
  str (NilZero.string_of_uint (Nat.to_uint n)).

End JS.

Import JS.

(* ================================================================= *)
(** ** interfaces.ts (as the other files use the types) *)

Record BatchProcessingStats := mkStats {
  totalFiles : Z;
  processedFiles : Z;
  successfulFiles : Z;
  failedFiles : Z;
  modifiedFiles : Z;
  errorCount : Z;
  startTime : Z;
  endTime : option Z
}.

Inductive RunAt := beforeBatch | afterBatch | beforeFile | afterFile | onError.

Definition RunAt_eqb (a b : RunAt) : bool :=
  match a, b with
  | beforeBatch, beforeBatch | afterBatch, afterBatch
  | beforeFile, beforeFile | afterFile, afterFile | onError, onError => true
  | _, _ => false
  end.

Record HookConfig := mkHook {
  name : jsstring;
  condition : option jsstring;
  command : jsstring;
  runAt : RunAt
}.

(* ================================================================= *)
(** ** hookManager.ts *)

Module HookManager.

(** [getVariableValue(varName, stats)]; [None] is a [varName] that is
    [undefined], which no case of the switch matches. *)
Definition getVariableValue (varName : option jsstring)
    (stats : BatchProcessingStats) : Z :=
  match varName with
  | None => 0
  | Some v =>
      if jseqb v (str "totalFiles") then totalFiles stats
      else if jseqb v (str "processedFiles") then processedFiles stats
      else if jseqb v (str "successfulFiles") then successfulFiles stats
      else if jseqb v (str "failedFiles") then failedFiles stats
      else if jseqb v (str "modifiedFiles") then modifiedFiles stats
      else if jseqb v (str "errorCount") then errorCount stats
      else 0
  end%Z.

(** [const [varName, value] = cond.split(op).map(s => s.trim())] *)
Definition operands (op cond : jsstring) : option jsstring * option jsstring :=
  let parts := map trim (split op cond) in
  (nth_error parts 0, nth_error parts 1).

(** One iteration of the loop over the clauses: [false] when the clause
    makes [evaluateCondition] return [false], [true] when the loop goes on. *)
Definition clausePasses (cond : jsstring) (stats : BatchProcessingStats) : bool :=
  if includes (str ">=") cond then
    let '(varName, value) := operands (str ">=") cond in
    negb (lt (getVariableValue varName stats) (parseInt_opt value))
  else if includes (str "<=") cond then
    let '(varName, value) := operands (str "<=") cond in
    negb (gt (getVariableValue varName stats) (parseInt_opt value))
  else if includes (str ">") cond then
    let '(varName, value) := operands (str ">") cond in
    negb (le (getVariableValue varName stats) (parseInt_opt value))
  else if includes (str "<") cond then
    let '(varName, value) := operands (str "<") cond in
    negb (ge (getVariableValue varName stats) (parseInt_opt value))
  else if includes (str "==") cond then
    let '(varName, value) := operands (str "==") cond in
    negb (strict_ne (getVariableValue varName stats) (parseInt_opt value))
  else true.

(** [evaluateCondition(condition, stats)].  No call in the body of the [try]
    can throw on a string, so the [catch] branch is never taken and the
    result is the value of the loop. *)
Definition evaluateCondition (condition : jsstring)
    (stats : BatchProcessingStats) : bool :=
  match condition with
  | [] => true
  | _ =>
      match trim condition with
      | [] => true
      | _ =>
          let conditions := map trim (split (str "&&") condition) in
          forallb (fun cond => clausePasses cond stats) conditions
      end
  end.

End HookManager.

Import HookManager.


(* ================================================================= *)
(** ** taskManager.ts *)

Module TaskManager.

(** A line feed, written [\n] in the sources. *)
Definition nl : jsstring := [10%N].

(** The label of the item list in the combined task: the two code units
    U+8A73 U+7D30 followed by a colon. *)
Definition detailsLabel : jsstring := [35443%N; 32048%N; 58%N].

(** What [jsonc-parser] hands back for one member of the parsed object, as
    far as the validation looks at it. *)
Inductive element := EString (s : jsstring) | ENotString.

Inductive member :=
| MUndefined
| MString (s : jsstring)
| MArray (items : list element)
| MOther.

Record parsedObject := mkParsed {
  p_taskSummary : member;
  p_taskDescription : member;
  p_filePatterns : member
}.

(** The outcome of reading and parsing the selected file. *)
Inductive document :=
| ReadFails
| ParseErrors
| NotAnObject
| Object (o : parsedObject).

Record TaskConfig := mkTaskConfig {
  taskSummary : jsstring;
  taskDescription : list jsstring;
  filePatterns : option (list jsstring)
}.

(** [items.every(item => typeof item === 'string')], with the strings. *)
Fixpoint allStrings (items : list element) : option (list jsstring) :=
  match items with
  | [] => Some []
  | EString s :: rest =>
      match allStrings rest with
      | Some l => Some (s :: l)
      | None => None
      end
  | ENotString :: _ => None
  end.

(** [loadTaskConfig(fileUri)]; [None] is a thrown [Error]. *)
Definition loadTaskConfig (doc : document) : option TaskConfig :=
  match doc with
  | ReadFails | ParseErrors | NotAnObject => None
  | Object o =>
      match p_taskSummary o with
      | MString (c :: summary) =>
          match p_taskDescription o with
          | MArray items =>
              match allStrings items with
              | Some description =>
                  let result patterns :=
                    Some (mkTaskConfig (trim (c :: summary))
                            (map trim description) patterns) in
                  match p_filePatterns o with
                  | MUndefined => result None
                  | MArray patterns =>
                      match allStrings patterns with
                      | Some ps => result (Some ps)
                      | None => None
                      end
                  | _ => None
                  end
              | None => None
              end
          | _ => None
          end
      | _ => None
      end
  end.

(** [array.map((item, index) => f index item)], starting at [index]. *)
Fixpoint mapIndexed {A B : Type} (f : nat -> A -> B) (index : nat)
    (l : list A) : list B :=
  match l with
  | [] => []
  | item :: rest => f index item :: mapIndexed f (S index) rest
  end.

(** The template string that builds [combinedTask]. *)
Definition combinedTask (taskConfig : TaskConfig) : jsstring :=
  taskSummary taskConfig ++ nl ++ nl ++ detailsLabel ++ nl ++
  join nl
    (mapIndexed (fun index item => numberToString (index + 1) ++ str ". " ++ item)
       0 (taskDescription taskConfig)).

Inductive inputMethod := dialog | file.

(** What the user answers to the three prompts of [getTaskDescription]. *)
Record prompts := mkPrompts {
  quickPick : option inputMethod;
  inputBox : option jsstring;
  openDialog : option document
}.

(** [getTaskDescription()]; [None] is [undefined]. *)
Definition getTaskDescription (user : prompts) : option jsstring :=
  match quickPick user with
  | None => None
  | Some dialog => inputBox user
  | Some file =>
      match openDialog user with
      | None => None
      | Some doc =>
          match loadTaskConfig doc with
          | Some taskConfig => Some (combinedTask taskConfig)
          | None => None
          end
      end
  end.

End TaskManager.

(* ================================================================= *)
(** ** batchProcessor.ts: file selection *)

Module FileSelection.

(** The part of the file system under a selected entry: what
    [fs.readDirectory] lists, entry by entry. *)
Inductive FsNode :=
| File
| Directory (contents : DirContents)
| Other
with DirContents :=
| ReadDirectoryFails
| Entries (entries : list (jsstring * FsNode)).

(** [vscode.Uri.joinPath(directoryUri, name)] for a base name. *)
Definition joinPath (directoryUri name : jsstring) : jsstring :=
  match rev directoryUri with
  | 47%N :: _ => directoryUri ++ name
  | _ => directoryUri ++ str "/" ++ name
  end.

(** [getAllFilesInDirectory(directoryUri)], given what the directory holds. *)
Fixpoint getAllFilesInDirectory (directoryUri : jsstring)
    (contents : DirContents) : list jsstring :=
  match contents with
  | ReadDirectoryFails => []
  | Entries entries =>
      (fix loop (es : list (jsstring * FsNode)) : list jsstring :=
         match es with
         | [] => []
         | (name, type) :: es' =>
             if startsWith (str ".") name then loop es'
             else
               let entryUri := joinPath directoryUri name in
               match type with
               | File => entryUri :: loop es'
               | Directory sub => getAllFilesInDirectory entryUri sub ++ loop es'
               | Other => loop es'
               end
         end) entries
  end.

(** [getFilesFromUri(uri)]; [stat] is the answer of [fs.stat], [None] when
    it throws. *)
Definition getFilesFromUri (uri : jsstring) (stat : option FsNode) : list jsstring :=
  match stat with
  | Some File => [uri]
  | Some (Directory contents) => getAllFilesInDirectory uri contents
  | Some Other => []
  | None => []
  end.

Inductive notice :=
| NoWorkspaceOpen
| OutsideWorkspace (uri : jsstring)
| NothingInsideWorkspace.

(** One entry chosen in the open dialog, with what is on disk there. *)
Definition selection := (jsstring * option FsNode)%type.

(** The first loop of [selectFilesAndFolders]: the selections that pass the
    [startsWith] test, and a warning for each one that does not. *)
Fixpoint partitionByWorkspace (workspacePath : jsstring)
    (selectedUris : list selection) : list selection * list notice :=
  match selectedUris with
  | [] => ([], [])
  | (uri, stat) :: rest =>
      let '(validUris, warnings) := partitionByWorkspace workspacePath rest in
      if startsWith workspacePath uri then ((uri, stat) :: validUris, warnings)
      else (validUris, OutsideWorkspace uri :: warnings)
  end.

(** [selectFilesAndFolders()]: the files, and the messages shown. *)
Definition selectFilesAndFolders (workspaceFolders : list jsstring)
    (showOpenDialog : option (list selection)) : list jsstring * list notice :=
  match workspaceFolders with
  | [] => ([], [NoWorkspaceOpen])
  | workspacePath :: _ =>
      match showOpenDialog with
      | None | Some [] => ([], [])
      | Some selectedUris =>
          let '(validUris, warnings) :=
            partitionByWorkspace workspacePath selectedUris in
          match validUris with
          | [] => ([], warnings ++ [NothingInsideWorkspace])
          | _ =>
              (flat_map (fun '(uri, stat) => getFilesFromUri uri stat) validUris,
               warnings)
          end
      end
  end.

End FileSelection.

(* ================================================================= *)
(** ** The agent, the log and the trace of a run *)

Inductive TaskStatus := none | active | completed | cancelled.

Record ClineMessage := mkMessage {
  ts : Z;
  isAsk : bool;
  text : option jsstring
}.

(** The agent's API object as it answers while one task is under way:
    [false] and [None] are calls that reject. *)
Record ClineAPI := mkCline {
  startNewTask : bool;
  pressPrimaryButton : bool;
  getTaskStatus : nat -> option TaskStatus;
  getTaskMessages : option (list ClineMessage)
}.

Inductive taskOutcome := success | failed.

(** A line that [runHooksWithLogging] pushes onto [hookLogs]; the time stamp
    of the line is left out. *)
Inductive hookLogLine :=
| LineStart (at_ : RunAt) (fileLabel : jsstring) (hookNames : list jsstring)
| LineCompleted (at_ : RunAt) (fileLabel : jsstring)
| LineFailed (at_ : RunAt) (fileLabel : jsstring).

(** The blocks written to the log file, by their contents. *)
Inductive logBlock :=
| HeaderBlock (hooks : list HookConfig) (snapshot : BatchProcessingStats)
    (taskDescription : jsstring)
| HookRunBlock (title : RunAt) (lines : list hookLogLine)
| TaskLogBlock (fileLabel : jsstring) (status : taskOutcome)
    (messages : list ClineMessage) (lines : list hookLogLine)
    (snapshot : BatchProcessingStats)
| SummaryBlock (snapshot : BatchProcessingStats).

(** [DashboardResult]; the duration is kept in milliseconds, the source
    renders it in seconds with two decimals. *)
Record DashboardResult := mkResult {
  resultStats : BatchProcessingStats;
  durationMs : Z;
  completedAt : Z
}.

Inductive event :=
| ProgressReport (position : nat) (total : nat) (relativePath : jsstring)
| ProgressCompleted
| GitStatus (answer : option Z)
| HooksEvaluated (at_ : RunAt) (snapshot : BatchProcessingStats)
| HookSkipped (hookName : jsstring)
| HookCommand (hookName : jsstring) (viaHost : bool) (commandText : jsstring)
| HookFailed (hookName : jsstring)
| StartNewTask (filePath : jsstring) (taskDescription : jsstring)
| PrimaryButtonPressed
| StatusPolled (elapsedTime : Z) (status : TaskStatus)
| TimeoutWarning
| ProcessedMessage (ok : bool) (fileLabel : jsstring)
| LogCreated (header : logBlock)
| LogCreationFailed
| LogAppended (block : logBlock)
| EndTimeSet (t : Z)
| DashboardPosted (result : DashboardResult)
| LogPathMessage (logFilePath : jsstring)
| FinalSummaryMessage (snapshot : BatchProcessingStats).

Inductive error :=
| AgentUnavailable
| AgentCallRejected
| AppendFileRejected
| PollBudgetOverrun.

(** Mutable state of a run: the [stats] object, the local variables of
    [startBatchProcessing], the module variables of dashboard.ts, how many
    times the outside world has been asked, and the trace (latest first). *)
Record State := mkState {
  stats : BatchProcessingStats;
  hookLogs : list hookLogLine;
  lastHookLogIndex : nat;
  latestResult : option DashboardResult;
  gitCalls : nat;
  appendCalls : nat;
  trace : list event
}.

Module Effects.

Inductive result (A : Type) :=
| Returned (a : A)
| Thrown (e : error).

Arguments Returned {A} a.
Arguments Thrown {A} e.

Definition M (A : Type) : Type := State -> result A * State.

Definition ret {A} (a : A) : M A := fun st => (Returned a, st).

Definition bind {A B} (c : M A) (k : A -> M B) : M B :=
  fun st =>
    match c st with
    | (Returned a, st') => k a st'
    | (Thrown e, st') => (Thrown e, st')
    end.

Definition throw {A} (e : error) : M A := fun st => (Thrown e, st).

(** [try { body } catch (error) { handler }] *)
Definition tryCatch {A} (body : M A) (handler : error -> M A) : M A :=
  fun st =>
    match body st with
    | (Returned a, st') => (Returned a, st')
    | (Thrown e, st') => handler e st'
    end.

Definition get : M State := fun st => (Returned st, st).

Definition update (f : State -> State) : M unit := fun st => (Returned tt, f st).

Definition withStats (f : BatchProcessingStats -> BatchProcessingStats)
    (st : State) : State :=
  mkState (f (stats st)) (hookLogs st) (lastHookLogIndex st) (latestResult st)
    (gitCalls st) (appendCalls st) (trace st).

Definition withTrace (e : event) (st : State) : State :=
  mkState (stats st) (hookLogs st) (lastHookLogIndex st) (latestResult st)
    (gitCalls st) (appendCalls st) (e :: trace st).

Definition emit (e : event) : M unit := update (withTrace e).

(** [await promise] for a promise that resolves when [resolves] holds. *)
Definition await (resolves : bool) (e : error) : M unit :=
  if resolves then ret tt else throw e.

End Effects.

Import Effects.

Declare Scope run_scope.
Delimit Scope run_scope with run.
Notation "x <- c ;; k" := (bind c (fun x => k))
  (at level 61, c at next level, right associativity) : run_scope.
Notation "c ;; k" := (bind c (fun _ => k))
  (at level 61, right associativity) : run_scope.
Open Scope run_scope.

(* ================================================================= *)
(** ** What the outside world answers during one run *)

Record Env := mkEnv {
  (** [vscode.extensions.getExtension]: [None] when the extension is not
      installed; its [exports] are [None] when the API is absent.  The API
      object is given per file, as it behaves while that file is processed. *)
  clineExtension : option (option (nat -> ClineAPI));
  workspaceFolders : list jsstring;
  showOpenDialog : option (list FileSelection.selection);
  taskPrompts : TaskManager.prompts;
  (** what [loadHookConfigs] returns *)
  hookConfigs : list HookConfig;
  isGitRepository : bool;
  (** the answer of the n-th [git status], [None] when it fails *)
  gitModifiedCount : nat -> option Z;
  (** the path of the log file, [None] when it cannot be created *)
  logFile : option jsstring;
  (** whether the n-th [fs.promises.appendFile] resolves *)
  appendFile : nat -> bool;
  (** whether running a hook command throws *)
  commandThrows : jsstring -> bool;
  (** [token.isCancellationRequested] as read at the top of iteration [i] *)
  isCancellationRequested : nat -> bool;
  (** [vscode.workspace.asRelativePath(pathOrUri, includeWorkspaceFolder)];
      the flag is [None] when the call leaves it out: the host then puts
      the name of the workspace folder first when the workspace has several
      folders *)
  asRelativePath : jsstring -> option bool -> jsstring;
  (** [Date.now()] at run start and at run end *)
  clockAtStart : Z;
  clockAtEnd : Z;
  (** dashboard.ts: whether a dashboard panel is open *)
  activePanel : bool
}.

(* ================================================================= *)
(** ** clineIntegration.ts *)

Module ClineIntegration.

Definition maxWaitTime : Z := 10 * 60 * 1000.
Definition checkInterval : Z := 5000.

Definition isTerminal (status : TaskStatus) : bool :=
  match status with
  | completed | cancelled | none => true
  | active => false
  end.

(** The [while (elapsedTime < maxWaitTime)] loop; [polls] counts the calls
    of [getTaskStatus] made so far.  [fuel] bounds the iterations: the loop
    adds [checkInterval] to [elapsedTime] each time round, so
    [maxWaitTime / checkInterval] iterations exhaust the budget. *)
Fixpoint waitForCompletion (fuel : nat) (cline : ClineAPI) (polls : nat)
    (elapsedTime : Z) : M Z :=
  if (elapsedTime <? maxWaitTime)%Z then
    match fuel with
    | O => throw PollBudgetOverrun
    | S fuel' =>
        match getTaskStatus cline polls with
        | None => throw AgentCallRejected
        | Some status =>
            emit (StatusPolled elapsedTime status) ;;
            if isTerminal status then ret elapsedTime
            else waitForCompletion fuel' cline (S polls)
                   (elapsedTime + checkInterval)%Z
        end
    end
  else ret elapsedTime.

Definition pollFuel : nat := Z.to_nat (maxWaitTime / checkInterval).

(** [a || b] on strings *)
Definition orElse (a b : jsstring) : jsstring :=
  match a with [] => b | _ => a end.

(** [processFileWithCline(cline, fileUri, taskDescription)]; the prompt
    embeds [filePath] and [taskDescription]. *)
Definition processFileWithCline (env : Env) (cline : ClineAPI)
    (fileUri : jsstring) (taskDescription : jsstring) : M unit :=
  let filePath := orElse (asRelativePath env fileUri (Some false)) fileUri in
  emit (StartNewTask filePath taskDescription) ;;
  await (startNewTask cline) AgentCallRejected ;;
  emit PrimaryButtonPressed ;;
  await (pressPrimaryButton cline) AgentCallRejected ;;
  elapsedTime <- waitForCompletion pollFuel cline 0 0%Z ;;
  if (elapsedTime >=? maxWaitTime)%Z then emit TimeoutWarning else ret tt.

End ClineIntegration.

(* ================================================================= *)
(** ** hookManager.ts: running the hooks *)

Module HookRunner.

(** [hook.condition && !evaluateCondition(hook.condition, stats)] *)
Definition conditionFails (hook : HookConfig) (snapshot : BatchProcessingStats) : bool :=
  match condition hook with
  | None | Some [] => false
  | Some c => negb (evaluateCondition c snapshot)
  end.

(** The body of the [try] block for one hook. *)
Definition runCommand (env : Env) (hook : HookConfig) : M unit :=
  let viaHost := startsWith (str "vscode:") (command hook) in
  let commandText := if viaHost then skipn 7 (command hook) else command hook in
  emit (HookCommand (name hook) viaHost commandText) ;;
  if commandThrows env (command hook) then throw AgentCallRejected else ret tt.

Fixpoint hookLoop (env : Env) (filteredHooks : list HookConfig)
    (snapshot : BatchProcessingStats) : M unit :=
  match filteredHooks with
  | [] => ret tt
  | hook :: rest =>
      (if conditionFails hook snapshot then emit (HookSkipped (name hook))
       else tryCatch (runCommand env hook)
              (fun _ => emit (HookFailed (name hook)))) ;;
      hookLoop env rest snapshot
  end.

(** [executeHooks(hooks, runAt, stats, fileUri)] *)
Definition executeHooks (env : Env) (hooks : list HookConfig) (at_ : RunAt)
    : M unit :=
  st <- get ;;
  let filteredHooks := filter (fun hook => RunAt_eqb (runAt hook) at_) hooks in
  emit (HooksEvaluated at_ (stats st)) ;;
  hookLoop env filteredHooks (stats st).

End HookRunner.

(* ================================================================= *)
(** ** dashboard.ts *)

Module Dashboard.

Definition withLatestResult (r : DashboardResult) (st : State) : State :=
  mkState (stats st) (hookLogs st) (lastHookLogIndex st) (Some r)
    (gitCalls st) (appendCalls st) (trace st).

(** [notifyDashboardResult(stats)] *)
Definition notifyDashboardResult (env : Env) : M unit :=
  st <- get ;;
  let s := stats st in
  let finished := match endTime s with Some t => t | None => clockAtEnd env end in
  let result := mkResult s (finished - startTime s)%Z finished in
  update (withLatestResult result) ;;
  if activePanel env then emit (DashboardPosted result) else ret tt.

End Dashboard.

(* ================================================================= *)
(** ** batchProcessor.ts: the run *)

Module BatchProcessor.

Import HookRunner ClineIntegration.

Definition setModifiedFiles (n : Z) (s : BatchProcessingStats) :=
  mkStats (totalFiles s) (processedFiles s) (successfulFiles s) (failedFiles s)
    n (errorCount s) (startTime s) (endTime s).

Definition incrSuccessfulFiles (s : BatchProcessingStats) :=
  mkStats (totalFiles s) (processedFiles s) (successfulFiles s + 1) (failedFiles s)
    (modifiedFiles s) (errorCount s) (startTime s) (endTime s).

Definition incrFailedFiles (s : BatchProcessingStats) :=
  mkStats (totalFiles s) (processedFiles s) (successfulFiles s) (failedFiles s + 1)
    (modifiedFiles s) (errorCount s) (startTime s) (endTime s).

Definition incrErrorCount (s : BatchProcessingStats) :=
  mkStats (totalFiles s) (processedFiles s) (successfulFiles s) (failedFiles s)
    (modifiedFiles s) (errorCount s + 1) (startTime s) (endTime s).

Definition incrProcessedFiles (s : BatchProcessingStats) :=
  mkStats (totalFiles s) (processedFiles s + 1) (successfulFiles s) (failedFiles s)
    (modifiedFiles s) (errorCount s) (startTime s) (endTime s).

Definition setEndTime (t : Z) (s : BatchProcessingStats) :=
  mkStats (totalFiles s) (processedFiles s) (successfulFiles s) (failedFiles s)
    (modifiedFiles s) (errorCount s) (startTime s) (Some t).

Definition countGitCall (st : State) : State :=
  mkState (stats st) (hookLogs st) (lastHookLogIndex st) (latestResult st)
    (S (gitCalls st)) (appendCalls st) (trace st).

Definition countAppend (st : State) : State :=
  mkState (stats st) (hookLogs st) (lastHookLogIndex st) (latestResult st)
    (gitCalls st) (S (appendCalls st)) (trace st).

Definition pushHookLog (line : hookLogLine) (st : State) : State :=
  mkState (stats st) (hookLogs st ++ [line]) (lastHookLogIndex st)
    (latestResult st) (gitCalls st) (appendCalls st) (trace st).

Definition markHookLogsWritten (st : State) : State :=
  mkState (stats st) (hookLogs st) (length (hookLogs st)) (latestResult st)
    (gitCalls st) (appendCalls st) (trace st).

(** [refreshModifiedFilesCount()]; [getGitModifiedCount] catches its own
    failure and answers [null]. *)
Definition refreshModifiedFilesCount (env : Env) : M unit :=
  match workspaceFolders env with
  | [] => ret tt
  | workspaceRoot :: _ =>
      if negb (isGitRepository env) || jseqb workspaceRoot [] then ret tt
      else
        st <- get ;;
        let gitCount := gitModifiedCount env (gitCalls st) in
        update countGitCall ;;
        emit (GitStatus gitCount) ;;
        match gitCount with
        | Some n => update (withStats (setModifiedFiles n))
        | None => ret tt
        end
  end.

(** [runHooksWithLogging(hooks, runAt, stats, hookLogs, fileUri)] *)
Definition runHooksWithLogging (env : Env) (hooks : list HookConfig)
    (at_ : RunAt) (fileUri : option jsstring) : M unit :=
  let targetHooks := filter (fun hook => RunAt_eqb (runAt hook) at_) hooks in
  let fileLabel :=
    match fileUri with
    | Some uri => orElse (asRelativePath env uri (Some false)) uri
    | None => []
    end in
  let hookNames := map (fun hook => orElse (name hook) (str "(no name)")) targetHooks in
  update (pushHookLog (LineStart at_ fileLabel hookNames)) ;;
  tryCatch
    (executeHooks env hooks at_ ;;
     update (pushHookLog (LineCompleted at_ fileLabel)))
    (fun _ => update (pushHookLog (LineFailed at_ fileLabel))).

(** [createBatchLogFile(hooks, stats, taskDescription)] *)
Definition createBatchLogFile (env : Env) (hooks : list HookConfig)
    (taskDescription : jsstring) : M (option jsstring) :=
  st <- get ;;
  match logFile env with
  | Some logFilePath =>
      emit (LogCreated (HeaderBlock hooks (stats st) taskDescription)) ;;
      ret (Some logFilePath)
  | None => emit LogCreationFailed ;; ret None
  end.

(** [appendLogSection(logFilePath, content)] *)
Definition appendLogSection (env : Env) (block : logBlock) : M unit :=
  st <- get ;;
  update countAppend ;;
  if appendFile env (appendCalls st) then emit (LogAppended block)
  else throw AppendFileRejected.

(** The hook lines recorded since the previous block; marks them written. *)
Definition takeHookLogSlice : M (list hookLogLine) :=
  st <- get ;;
  let hookLogSlice := skipn (lastHookLogIndex st) (hookLogs st) in
  update markHookLogsWritten ;;
  ret hookLogSlice.

(** The [try]/[catch] statement around the agent call: the outcome is the
    value of [taskStatus] after it. *)
Definition attemptTask (env : Env) (cline : ClineAPI)
    (hooks : list HookConfig) (taskDescription : jsstring)
    (file fileLabel : jsstring) : M taskOutcome :=
  tryCatch
    (processFileWithCline env cline file taskDescription ;;
     update (withStats incrSuccessfulFiles) ;;
     emit (ProcessedMessage true fileLabel) ;;
     ret success)
    (fun _ =>
       update (withStats incrFailedFiles) ;;
       update (withStats incrErrorCount) ;;
       emit (ProcessedMessage false fileLabel) ;;
       refreshModifiedFilesCount env ;;
       runHooksWithLogging env hooks onError (Some file) ;;
       ret failed).

(** The [if (logFilePath)] statement that ends the loop body. *)
Definition appendTaskLog (env : Env) (cline : ClineAPI)
    (logFilePath : option jsstring) (fileLabel : jsstring)
    (taskStatus : taskOutcome) : M unit :=
  match logFilePath with
  | Some _ =>
      match getTaskMessages cline with
      | None => throw AgentCallRejected
      | Some messages =>
          hookLogSlice <- takeHookLogSlice ;;
          st <- get ;;
          appendLogSection env
            (TaskLogBlock fileLabel taskStatus messages hookLogSlice (stats st))
      end
  | None => ret tt
  end.

(** The body of the [for] loop, for the file at index [i]. *)
Definition processOneFile (env : Env) (cline : nat -> ClineAPI)
    (hooks : list HookConfig) (taskDescription : jsstring)
    (logFilePath : option jsstring) (totalFiles : nat)
    (file : jsstring) (i : nat) : M unit :=
  let relativePath := asRelativePath env file None in
  let fileLabel := orElse relativePath file in
  emit (ProgressReport (i + 1) totalFiles relativePath) ;;
  refreshModifiedFilesCount env ;;
  runHooksWithLogging env hooks beforeFile (Some file) ;;
  taskStatus <- attemptTask env (cline i) hooks taskDescription file fileLabel ;;
  update (withStats incrProcessedFiles) ;;
  refreshModifiedFilesCount env ;;
  runHooksWithLogging env hooks afterFile (Some file) ;;
  appendTaskLog env (cline i) logFilePath fileLabel taskStatus.

(** The [for] loop over [files], from index [i] on: the cancellation token
    is read first, then the file is processed. *)
Fixpoint fileLoop (env : Env) (cline : nat -> ClineAPI)
    (hooks : list HookConfig) (taskDescription : jsstring)
    (logFilePath : option jsstring) (totalFiles : nat)
    (files : list jsstring) (i : nat) : M unit :=
  match files with
  | [] => ret tt
  | file :: rest =>
      if isCancellationRequested env i then ret tt
      else
        processOneFile env cline hooks taskDescription logFilePath totalFiles
          file i ;;
        fileLoop env cline hooks taskDescription logFilePath totalFiles rest (S i)
  end.

(** The two blocks that step 10 appends when a log file is open: the
    [afterBatch] hook runs and the summary. *)
Definition appendSummary (env : Env) : M unit :=
  hookLogSlice <- takeHookLogSlice ;;
  appendLogSection env (HookRunBlock afterBatch hookLogSlice) ;;
  st <- get ;;
  appendLogSection env (SummaryBlock (stats st)).

(** Steps 9 to 11 of [startBatchProcessing]: what follows the progress
    callback. *)
Definition completeBatch (env : Env) (hooks : list HookConfig)
    (logFilePath : option jsstring) : M unit :=
  update (withStats (setEndTime (clockAtEnd env))) ;;
  emit (EndTimeSet (clockAtEnd env)) ;;
  refreshModifiedFilesCount env ;;
  runHooksWithLogging env hooks afterBatch None ;;
  match logFilePath with
  | Some _ => appendSummary env
  | None => ret tt
  end ;;
  Dashboard.notifyDashboardResult env ;;
  match logFilePath with
  | Some path => emit (LogPathMessage path)
  | None => ret tt
  end ;;
  st <- get ;;
  emit (FinalSummaryMessage (stats st)).

(** Steps 4 to 7: the statistics, the log file and the [beforeBatch]
    hooks; the result is [logFilePath]. *)
Definition openBatch (env : Env) (files : list jsstring)
    (taskDescription : jsstring) : M (option jsstring) :=
  let hooks := hookConfigs env in
  update (withStats (fun _ =>
    mkStats (Z.of_nat (length files)) 0 0 0 0 0 (clockAtStart env) None)) ;;
  logFilePath <- createBatchLogFile env hooks taskDescription ;;
  refreshModifiedFilesCount env ;;
  runHooksWithLogging env hooks beforeBatch None ;;
  match logFilePath with
  | Some _ =>
      hookLogSlice <- takeHookLogSlice ;;
      appendLogSection env (HookRunBlock beforeBatch hookLogSlice)
  | None => ret tt
  end ;;
  ret logFilePath.

(** Steps 4 to 11, once the agent, the files and the task are there. *)
Definition runBatch (env : Env) (cline : nat -> ClineAPI)
    (files : list jsstring) (taskDescription : jsstring) : M unit :=
  let hooks := hookConfigs env in
  logFilePath <- openBatch env files taskDescription ;;
  fileLoop env cline hooks taskDescription logFilePath (length files) files 0 ;;
  emit ProgressCompleted ;;
  completeBatch env hooks logFilePath.

(** [startBatchProcessing()] *)
Definition startBatchProcessing (env : Env) : M unit :=
  match clineExtension env with
  | None => throw AgentUnavailable
  | Some None => throw AgentUnavailable
  | Some (Some cline) =>
      let files :=
        fst (FileSelection.selectFilesAndFolders (workspaceFolders env)
               (showOpenDialog env)) in
      match files with
      | [] => ret tt
      | _ =>
          match TaskManager.getTaskDescription (taskPrompts env) with
          | None | Some [] => ret tt
          | Some taskDescription => runBatch env cline files taskDescription
          end
      end
  end.

(** The state before a run: no statistics yet, empty [hookLogs], and the
    dashboard's last result as a previous run left it. *)
Definition initialState (previous : option DashboardResult) : State :=
  mkState (mkStats 0 0 0 0 0 0 0 None) [] 0 previous 0 0 [].

End BatchProcessor.

(* ================================================================= *)
(** ** Classes of code units *)

Module Units.

(** No code unit of [s] is [h]. *)
Definition noUnit (h : code_unit) (s : jsstring) : bool :=
  forallb (fun c => negb (c =? h)%N) s.

Definition allWhiteSpace (s : jsstring) : bool := forallb isWhiteSpace s.

Definition noWhiteSpace (s : jsstring) : bool :=
  forallb (fun c => negb (isWhiteSpace c)) s.

(** [s] is empty or starts with something else than white space. *)
Definition startsClean (s : jsstring) : bool :=
  match s with
  | [] => true
  | c :: _ => negb (isWhiteSpace c)
  end.

Definition digitUnit (c : code_unit) : bool := ((48 <=? c) && (c <=? 57))%N.

(** The code units of an integer literal: a minus sign or a digit. *)
Definition literalUnit (c : code_unit) : bool := (c =? 45)%N || digitUnit c.

(** The code units that the operators and the conjunction are made of. *)
Definition operatorUnit (h : code_unit) : bool :=
  ((h =? 38) || (h =? 60) || (h =? 61) || (h =? 62))%N.

End Units.

Import Units.

(* ================================================================= *)
(** ** The condition grammar, as the specification words it *)

Module ConditionSpec.

Inductive operator := Ge | Le | Eq | Gt | Lt.

Definition opText (o : operator) : jsstring :=
  match o with
  | Ge => str ">="
  | Le => str "<="
  | Eq => str "=="
  | Gt => str ">"
  | Lt => str "<"
  end.

(** The integer comparison that an operator stands for. *)
Definition compare (o : operator) (a b : Z) : bool :=
  match o with
  | Ge => (a >=? b)%Z
  | Le => (a <=? b)%Z
  | Eq => (a =? b)%Z
  | Gt => (a >? b)%Z
  | Lt => (a <? b)%Z
  end.

(** A clause [<variable> <op> <integer>]. *)
Record clause := mkClause {
  variable : jsstring;
  op : operator;
  literal : Z
}.

(** A code unit that may occur in a variable name: neither white space nor
    one of [&], [<], [=], [>]. *)
Definition nameUnit (c : code_unit) : bool :=
  negb (isWhiteSpace c) &&
  negb ((c =? 38) || (c =? 60) || (c =? 61) || (c =? 62))%N.

Definition wellFormed (c : clause) : bool :=
  match variable c with
  | [] => false
  | v => forallb nameUnit v
  end.

(** The decimal numeral of an integer. *)
Definition integerLiteral (z : Z) : jsstring :=
  (if (z <? 0)%Z then str "-" else []) ++ numberToString (Z.abs_nat z).

Definition render (c : clause) : jsstring :=
  variable c ++ str " " ++ opText (op c) ++ str " " ++ integerLiteral (literal c).

(** The six statistics field names. *)
Definition fields : list (jsstring * (BatchProcessingStats -> Z)) :=
  [ (str "totalFiles", totalFiles);
    (str "processedFiles", processedFiles);
    (str "successfulFiles", successfulFiles);
    (str "failedFiles", failedFiles);
    (str "modifiedFiles", modifiedFiles);
    (str "errorCount", errorCount) ].

(** The value of a variable: the field of that name, [0] for any other name. *)
Definition statistic (v : jsstring) (s : BatchProcessingStats) : Z :=
  match find (fun f => jseqb v (fst f)) fields with
  | Some f => snd f s
  | None => 0%Z
  end.

Definition holds (s : BatchProcessingStats) (c : clause) : bool :=
  compare (op c) (statistic (variable c) s) (literal c).

(** The test that the evaluator makes once it has settled on an operator. *)
Definition applyOperator (o : operator) (cond : jsstring)
    (stats : BatchProcessingStats) : bool :=
  let '(varName, value) := operands (opText o) cond in
  let varValue := getVariableValue varName stats in
  match o with
  | Ge => negb (lt varValue (parseInt_opt value))
  | Le => negb (gt varValue (parseInt_opt value))
  | Gt => negb (le varValue (parseInt_opt value))
  | Lt => negb (ge varValue (parseInt_opt value))
  | Eq => negb (strict_ne varValue (parseInt_opt value))
  end.

(** The clause test with the operators tried in a given priority order. *)
Fixpoint clausePassesIn (order : list operator) (cond : jsstring)
    (stats : BatchProcessingStats) : bool :=
  match order with
  | [] => true
  | o :: rest =>
      if includes (opText o) cond then applyOperator o cond stats
      else clausePassesIn rest cond stats
  end.

(** The order in which hookManager.ts tries the operators, and the order
    that the specification lists. *)
Definition sourceOrder : list operator := [Ge; Le; Gt; Lt; Eq].
Definition specOrder : list operator := [Ge; Le; Eq; Gt; Lt].

Definition operator_eqb (a b : operator) : bool :=
  match a, b with
  | Ge, Ge | Le, Le | Eq, Eq | Gt, Gt | Lt, Lt => true
  | _, _ => false
  end.

(** [a] is tried before [b] in [order] (or [b] is never tried). *)
Fixpoint triedBefore (a b : operator) (order : list operator) : bool :=
  match order with
  | [] => true
  | o :: rest =>
      if operator_eqb o a then true
      else if operator_eqb o b then false
      else triedBefore a b rest
  end.

(** An order that tries every operator, [>=] before [>] and [<=] before [<]. *)
Definition safeOrder (order : list operator) : bool :=
  forallb (fun o => existsb (operator_eqb o) order) [Ge; Le; Eq; Gt; Lt]
  && triedBefore Ge Gt order && triedBefore Le Lt order.

(** What stands left and right of the operator in a rendered clause. *)
Definition leftPart (c : clause) : jsstring := variable c ++ str " ".
Definition rightPart (c : clause) : jsstring :=
  str " " ++ integerLiteral (literal c).

(** An operator is found in the clause when it is the clause's own, or
    when it is [>] or [<] and the clause has [>=] or [<=]. *)
Definition found (o' o : operator) : bool :=
  match o', o with
  | Gt, Ge | Lt, Le => true
  | _, _ => operator_eqb o' o
  end.

(** In [order], the first operator found in a clause of operator [o] is
    [o] itself. *)
Fixpoint selects (o : operator) (order : list operator) : bool :=
  match order with
  | [] => false
  | o' :: rest => if found o' o then operator_eqb o' o else selects o rest
  end.

End ConditionSpec.

(* ================================================================= *)
(** ** The task intent, as the specification words it *)

Module IntentSpec.

Import TaskManager.

(** The items numbered from [i], one per line. *)
Fixpoint numberedItems (i : nat) (items : list jsstring) : jsstring :=
  match items with
  | [] => []
  | [item] => numberToString i ++ str ". " ++ item
  | item :: rest =>
      numberToString i ++ str ". " ++ item ++ nl ++ numberedItems (S i) rest
  end.

(** The summary, a blank line, the label, then the numbered items. *)
Definition intent (label summary : jsstring) (items : list jsstring) : jsstring :=
  summary ++ nl ++ nl ++ label ++ nl ++ numberedItems 1 items.

(** A structured task-description document with the given summary and
    items, chosen through the file prompt. *)
Definition structuredDocument (summary : jsstring) (items : list jsstring)
    (patterns : option (list jsstring)) : prompts :=
  mkPrompts (Some file) None
    (Some (Object (mkParsed (MString summary) (MArray (map EString items))
                     (match patterns with
                      | Some ps => MArray (map EString ps)
                      | None => MUndefined
                      end)))).

End IntentSpec.

(* ================================================================= *)
(** ** File selection, as the specification words it *)

Module SelectionSpec.

Import FileSelection.

(** The last segment of a path: what follows its last [/]. *)
Fixpoint lastSegment (path : jsstring) : jsstring :=
  match path with
  | [] => []
  | c :: rest =>
      if includes (str "/") rest then lastSegment rest
      else if (c =? 47)%N then rest else path
  end.

(** An entry whose name starts with a dot. *)
Definition dotPrefixed (path : jsstring) : bool :=
  startsWith (str ".") (lastSegment path).

(** The path reached from [uri] by descending through [names]. *)
Definition descend (uri : jsstring) (names : list jsstring) : jsstring :=
  fold_left joinPath names uri.

Definition visibleName (name : jsstring) : bool :=
  negb (startsWith (str ".") name).

(** A property of directories that holds of the subdirectory listed by an
    entry, when the entry is one. *)
Definition holdsBelow (P : DirContents -> Prop) (e : jsstring * FsNode) : Prop :=
  match e with
  | (_, Directory sub) => P sub
  | _ => True
  end.

End SelectionSpec.

(* ================================================================= *)
(** ** Observations of a run *)

Module RunSpec.

Import BatchProcessor.

(** [processedFiles = successfulFiles + failedFiles] and
    [processedFiles <= totalFiles]. *)
Definition consistent (s : BatchProcessingStats) : Prop :=
  (processedFiles s = successfulFiles s + failedFiles s
   /\ 0 <= processedFiles s <= totalFiles s)%Z.

(** The statistics that an event shows to a hook condition, to the log or
    to the dashboard, with the lifecycle point for a hook evaluation. *)
Definition observation (e : event) : option (option RunAt * BatchProcessingStats) :=
  match e with
  | HooksEvaluated at_ s => Some (Some at_, s)
  | LogCreated (HeaderBlock _ s _) => Some (None, s)
  | LogAppended (TaskLogBlock _ _ _ _ s) => Some (None, s)
  | LogAppended (SummaryBlock s) => Some (None, s)
  | DashboardPosted r => Some (None, resultStats r)
  | FinalSummaryMessage s => Some (None, s)
  | _ => None
  end.

(** The files for which the agent was given a task, oldest first. *)
Fixpoint tasksStarted (chronological : list event) : list jsstring :=
  match chronological with
  | [] => []
  | StartNewTask filePath _ :: rest => filePath :: tasksStarted rest
  | _ :: rest => tasksStarted rest
  end.

(** The events of a run, oldest first. *)
Definition history (st : State) : list event := rev (trace st).

(** The label under which a file is handed to the agent. *)
Definition fileLabelOf (env : Env) (file : jsstring) : jsstring :=
  ClineIntegration.orElse (asRelativePath env file (Some false)) file.

(** The label under which the loop shows a file in its messages and in the
    log. *)
Definition shownLabelOf (env : Env) (file : jsstring) : jsstring :=
  ClineIntegration.orElse (asRelativePath env file None) file.

(** Logging cannot reject: no log file is open, or every append resolves
    and the agent always hands over its messages. *)
Definition loggingResolves (env : Env) (cline : nat -> ClineAPI) : Prop :=
  logFile env = None \/
  ((forall n, appendFile env n = true) /\
   (forall i, getTaskMessages (cline i) <> None)).

(** Cancellation is requested once [k] files have completed: the token is
    clear at the top of the first [k] iterations and set at the next. *)
Definition cancelledAfter (env : Env) (k : nat) : Prop :=
  (forall i, i < k -> isCancellationRequested env i = false) /\
  isCancellationRequested env k = true.


(** The steps of the completion sequence that an event stands for. *)
Inductive completionStep :=
| StepEndTime
| StepRefresh
| StepAfterBatchHooks
| StepHookBlock
| StepSummaryBlock
| StepDashboard
| StepLogPath
| StepFinalMessage.

Definition completionStepOf (e : event) : option completionStep :=
  match e with
  | EndTimeSet _ => Some StepEndTime
  | GitStatus _ => Some StepRefresh
  | HooksEvaluated afterBatch _ => Some StepAfterBatchHooks
  | LogAppended (HookRunBlock afterBatch _) => Some StepHookBlock
  | LogAppended (SummaryBlock _) => Some StepSummaryBlock
  | DashboardPosted _ => Some StepDashboard
  | LogPathMessage _ => Some StepLogPath
  | FinalSummaryMessage _ => Some StepFinalMessage
  | _ => None
  end.

(** The events that follow the end of the per-file loop, oldest first. *)
Fixpoint afterLoop (chronological : list event) : list event :=
  match chronological with
  | [] => []
  | ProgressCompleted :: rest => rest
  | _ :: rest => afterLoop rest
  end.

Fixpoint steps (events : list event) : list completionStep :=
  match events with
  | [] => []
  | e :: rest =>
      match completionStepOf e with
      | Some s => s :: steps rest
      | None => steps rest
      end
  end.

(** Whether the run asks git for the number of modified files. *)
Definition refreshSteps (env : Env) : list completionStep :=
  match workspaceFolders env with
  | [] => []
  | workspaceRoot :: _ =>
      if negb (isGitRepository env) || jseqb workspaceRoot [] then []
      else [StepRefresh]
  end.

(** The completion sequence that the source runs after the loop. *)
Definition expectedCompletion (env : Env) : list completionStep :=
  [StepEndTime] ++ refreshSteps env ++ [StepAfterBatchHooks] ++
  (match logFile env with Some _ => [StepHookBlock; StepSummaryBlock] | None => [] end) ++
  (if activePanel env then [StepDashboard] else []) ++
  (match logFile env with Some _ => [StepLogPath] | None => [] end) ++
  [StepFinalMessage].

(** The counting that follows the agent call. *)
Definition bump (o : taskOutcome) (s : BatchProcessingStats) : BatchProcessingStats :=
  match o with
  | success => incrSuccessfulFiles s
  | failed => incrErrorCount (incrFailedFiles s)
  end.

(** The statistics without [modifiedFiles], which git refreshes. *)
Definition counters (s : BatchProcessingStats) : BatchProcessingStats :=
  setModifiedFiles 0 s.

(** Whether the agent call for a file returns or throws: it does not depend
    on the state of the run. *)
Definition agentOutcome (env : Env) (cline : ClineAPI) (file : jsstring)
    (taskDescription : jsstring) : taskOutcome :=
  match fst (ClineIntegration.processFileWithCline env cline file taskDescription
               (initialState None)) with
  | Returned _ => success
  | Thrown _ => failed
  end.

(** The loop, started at index [i], handles [k] files and then stops:
    because the token is set at the top of the next iteration, or because
    no file is left. *)
Definition stopsAfter (env : Env) (i k : nat) (files : list jsstring) : Prop :=
  (forall j, j < k -> isCancellationRequested env (i + j) = false)
  /\ k <= length files
  /\ (k < length files -> isCancellationRequested env (i + k) = true).

(** The state with more events in its trace (latest first). *)
Definition addEvents (evs : list event) (st : State) : State :=
  mkState (stats st) (hookLogs st) (lastHookLogIndex st) (latestResult st)
    (gitCalls st) (appendCalls st) (evs ++ trace st).

Definition isHookAction (e : event) : bool :=
  match e with
  | HookSkipped _ | HookCommand _ _ _ | HookFailed _ => true
  | _ => false
  end.

Definition isAgentStep (e : event) : bool :=
  match e with
  | PrimaryButtonPressed | StatusPolled _ _ | TimeoutWarning => true
  | _ => false
  end.

(** What one iteration of the loop may add to the trace, when it starts
    with the statistics [s0]: the statistics shown at each point are [s0]
    with the counting done so far. *)
Definition iterationEvent (s0 : BatchProcessingStats) (e : event) : Prop :=
  match e with
  | ProgressReport _ _ _ | GitStatus _ | HookSkipped _ | HookCommand _ _ _
  | HookFailed _ | StartNewTask _ _ | PrimaryButtonPressed | StatusPolled _ _
  | TimeoutWarning | ProcessedMessage _ _ => True
  | HooksEvaluated beforeFile s => counters s = counters s0
  | HooksEvaluated onError s => counters s = counters (bump failed s0)
  | HooksEvaluated afterFile s =>
      exists o, counters s = counters (incrProcessedFiles (bump o s0))
  | LogAppended (TaskLogBlock _ o _ _ s) =>
      counters s = counters (incrProcessedFiles (bump o s0))
  | _ => False
  end.

(** What holds of the statistics that an event shows: at the [onError]
    point the failing file is counted as failed but not yet as processed;
    everywhere else the statistics are consistent. *)
Definition observationOk (e : event) : Prop :=
  match observation e with
  | Some (Some onError, s) =>
      (processedFiles s + 1 = successfulFiles s + failedFiles s
       /\ 0 <= processedFiles s < totalFiles s)%Z
  | Some (_, s) => consistent s
  | None => True
  end.

Definition isGitStatus (e : event) : bool :=
  match e with
  | GitStatus _ => true
  | _ => false
  end.

Definition startsNoTask (e : event) : bool :=
  match e with
  | StartNewTask _ _ => false
  | _ => true
  end.

(** Appends and the agent's message log cannot reject. *)
Definition logCallsResolve (env : Env) (cline : ClineAPI)
    (logFilePath : option jsstring) : Prop :=
  logFilePath = None
  \/ ((forall n, appendFile env n = true) /\ getTaskMessages cline <> None).

Definition initialStats (env : Env) (files : list jsstring) : BatchProcessingStats :=
  mkStats (Z.of_nat (length files)) 0 0 0 0 0 (clockAtStart env) None.

Definition notCompleted (e : event) : bool :=
  match e with
  | ProgressCompleted => false
  | _ => true
  end.

End RunSpec.

(* ================================================================= *)
(** ** Sample runs *)

Module Examples.

Import FileSelection TaskManager.

(** An agent that completes at the first poll, one that rejects the
    submitted task, and one that stays active for ever. *)
Definition completing : ClineAPI :=
  mkCline true true (fun _ => Some completed) (Some []).
Definition rejecting : ClineAPI :=
  mkCline false true (fun _ => Some completed) (Some []).
Definition stuck : ClineAPI :=
  mkCline true true (fun _ => Some active) (Some []).

Definition threeFiles : list selection :=
  [(str "/ws/a.ts", Some File); (str "/ws/b.ts", Some File);
   (str "/ws/c.ts", Some File)].

Definition addComments : prompts :=
  mkPrompts (Some dialog) (Some (str "add comments")) None.

Definition onErrorHooks : list HookConfig :=
  [mkHook (str "seen") (Some (str "processedFiles >= 1")) (str "echo seen") onError;
   mkHook (str "failed") (Some (str "failedFiles >= 1")) (str "echo failed") onError].

(** Three files in [/ws], no git repository, a log file, a dashboard
    panel; the rest is given. *)
Definition world (cline : nat -> ClineAPI) (hooks : list HookConfig)
    (appends : nat -> bool) (cancel : nat -> bool) : Env :=
  mkEnv (Some (Some cline)) [str "/ws"] (Some threeFiles) addComments hooks
    false (fun _ => None) (Some (str "/home/.cline-batch-executor/logs/batch.log"))
    appends (fun _ => false) cancel (fun path _ => skipn 4 path) 1000 9000 true.

(** The first file fails. *)
Definition firstFails : Env :=
  world (fun i => match i with 0 => rejecting | _ => completing end)
    onErrorHooks (fun _ => true) (fun _ => false).

(** Cancellation is requested while the first file is processed. *)
Definition cancelledAfterOne : Env :=
  world (fun _ => completing) [] (fun _ => true)
    (fun i => match i with 0 => false | _ => true end).

(** The second append to the log file is rejected: the first is the block
    of the [beforeBatch] hooks, the second the block of the first file. *)
Definition secondAppendFails : Env :=
  world (fun _ => completing) [] (fun n => match n with 0 => true | _ => false end)
    (fun _ => false).

(** The agent never finishes the second file. *)
Definition secondStuck : Env :=
  world (fun i => match i with 1 => stuck | _ => completing end)
    [] (fun _ => true) (fun _ => false).



(** A workspace of two folders, in which the host puts the name of the
    folder before a relative path unless it is asked not to; the first
    file fails. *)
Definition twoFolders : Env :=
  mkEnv (Some (Some (fun i => match i with 0 => rejecting | _ => completing end)))
    [str "/ws"; str "/lib"] (Some threeFiles) addComments onErrorHooks
    false (fun _ => None) (Some (str "/home/.cline-batch-executor/logs/batch.log"))
    (fun _ => true) (fun _ => false) (fun _ => false)
    (fun path includeWorkspaceFolder =>
       match includeWorkspaceFolder with
       | Some false => skipn 4 path
       | _ => str "ws/" ++ skipn 4 path
       end)
    1000 9000 true.

End Examples.

Unset Implicit Arguments.

(* ================================================================= *)
(** ** batchProcessor.ts: what git prints *)

Module Git.

(** [isGitRepository(cwd)], given what [execFileAsync] settles to for
    [git rev-parse --is-inside-work-tree]: the standard output, or [None]
    when the promise rejects. *)
Definition isGitRepository (exec : option jsstring) : bool :=
  match exec with
  | Some output => jseqb (trim output) (str "true")
  | None => false
  end.

(** [getGitModifiedCount(cwd)], given what [execFileAsync] settles to for
    [git status --porcelain]; the result [None] is [null]. *)
Definition getGitModifiedCount (exec : option jsstring) : option Z :=
  match exec with
  | Some output =>
      let lines :=
        filter (fun line => (0 <? length line)%nat)
          (map trim (split TaskManager.nl output)) in
      Some (Z.of_nat (length lines))
  | None => None
  end.

End Git.

(* ================================================================= *)
(** ** batchProcessor.ts: the text of the log *)

Module LogFormat.

Import TaskManager.

(** [formatHookRunSection(hookLogs)] *)
Definition formatHookRunSection (hookLogs : list jsstring) : jsstring :=
  match hookLogs with
  | [] => str "No hooks were executed."
  | _ => join nl hookLogs
  end.

(** [buildHookRunBlock(title, hookLogs)] *)
Definition buildHookRunBlock (title : jsstring) (hookLogs : list jsstring)
    : jsstring :=
  join nl
    [str "-- Hook Runs (" ++ title ++ str ") --";
     formatHookRunSection hookLogs;
     []].

(** [timestamp.replace(/[:.]/g, '-')] in [createBatchLogFile] *)
Definition replaceColonsAndDots (timestamp : jsstring) : jsstring :=
  map (fun c => if ((c =? 58) || (c =? 46))%N then 45%N else c) timestamp.

(** The base name of the log file, [batch-${timestamp}.log], from the ISO
    string of the current date. *)
Definition logFileName (isoString : jsstring) : jsstring :=
  str "batch-" ++ replaceColonsAndDots isoString ++ str ".log".

End LogFormat.

(* ================================================================= *)
(** ** Clauses as text *)

Module ClauseText.

Import ConditionSpec.

(** No code unit of [s] is one of [&], [<], [=], [>]. *)
Definition plain (s : jsstring) : bool :=
  forallb (fun c => negb (operatorUnit c)) s.

(** The test that the evaluator makes for an operator, on the value of the
    variable and on what [parseInt] makes of the right-hand side. *)
Definition passes (o : operator) (varValue : Z) (value : number) : bool :=
  match o with
  | Ge => negb (lt varValue value)
  | Le => negb (gt varValue value)
  | Gt => negb (le varValue value)
  | Lt => negb (ge varValue value)
  | Eq => negb (strict_ne varValue value)
  end.

(** A clause with any white space around its three parts. *)
Definition spaced (p0 p1 p2 p3 : jsstring) (c : clause) : jsstring :=
  p0 ++ variable c ++ p1 ++ opText (op c) ++ p2
     ++ integerLiteral (literal c) ++ p3.

End ClauseText.

(* ================================================================= *)
(** ** The files below a directory *)

Module TreeSpec.

Import FileSelection.

(** [fileAt contents names]: following [names] from a directory that holds
    [contents] leads through listed subdirectories to a listed file. *)
Inductive fileAt : DirContents -> list jsstring -> Prop :=
| fileHere entries name :
    In (name, File) entries -> fileAt (Entries entries) [name]
| fileBelow entries name sub names :
    In (name, Directory sub) entries -> fileAt sub names ->
    fileAt (Entries entries) (name :: names).

End TreeSpec.

(* ================================================================= *)
(** ** The polls of one agent call *)

Module PollSpec.

Definition isStatusPolled (e : event) : bool :=
  match e with
  | StatusPolled _ _ => true
  | _ => false
  end.

(** The polls that find the task active, [count] of them from the poll
    number [first] on, [checkInterval] apart. *)
Definition activePolls (first count : nat) : list event :=
  map (fun j => StatusPolled (Z.of_nat j * ClineIntegration.checkInterval) active)
    (seq first count).

(** The events of a call in which the agent accepts the task, is found
    active at the first [n] polls and in the terminal state [status] at the
    next, oldest first. *)
Definition settledCall (filePath taskDescription : jsstring) (n : nat)
    (status : TaskStatus) : list event :=
  [StartNewTask filePath taskDescription; PrimaryButtonPressed]
  ++ activePolls 0 n
  ++ [StatusPolled (Z.of_nat n * ClineIntegration.checkInterval) status].

End PollSpec.

(* ================================================================= *)
(** ** What the hooks of one lifecycle point do *)

Module HookSpec.

Import HookRunner.

(** What [executeHooks] does with one hook of the lifecycle point, oldest
    first: it passes it over when its condition fails, and otherwise issues
    its command, which may throw. *)
Definition hookEvents (env : Env) (snapshot : BatchProcessingStats)
    (hook : HookConfig) : list event :=
  if conditionFails hook snapshot then [HookSkipped (name hook)]
  else
    let viaHost := startsWith (str "vscode:") (command hook) in
    HookCommand (name hook) viaHost
      (if viaHost then skipn 7 (command hook) else command hook)
    :: (if commandThrows env (command hook) then [HookFailed (name hook)] else []).

(** What is handed over for execution when the command of a hook is
    issued: the name of the hook, whether the command goes to the host
    editor, and the text of the command (without the prefix [vscode:] in
    that case). *)
Definition commandOf (hook : HookConfig)
    : jsstring * bool * jsstring :=
  let viaHost := startsWith (str "vscode:") (command hook) in
  (name hook, viaHost,
   if viaHost then skipn 7 (command hook) else command hook).

(** The commands issued, oldest first. *)
Fixpoint issuedCommands (chronological : list event)
    : list (jsstring * bool * jsstring) :=
  match chronological with
  | [] => []
  | HookCommand hookName viaHost commandText :: rest =>
      (hookName, viaHost, commandText) :: issuedCommands rest
  | _ :: rest => issuedCommands rest
  end.

(** The hooks registered for a lifecycle point, in the order of the
    configuration. *)
Definition hooksAt (at_ : RunAt) (hooks : list HookConfig) : list HookConfig :=
  filter (fun hook => RunAt_eqb (runAt hook) at_) hooks.

(** The two lines that one call of [runHooksWithLogging] leaves in
    [hookLogs]. *)
Definition hookLines (env : Env) (hooks : list HookConfig) (at_ : RunAt)
    (fileUri : option jsstring) : list hookLogLine :=
  let fileLabel :=
    match fileUri with
    | Some uri => RunSpec.fileLabelOf env uri
    | None => []
    end in
  [LineStart at_ fileLabel
     (map (fun hook => ClineIntegration.orElse (name hook) (str "(no name)"))
        (hooksAt at_ hooks));
   LineCompleted at_ fileLabel].

End HookSpec.

(* ================================================================= *)
(** ** What a run leaves in the log and in the statistics *)

Module LogSpec.

Import BatchProcessor RunSpec HookSpec.

(** An event that is neither an answer of git nor a block appended to the
    log. *)
Definition quietEvent (e : event) : bool :=
  match e with
  | GitStatus _ | LogAppended _ => false
  | _ => true
  end.

Definition notGitStatus (e : event) : bool := negb (isGitStatus e).

(** The number of modified files that the latest answer of git gave, among
    the events [latestFirst]; [otherwise] when git gave none.  A [git
    status] that failed gives no number. *)
Fixpoint lastGitAnswer (latestFirst : list event) (otherwise : Z) : Z :=
  match latestFirst with
  | [] => otherwise
  | GitStatus (Some n) :: _ => n
  | _ :: rest => lastGitAnswer rest otherwise
  end.

(** The blocks appended to the log file, oldest first. *)
Fixpoint appendedBlocks (chronological : list event) : list logBlock :=
  match chronological with
  | [] => []
  | LogAppended block :: rest => block :: appendedBlocks rest
  | _ :: rest => appendedBlocks rest
  end.

(** The blocks appended by the events [evs] (latest first). *)
Definition blocksOf (evs : list event) : list logBlock :=
  appendedBlocks (rev evs).

(** A block without its snapshot of the statistics. *)
Inductive blockShape :=
| HeaderShape
| HookRunShape (title : RunAt) (lines : list hookLogLine)
| TaskShape (fileLabel : jsstring) (status : taskOutcome)
    (messages : list ClineMessage) (lines : list hookLogLine)
| SummaryShape.

Definition shapeOf (block : logBlock) : blockShape :=
  match block with
  | HeaderBlock _ _ _ => HeaderShape
  | HookRunBlock title lines => HookRunShape title lines
  | TaskLogBlock fileLabel status messages lines _ =>
      TaskShape fileLabel status messages lines
  | SummaryBlock _ => SummaryShape
  end.

(** The messages that the agent hands over (none when the call rejects). *)
Definition messagesOf (cline : ClineAPI) : list ClineMessage :=
  match getTaskMessages cline with
  | Some messages => messages
  | None => []
  end.

(** The hook-log lines of one iteration of the loop: the [beforeFile]
    hooks, the [onError] hooks when the agent call throws, the [afterFile]
    hooks. *)
Definition iterationLines (env : Env) (hooks : list HookConfig)
    (file : jsstring) (status : taskOutcome) : list hookLogLine :=
  hookLines env hooks beforeFile (Some file)
  ++ match status with
     | failed => hookLines env hooks onError (Some file)
     | success => []
     end
  ++ hookLines env hooks afterFile (Some file).

(** The outcomes of the agent calls for [files], the first of which is at
    the index [i] of the loop. *)
Fixpoint outcomes (env : Env) (cline : nat -> ClineAPI)
    (taskDescription : jsstring) (files : list jsstring) (i : nat)
    : list taskOutcome :=
  match files with
  | [] => []
  | file :: rest =>
      agentOutcome env (cline i) file taskDescription
      :: outcomes env cline taskDescription rest (S i)
  end.

Definition isSuccess (o : taskOutcome) : bool :=
  match o with success => true | failed => false end.

Definition successes (l : list taskOutcome) : nat := length (filter isSuccess l).

Definition failures (l : list taskOutcome) : nat :=
  length (filter (fun o => negb (isSuccess o)) l).

(** The task blocks of [files], the first of which is at the index [i]. *)
Fixpoint taskShapes (env : Env) (cline : nat -> ClineAPI)
    (hooks : list HookConfig) (taskDescription : jsstring)
    (files : list jsstring) (i : nat) : list blockShape :=
  match files with
  | [] => []
  | file :: rest =>
      let status := agentOutcome env (cline i) file taskDescription in
      TaskShape (shownLabelOf env file) status (messagesOf (cline i))
        (iterationLines env hooks file status)
      :: taskShapes env cline hooks taskDescription rest (S i)
  end.

(** The blocks that a run appends to its log file when [k] files are
    processed. *)
Definition expectedLog (env : Env) (cline : nat -> ClineAPI)
    (taskDescription : jsstring) (files : list jsstring) (k : nat)
    : list blockShape :=
  [HookRunShape beforeBatch (hookLines env (hookConfigs env) beforeBatch None)]
  ++ taskShapes env cline (hookConfigs env) taskDescription (firstn k files) 0
  ++ [HookRunShape afterBatch (hookLines env (hookConfigs env) afterBatch None);
      SummaryShape].

(** What a step of the run does to the trace and to [modifiedFiles]: it
    adds the events [evs] (latest first), none of them an answer of git
    when the run does not ask git, and [modifiedFiles] follows the answers
    of git among them. *)
Definition step (env : Env) (st st' : State) (evs : list event) : Prop :=
  trace st' = evs ++ trace st
  /\ (refreshSteps env = [] -> forallb notGitStatus evs = true)
  /\ modifiedFiles (stats st')
     = lastGitAnswer evs (modifiedFiles (stats st)).

(** The errors that the logging of a run can throw. *)
Definition loggingError (env : Env) (cline : nat -> ClineAPI) (e : error)
    : Prop :=
  (e = AppendFileRejected /\ exists n, appendFile env n = false)
  \/ (e = AgentCallRejected /\ exists i, getTaskMessages (cline i) = None).

End LogSpec.

Module Accounting.

Import LogSpec.

(** The statistics [s'] are the statistics [s] with the outcomes [os]
    counted: nothing else than the four counters changes, but for
    [modifiedFiles], which git refreshes. *)
Definition counted (os : list taskOutcome) (s s' : BatchProcessingStats)
    : Prop :=
  (totalFiles s' = totalFiles s
   /\ startTime s' = startTime s
   /\ endTime s' = endTime s
   /\ processedFiles s' = processedFiles s + Z.of_nat (length os)
   /\ successfulFiles s' = successfulFiles s + Z.of_nat (successes os)
   /\ failedFiles s' = failedFiles s + Z.of_nat (failures os)
   /\ errorCount s' = errorCount s + Z.of_nat (failures os))%Z.

End Accounting.

(* ================================================================= *)
(** ** dashboard.ts: the panels *)

(** [dashboard.ts] keeps two module variables, [activePanel] and
    [latestResult].  A panel is named by the number of panels created
    before it; a post is a [batchProcessingCompleted] message with the
    panel that it is posted to. *)
Module DashboardPanels.

Record Panels := mkPanels {
  activePanel : option nat;
  latestResult : option DashboardResult;
  panelsCreated : nat
}.

Definition post : Type := nat * DashboardResult.

(** What happens to the module: the command [openDashboard], the
    [onDidDispose] event of a panel, the message [requestLatestStats] from
    the web view of a panel, and a call of [notifyDashboardResult]. *)
Inductive action :=
| OpenDashboard
| PanelDisposed (panel : nat)
| RequestLatestStats (panel : nat)
| NotifyDashboardResult (stats : BatchProcessingStats) (now : Z).

(** [if (latestResult) panel.webview.postMessage(...)] *)
Definition postLatest (panel : nat) (d : Panels) : list post :=
  match latestResult d with
  | Some result => [(panel, result)]
  | None => []
  end.

(** [openDashboard(context)] *)
Definition openDashboard (d : Panels) : Panels * list post :=
  let panel := panelsCreated d in
  let d' := mkPanels (Some panel) (latestResult d) (S (panelsCreated d)) in
  (d', postLatest panel d').

(** [panel.onDidDispose(() => { activePanel = undefined; })] *)
Definition onDidDispose (panel : nat) (d : Panels) : Panels * list post :=
  (mkPanels None (latestResult d) (panelsCreated d), []).

(** [case 'requestLatestStats'] of the message handler of [panel] *)
Definition requestLatestStats (panel : nat) (d : Panels) : Panels * list post :=
  (d, postLatest panel d).

Definition resultOf (stats : BatchProcessingStats) (now : Z) : DashboardResult :=
  let finished := match endTime stats with Some t => t | None => now end in
  mkResult stats (finished - startTime stats)%Z finished.

(** [notifyDashboardResult(stats)]; [now] is [Date.now()]. *)
Definition notifyDashboardResult (stats : BatchProcessingStats) (now : Z)
    (d : Panels) : Panels * list post :=
  let result := resultOf stats now in
  let d' := mkPanels (activePanel d) (Some result) (panelsCreated d) in
  (d',
   match activePanel d' with
   | Some panel => [(panel, result)]
   | None => []
   end).

Definition perform (a : action) (d : Panels) : Panels * list post :=
  match a with
  | OpenDashboard => openDashboard d
  | PanelDisposed panel => onDidDispose panel d
  | RequestLatestStats panel => requestLatestStats panel d
  | NotifyDashboardResult stats now => notifyDashboardResult stats now d
  end.

(** The actions [acts] one after the other; the posts oldest first. *)
Fixpoint performAll (acts : list action) (d : Panels) : Panels * list post :=
  match acts with
  | [] => (d, [])
  | a :: rest =>
      let (d1, posts1) := perform a d in
      let (d2, posts2) := performAll rest d1 in
      (d2, posts1 ++ posts2)
  end.

(** The module when the extension is loaded. *)
Definition loaded : Panels := mkPanels None None 0.

(** The result of the latest notification among [acts], [otherwise] when
    there is none. *)
Fixpoint latestNotified (acts : list action) (otherwise : option DashboardResult)
    : option DashboardResult :=
  match acts with
  | [] => otherwise
  | NotifyDashboardResult stats now :: rest =>
      latestNotified rest (Some (resultOf stats now))
  | _ :: rest => latestNotified rest otherwise
  end.

Definition opensNoPanel (a : action) : bool :=
  match a with
  | OpenDashboard => false
  | _ => true
  end.

Definition isOpenDashboard (a : action) : bool := negb (opensNoPanel a).

(** The panels that are open after [acts], when [created] panels have been
    created before and [open] are open. *)
Fixpoint openPanels (acts : list action) (created : nat) (open : list nat)
    : list nat :=
  match acts with
  | [] => open
  | OpenDashboard :: rest => openPanels rest (S created) (created :: open)
  | PanelDisposed panel :: rest =>
      openPanels rest created (filter (fun p => negb (Nat.eqb p panel)) open)
  | _ :: rest => openPanels rest created open
  end.

End DashboardPanels.

(* ================================================================= *)
(** ** hookManager.ts: the hooks as the configuration file gives them *)

(** [loadHookConfigs] hands over the array [config.hooks] of the parsed
    file without looking at its elements, and [HookConfig] is a type of the
    compiler only.  An element is [null], or a value whose properties can be
    read.  What the code does with the four properties depends on this
    much of each: whether [runAt] is one of the five lifecycle points;
    whether [condition] is a string, and whether it is truthy; whether
    [command] is a string; whether [name] can be turned into text (an
    object with a [toString] of its own cannot), and whether it is
    truthy. *)
Module RawHooks.

Import HookRunner BatchProcessor.

Inductive rawName :=
| Printed (truthy : bool) (text : jsstring)
| Unprintable.

Inductive rawCondition :=
| NotText (truthy : bool)
| Text (s : jsstring).

Record rawHook := mkRawHook {
  hookName : rawName;
  hookCondition : rawCondition;
  hookCommand : option jsstring;
  hookRunAt : option RunAt
}.

Inductive entry :=
| NullEntry
| Entry (hook : rawHook).

(** How a call ends: it returns, or a [TypeError] leaves it. *)
Inductive outcome := Done | TypeError.

Definition isNull (e : entry) : bool :=
  match e with
  | NullEntry => true
  | Entry _ => false
  end.

(** [hooks.filter(hook => hook.runAt === runAt)], once no element is
    [null]. *)
Definition targeted (at_ : RunAt) (entries : list entry) : list rawHook :=
  flat_map
    (fun e =>
       match e with
       | NullEntry => []
       | Entry hook =>
           match hookRunAt hook with
           | Some a => if RunAt_eqb a at_ then [hook] else []
           | None => []
           end
       end)
    entries.

(** [hook.condition && !evaluateCondition(hook.condition, stats)]: [None]
    when [condition.trim()] throws, which is outside the [try] block of
    [evaluateCondition]. *)
Definition conditionFails (hook : rawHook) (snapshot : BatchProcessingStats)
    : option bool :=
  match hookCondition hook with
  | NotText true => None
  | NotText false => Some false
  | Text [] => Some false
  | Text c => Some (negb (evaluateCondition c snapshot))
  end.

(** One round of the loop of [executeHooks].  The name is printed in the
    message of a hook that is passed over, at the head of the [try] block
    and in the [catch] block; a command that is no string throws inside
    the [try] block. *)
Definition runHook (env : Env) (hook : rawHook)
    (snapshot : BatchProcessingStats) (st : State) : outcome * State :=
  match conditionFails hook snapshot with
  | None => (TypeError, st)
  | Some fails =>
      match hookName hook with
      | Unprintable => (TypeError, st)
      | Printed _ text =>
          if fails then (Done, withTrace (HookSkipped text) st)
          else
            match hookCommand hook with
            | None => (Done, withTrace (HookFailed text) st)
            | Some command =>
                let viaHost := startsWith (str "vscode:") command in
                let commandText := if viaHost then skipn 7 command else command in
                let st1 := withTrace (HookCommand text viaHost commandText) st in
                if commandThrows env command
                then (Done, withTrace (HookFailed text) st1)
                else (Done, st1)
            end
      end
  end.

Fixpoint hookLoop (env : Env) (filteredHooks : list rawHook)
    (snapshot : BatchProcessingStats) (st : State) : outcome * State :=
  match filteredHooks with
  | [] => (Done, st)
  | hook :: rest =>
      match runHook env hook snapshot st with
      | (Done, st1) => hookLoop env rest snapshot st1
      | (TypeError, st1) => (TypeError, st1)
      end
  end.

(** [executeHooks(hooks, runAt, stats, fileUri)] *)
Definition executeHooks (env : Env) (entries : list entry) (at_ : RunAt)
    (st : State) : outcome * State :=
  if existsb isNull entries then (TypeError, st)
  else
    hookLoop env (targeted at_ entries) (stats st)
      (withTrace (HooksEvaluated at_ (stats st)) st).

(** [hook.name || '(no name)'], as [join] prints it. *)
Definition nameOrDefault (hook : rawHook) : option jsstring :=
  match hookName hook with
  | Printed true text => Some text
  | Printed false _ => Some (str "(no name)")
  | Unprintable => None
  end.

Fixpoint hookNames (targetHooks : list rawHook) : option (list jsstring) :=
  match targetHooks with
  | [] => Some []
  | hook :: rest =>
      match nameOrDefault hook, hookNames rest with
      | Some text, Some texts => Some (text :: texts)
      | _, _ => None
      end
  end.

(** [runHooksWithLogging(hooks, runAt, stats, hookLogs, fileUri)] *)
Definition runHooksWithLogging (env : Env) (entries : list entry)
    (at_ : RunAt) (fileUri : option jsstring) (st : State) : outcome * State :=
  if existsb isNull entries then (TypeError, st)
  else
    let targetHooks := targeted at_ entries in
    let fileLabel :=
      match fileUri with
      | Some uri =>
          ClineIntegration.orElse (asRelativePath env uri (Some false)) uri
      | None => []
      end in
    match hookNames targetHooks with
    | None => (TypeError, st)
    | Some names =>
        let st1 := pushHookLog (LineStart at_ fileLabel names) st in
        match executeHooks env entries at_ st1 with
        | (Done, st2) => (Done, pushHookLog (LineCompleted at_ fileLabel) st2)
        | (TypeError, st2) => (Done, pushHookLog (LineFailed at_ fileLabel) st2)
        end
    end.

(** An element that conforms to [HookConfig]. *)
Definition conforming (hook : HookConfig) : entry :=
  Entry
    (mkRawHook
       (Printed (match name hook with [] => false | _ => true end) (name hook))
       (match condition hook with
        | Some c => Text c
        | None => NotText false
        end)
       (Some (command hook)) (Some (runAt hook))).

(** A hook that makes [executeHooks] throw when its turn comes. *)
Definition faulty (hook : rawHook) : bool :=
  match hookCondition hook, hookName hook with
  | NotText true, _ => true
  | _, Unprintable => true
  | _, _ => false
  end.

Definition truthyNotText (hook : rawHook) : bool :=
  match hookCondition hook with
  | NotText true => true
  | _ => false
  end.

Definition unprintable (hook : rawHook) : bool :=
  match hookName hook with
  | Unprintable => true
  | Printed _ _ => false
  end.

(** What the hook hands over for execution when its turn comes and
    nothing throws before: nothing when its condition fails or its command
    is no string. *)
Definition commandsOf (snapshot : BatchProcessingStats) (hook : rawHook)
    : list (jsstring * bool * jsstring) :=
  match conditionFails hook snapshot, hookName hook, hookCommand hook with
  | Some false, Printed _ text, Some command =>
      let viaHost := startsWith (str "vscode:") command in
      [(text, viaHost, if viaHost then skipn 7 command else command)]
  | _, _, _ => []
  end.

(** What one round of the loop leaves in the trace when nothing throws,
    oldest first. *)
Definition hookEvents (env : Env) (snapshot : BatchProcessingStats)
    (hook : rawHook) : list event :=
  match conditionFails hook snapshot, hookName hook with
  | Some true, Printed _ text => [HookSkipped text]
  | Some false, Printed _ text =>
      match hookCommand hook with
      | None => [HookFailed text]
      | Some command =>
          let viaHost := startsWith (str "vscode:") command in
          HookCommand text viaHost (if viaHost then skipn 7 command else command)
          :: (if commandThrows env command then [HookFailed text] else [])
      end
  | _, _ => []
  end.

End RawHooks.

(* ================================================================= *)
(** ** batchProcessor.ts: the events that end a run *)

Module CompletionSpec.

Import BatchProcessor RunSpec HookSpec.

(** The events of steps 9 to 11 of [startBatchProcessing], oldest first, as
    they stand in the trace of a run that ends in the state [final]: the
    end time, the answer of git (when the run asks git), the [afterBatch]
    hooks with what each of them does, the two blocks appended to the log
    (when a log file is open), the message posted to the dashboard (when a
    panel is open), the path of the log and the final message. *)
Definition completionEvents (env : Env) (final : State) : list event :=
  let s := stats final in
  let hooks := hookConfigs env in
  [EndTimeSet (clockAtEnd env)]
  ++ match refreshSteps env with
     | [] => []
     | _ :: _ => [GitStatus (gitModifiedCount env (pred (gitCalls final)))]
     end
  ++ [HooksEvaluated afterBatch s]
  ++ flat_map (hookEvents env s) (hooksAt afterBatch hooks)
  ++ match logFile env with
     | Some _ =>
         [LogAppended
            (HookRunBlock afterBatch (hookLines env hooks afterBatch None));
          LogAppended (SummaryBlock s)]
     | None => []
     end
  ++ (if activePanel env
      then [DashboardPosted
              (mkResult s (clockAtEnd env - startTime s)%Z (clockAtEnd env))]
      else [])
  ++ match logFile env with
     | Some path => [LogPathMessage path]
     | None => []
     end
  ++ [FinalSummaryMessage s].

End CompletionSpec.

(* ================================================================= *)
(** * Properties *)

Unset Implicit Arguments.

(** ** Strings: search, split and trim *)

Section StringFacts.

Lemma unit_eqb_sym a b : unit_eqb a b = unit_eqb b a.
Proof. apply N.eqb_sym. Qed.

Lemma noUnit_app h a b : noUnit h (a ++ b) = noUnit h a && noUnit h b.
Proof. apply forallb_app. Qed.

Lemma startsWith_absent h t s :
  noUnit h s = true -> startsWith (h :: t) s = false.
Proof.
  destruct s as [|c s]; simpl; [reflexivity|].
  intros H. apply andb_prop in H as [H _].
  unfold unit_eqb. rewrite N.eqb_sym.
  apply negb_true_iff in H. now rewrite H.
Qed.

Lemma includes_absent h t s :
  noUnit h s = true -> includes (h :: t) s = false.
Proof.
  induction s as [|c s IH]; intros H.
  - reflexivity.
  - cbn [includes]. rewrite (startsWith_absent h t _ H).
    simpl in H. apply andb_prop in H as [_ H]. now apply IH.
Qed.

Lemma includes_skip h t a b :
  noUnit h a = true -> includes (h :: t) (a ++ b) = includes (h :: t) b.
Proof.
  induction a as [|c a IH]; intros H; [reflexivity|].
  simpl in H. apply andb_prop in H as [Hc Ha].
  change ((c :: a) ++ b) with (c :: (a ++ b)).
  cbn [includes]. rewrite (IH Ha).
  replace (startsWith (h :: t) (c :: a ++ b)) with false; [reflexivity|].
  simpl. unfold unit_eqb. rewrite N.eqb_sym.
  apply negb_true_iff in Hc. now rewrite Hc.
Qed.

Lemma startsWith_app p s : startsWith p (p ++ s) = true.
Proof.
  induction p as [|c p IH]; [reflexivity|].
  simpl. unfold unit_eqb. now rewrite N.eqb_refl.
Qed.

Lemma startsWith_app_r p s t :
  startsWith p s = true -> startsWith p (s ++ t) = true.
Proof.
  revert s. induction p as [|c p IH]; intros [|d s] H; simpl in *;
    try reflexivity; try discriminate.
  apply andb_prop in H as [H1 H2]. rewrite H1. now apply IH.
Qed.

Lemma includes_here p s : includes p (p ++ s) = true.
Proof.
  destruct p as [|c p]; [destruct s; reflexivity|].
  change ((c :: p) ++ s) with (c :: (p ++ s)).
  cbn [includes].
  change (c :: p ++ s) with ((c :: p) ++ s).
  now rewrite startsWith_app.
Qed.

Lemma split_from_skip sep p b :
  split_from sep (p ++ b) (length p) = split_from sep b 0.
Proof. induction p as [|c p IH]; [reflexivity|]. exact IH. Qed.

Lemma split_absent h t s :
  noUnit h s = true -> split (h :: t) s = [s].
Proof.
  unfold split. induction s as [|c s IH]; intros H; [reflexivity|].
  cbn [split_from]. rewrite (startsWith_absent h t _ H).
  simpl in H. apply andb_prop in H as [_ H]. now rewrite (IH H).
Qed.

Lemma split_at h t a b :
  noUnit h a = true ->
  split (h :: t) (a ++ (h :: t) ++ b) = a :: split (h :: t) b.
Proof.
  unfold split. induction a as [|c a IH]; intros H.
  - change ([] ++ (h :: t) ++ b) with (h :: (t ++ b)).
    cbn [split_from].
    change (h :: t ++ b) with ((h :: t) ++ b). rewrite startsWith_app.
    change (length (h :: t) - 1) with (length t - 0).
    rewrite Nat.sub_0_r. now rewrite split_from_skip.
  - change ((c :: a) ++ (h :: t) ++ b) with (c :: (a ++ (h :: t) ++ b)).
    cbn [split_from].
    replace (startsWith (h :: t) (c :: a ++ (h :: t) ++ b)) with false.
    + simpl in H. apply andb_prop in H as [_ H]. now rewrite (IH H).
    + simpl in H. apply andb_prop in H as [H _].
      simpl. unfold unit_eqb. rewrite N.eqb_sym.
      apply negb_true_iff in H. now rewrite H.
Qed.

Lemma trimStart_white p x :
  allWhiteSpace p = true -> trimStart (p ++ x) = trimStart x.
Proof.
  induction p as [|c p IH]; intros H; [reflexivity|].
  simpl in H. apply andb_prop in H as [Hc Hp].
  simpl. rewrite Hc. now apply IH.
Qed.

Lemma trimStart_clean x : startsClean x = true -> trimStart x = x.
Proof.
  destruct x as [|c x]; [reflexivity|].
  simpl. intros H. apply negb_true_iff in H. now rewrite H.
Qed.

Lemma allWhiteSpace_rev q : allWhiteSpace (rev q) = allWhiteSpace q.
Proof.
  unfold allWhiteSpace. induction q as [|c q IH]; [reflexivity|].
  simpl. rewrite forallb_app, IH. simpl. rewrite andb_true_r.
  apply andb_comm.
Qed.

Lemma noWhiteSpace_rev q : noWhiteSpace (rev q) = noWhiteSpace q.
Proof.
  unfold noWhiteSpace. induction q as [|c q IH]; [reflexivity|].
  simpl. rewrite forallb_app, IH. simpl. rewrite andb_true_r.
  apply andb_comm.
Qed.

Lemma noWhiteSpace_clean x : noWhiteSpace x = true -> startsClean x = true.
Proof.
  destruct x as [|c x]; [reflexivity|].
  simpl. intros H. now apply andb_prop in H as [H _].
Qed.

(** Trimming removes the white space around a string that has none at its
    two ends. *)
Lemma trim_padded p x q :
  x <> [] -> startsClean x = true -> startsClean (rev x) = true ->
  allWhiteSpace p = true -> allWhiteSpace q = true ->
  trim (p ++ x ++ q) = x.
Proof.
  intros Hx Hs He Hp Hq. unfold trim, trimEnd.
  rewrite (trimStart_white _ _ Hp).
  rewrite (trimStart_clean (x ++ q)).
  - rewrite rev_app_distr, trimStart_white by now rewrite allWhiteSpace_rev.
    rewrite (trimStart_clean _ He). apply rev_involutive.
  - destruct x; [contradiction|exact Hs].
Qed.

Lemma trim_empty_iff_white s : trim s = [] <-> allWhiteSpace s = true.
Proof.
  unfold trim, trimEnd. split.
  - intros H. apply (f_equal (@rev _)) in H. rewrite rev_involutive in H.
    simpl in H.
    assert (T : forall y, trimStart y = [] -> allWhiteSpace y = true).
    { induction y as [|c y IH]; [reflexivity|].
      simpl. destruct (isWhiteSpace c); [exact IH|discriminate]. }
    apply T in H. rewrite allWhiteSpace_rev in H.
    induction s as [|c s IH]; [reflexivity|].
    simpl in *. destruct (isWhiteSpace c) eqn:E; simpl.
    + now apply IH.
    + simpl in H. now rewrite E in H.
  - intros H. rewrite <- (app_nil_r s), (trimStart_white _ _ H). reflexivity.
Qed.

End StringFacts.

(** ** Numerals *)

Section NumeralFacts.

Lemma digit_not_white c : digitUnit c = true -> isWhiteSpace c = false.
Proof.
  unfold digitUnit, isWhiteSpace. intros H.
  apply andb_prop in H as [H1 H2].
  apply N.leb_le in H1. apply N.leb_le in H2.
  repeat match goal with
         | |- (_ || _)%bool = false => apply orb_false_intro
         | |- ((_ <=? _)%N && (_ <=? _)%N)%bool = false =>
             apply andb_false_iff; first
               [ left; apply N.leb_gt; lia | right; apply N.leb_gt; lia ]
         | |- (_ =? _)%N = false => apply N.eqb_neq; lia
         end.
Qed.

Lemma digit_value c :
  digitUnit c = true -> digitValue 10 c = Some (Z.of_N c - 48)%Z.
Proof.
  unfold digitUnit, digitValue. intros H. rewrite H.
  apply andb_prop in H as [H1 H2].
  apply N.leb_le in H1. apply N.leb_le in H2.
  destruct (Z.ltb_spec (Z.of_N c - 48) 10); [reflexivity|lia].
Qed.

Lemma digits_of_uint d :
  forallb digitUnit (str (NilEmpty.string_of_uint d)) = true.
Proof. induction d; simpl; auto. Qed.

Lemma digits_of_number n : forallb digitUnit (numberToString n) = true.
Proof.
  unfold numberToString, NilZero.string_of_uint.
  destruct (Nat.to_uint n); [reflexivity|..];
    match goal with
    | |- context [NilEmpty.string_of_uint ?d] => exact (digits_of_uint d)
    end.
Qed.

Lemma number_nonempty n : numberToString n <> [].
Proof.
  unfold numberToString, NilZero.string_of_uint.
  destruct (Nat.to_uint n); simpl; discriminate.
Qed.

Lemma digitsFrom_cons c s a :
  digitUnit c = true ->
  digitsFrom 10 (c :: s) (Some a)
  = digitsFrom 10 s (Some (a * 10 + (Z.of_N c - 48))%Z).
Proof. intros H. cbn [digitsFrom]. now rewrite (digit_value _ H). Qed.

Lemma digitsFrom_uint d acc :
  digitsFrom 10 (str (NilEmpty.string_of_uint d)) (Some (Z.of_nat acc))
  = Some (Z.of_nat (Nat.of_uint_acc d acc)).
Proof.
  revert acc.
  induction d; intros acc; cbn [NilEmpty.string_of_uint Nat.of_uint_acc];
    [reflexivity|..];
    (match goal with
     | |- context [str (String ?a ?r)] =>
         change (str (String a r)) with (N_of_ascii a :: str r)
     end;
     rewrite digitsFrom_cons by reflexivity;
     rewrite <- IHd; do 2 f_equal;
     rewrite Nat.tail_mul_spec; simpl Z.of_N; lia).
Qed.

Lemma digitsFrom_start s :
  s <> [] -> forallb digitUnit s = true ->
  digitsFrom 10 s None = digitsFrom 10 s (Some 0%Z).
Proof.
  destruct s as [|c s]; [contradiction|]. intros _ H.
  simpl in H. apply andb_prop in H as [H _].
  cbn [digitsFrom]. now rewrite (digit_value _ H).
Qed.

Lemma digitsFrom_number n :
  digitsFrom 10 (numberToString n) None = Some (Z.of_nat n).
Proof.
  rewrite digitsFrom_start
    by (apply number_nonempty || apply digits_of_number).
  unfold numberToString, NilZero.string_of_uint.
  rewrite <- (DecimalNat.Unsigned.of_to n) at 2.
  unfold Nat.of_uint.
  destruct (Nat.to_uint n); [reflexivity|..];
    match goal with
    | |- context [NilEmpty.string_of_uint ?d] => exact (digitsFrom_uint d 0)
    end.
Qed.

(** A numeral has no [0x] prefix. *)
Lemma radix_of_digits (s : jsstring) :
  forallb digitUnit s = true ->
  match s with
  | c0 :: c1 :: r =>
      if ((c0 =? 48) && ((c1 =? 120) || (c1 =? 88)))%N then (16%Z, r)
      else (10%Z, s)
  | _ => (10%Z, s)
  end = (10%Z, s).
Proof.
  destruct s as [|c0 [|c1 r]]; try reflexivity.
  simpl. intros H. apply andb_prop in H as [_ H].
  apply andb_prop in H as [H _].
  unfold digitUnit in H. apply andb_prop in H as [H1 H2].
  apply N.leb_le in H1. apply N.leb_le in H2.
  replace (c1 =? 120)%N with false by (symmetry; apply N.eqb_neq; lia).
  replace (c1 =? 88)%N with false by (symmetry; apply N.eqb_neq; lia).
  now rewrite andb_false_r.
Qed.

Lemma parseInt_digits s :
  s <> [] -> forallb digitUnit s = true ->
  parseInt s = match digitsFrom 10 s None with Some v => Num v | None => NaN end.
Proof.
  intros Hs Hd. unfold parseInt.
  destruct s as [|c s]; [contradiction|].
  assert (Hc : digitUnit c = true) by (simpl in Hd; now apply andb_prop in Hd).
  rewrite trimStart_clean by (simpl; now rewrite (digit_not_white _ Hc)).
  unfold digitUnit in Hc. apply andb_prop in Hc as [H1 H2].
  apply N.leb_le in H1. apply N.leb_le in H2.
  replace (c =? 45)%N with false by (symmetry; apply N.eqb_neq; lia).
  replace (c =? 43)%N with false by (symmetry; apply N.eqb_neq; lia).
  rewrite (radix_of_digits _ Hd). reflexivity.
Qed.

Lemma parseInt_minus_digits s :
  s <> [] -> forallb digitUnit s = true ->
  parseInt (45%N :: s)
  = match digitsFrom 10 s None with Some v => Num (- v) | None => NaN end.
Proof.
  intros Hs Hd. unfold parseInt.
  rewrite trimStart_clean by reflexivity.
  change (45 =? 45)%N with true. cbv iota beta.
  rewrite (radix_of_digits _ Hd). reflexivity.
Qed.

End NumeralFacts.

(** ** hookManager.ts: the condition evaluator *)

Section ConditionFacts.

Import ConditionSpec.

Lemma forallb_impl {A} (P Q : A -> bool) (l : list A) :
  (forall a, P a = true -> Q a = true) ->
  forallb P l = true -> forallb Q l = true.
Proof.
  intros HPQ. induction l as [|a l IH]; simpl; [reflexivity|].
  intros H. apply andb_prop in H as [Ha Hl].
  rewrite (HPQ _ Ha). now apply IH.
Qed.

Lemma literal_units z : forallb literalUnit (integerLiteral z) = true.
Proof.
  unfold integerLiteral. rewrite forallb_app. apply andb_true_intro. split.
  - destruct (z <? 0)%Z; reflexivity.
  - apply forallb_impl with (P := digitUnit); [|apply digits_of_number].
    intros a Ha. unfold literalUnit. rewrite Ha. apply orb_true_r.
Qed.

Lemma literalUnit_not_white c : literalUnit c = true -> isWhiteSpace c = false.
Proof.
  unfold literalUnit. intros H. apply orb_prop in H as [H|H].
  - apply N.eqb_eq in H. now subst.
  - now apply digit_not_white.
Qed.

Lemma literalUnit_not_operator h c :
  operatorUnit h = true -> literalUnit c = true -> negb (c =? h)%N = true.
Proof.
  unfold operatorUnit, literalUnit, digitUnit. intros Hh Hc.
  apply negb_true_iff, N.eqb_neq. intros ->.
  repeat (apply orb_prop in Hh as [Hh|Hh]); apply N.eqb_eq in Hh; subst;
    discriminate.
Qed.

Lemma nameUnit_not_operator h c :
  operatorUnit h = true -> nameUnit c = true -> negb (c =? h)%N = true.
Proof.
  unfold operatorUnit, nameUnit. intros Hh Hc.
  apply andb_prop in Hc as [_ Hc].
  apply negb_true_iff, N.eqb_neq. intros ->.
  now rewrite Hh in Hc.
Qed.

Lemma literal_noUnit h z :
  operatorUnit h = true -> noUnit h (integerLiteral z) = true.
Proof.
  intros Hh. apply forallb_impl with (P := literalUnit); [|apply literal_units].
  intros a. now apply literalUnit_not_operator.
Qed.

Lemma space_noUnit h : operatorUnit h = true -> noUnit h (str " ") = true.
Proof.
  intros Hh. unfold noUnit.
  change (str " ") with [32%N]. cbn [forallb].
  destruct (N.eqb_spec 32 h) as [<-|]; [discriminate|reflexivity].
Qed.

Lemma literal_noWhiteSpace z : noWhiteSpace (integerLiteral z) = true.
Proof.
  apply forallb_impl with (P := literalUnit); [|apply literal_units].
  intros a Ha. now rewrite (literalUnit_not_white _ Ha).
Qed.

Lemma literal_nonempty z : integerLiteral z <> [].
Proof.
  unfold integerLiteral. intros H. apply app_eq_nil in H as [_ H].
  now apply number_nonempty in H.
Qed.

Lemma parseInt_integerLiteral z : parseInt (integerLiteral z) = Num z.
Proof.
  unfold integerLiteral. destruct (Z.ltb_spec z 0).
  - change (str "-" ++ numberToString (Z.abs_nat z))
      with (45%N :: numberToString (Z.abs_nat z)).
    rewrite parseInt_minus_digits
      by (apply number_nonempty || apply digits_of_number).
    rewrite digitsFrom_number. f_equal. lia.
  - change ([] ++ numberToString (Z.abs_nat z))
      with (numberToString (Z.abs_nat z)).
    rewrite parseInt_digits
      by (apply number_nonempty || apply digits_of_number).
    rewrite digitsFrom_number. f_equal. lia.
Qed.

Section Clause.

Variable c : clause.
Hypothesis wf : wellFormed c = true.

Lemma name_units : forallb nameUnit (variable c) = true.
Proof. unfold wellFormed in wf. destruct (variable c); [discriminate|exact wf]. Qed.

Lemma name_nonempty : variable c <> [].
Proof. unfold wellFormed in wf. destruct (variable c); [discriminate|discriminate]. Qed.

Lemma name_noUnit h : operatorUnit h = true -> noUnit h (variable c) = true.
Proof.
  intros Hh. apply forallb_impl with (P := nameUnit); [|apply name_units].
  intros a. now apply nameUnit_not_operator.
Qed.

Lemma name_noWhiteSpace : noWhiteSpace (variable c) = true.
Proof.
  apply forallb_impl with (P := nameUnit); [|apply name_units].
  intros a Ha. unfold nameUnit in Ha. now apply andb_prop in Ha as [Ha _].
Qed.

Lemma render_parts : render c = (leftPart c) ++ opText (op c) ++ (rightPart c).
Proof. unfold render, leftPart, rightPart. now rewrite <- !app_assoc. Qed.

Lemma leftPart_noUnit h : operatorUnit h = true -> noUnit h (leftPart c) = true.
Proof.
  intros Hh. unfold leftPart.
  now rewrite noUnit_app, (name_noUnit _ Hh), (space_noUnit _ Hh).
Qed.

Lemma rightPart_noUnit h : operatorUnit h = true -> noUnit h (rightPart c) = true.
Proof.
  intros Hh. unfold rightPart.
  now rewrite noUnit_app, (literal_noUnit _ _ Hh), (space_noUnit _ Hh).
Qed.

Lemma trim_leftPart : trim (leftPart c) = variable c.
Proof.
  apply (trim_padded [] (variable c) (str " ")).
  - apply name_nonempty.
  - apply noWhiteSpace_clean, name_noWhiteSpace.
  - apply noWhiteSpace_clean. rewrite noWhiteSpace_rev. apply name_noWhiteSpace.
  - reflexivity.
  - reflexivity.
Qed.

Lemma trim_rightPart : trim (rightPart c) = integerLiteral (literal c).
Proof.
  unfold rightPart.
  rewrite <- (app_nil_r (integerLiteral (literal c))) at 1.
  apply (trim_padded (str " ") (integerLiteral (literal c)) []).
  - apply literal_nonempty.
  - apply noWhiteSpace_clean, literal_noWhiteSpace.
  - apply noWhiteSpace_clean. rewrite noWhiteSpace_rev. apply literal_noWhiteSpace.
  - reflexivity.
  - reflexivity.
Qed.

Lemma includes_operator o' :
  includes (opText o') (render c) = found o' (op c).
Proof.
  rewrite render_parts.
  assert (L := leftPart_noUnit).
  unfold rightPart.
  destruct o'; cbn [opText str list_ascii_of_string map N_of_ascii];
    rewrite includes_skip by (apply L; reflexivity);
    destruct (op c); cbn [found operator_eqb opText str list_ascii_of_string map];
    simpl;
    repeat match goal with
           | |- context [includes (?h :: ?t) (integerLiteral ?z)] =>
               rewrite (includes_absent h t (integerLiteral z))
                 by (apply literal_noUnit; reflexivity)
           | |- context [startsWith (?h :: ?t) (integerLiteral ?z)] =>
               rewrite (startsWith_absent h t (integerLiteral z))
                 by (apply literal_noUnit; reflexivity)
           end;
    reflexivity.
Qed.

Lemma operands_render :
  operands (opText (op c)) (render c)
  = (Some (variable c), Some (integerLiteral (literal c))).
Proof.
  unfold operands. rewrite render_parts.
  assert (S : split (opText (op c)) ((leftPart c) ++ opText (op c) ++ (rightPart c))
              = [(leftPart c); (rightPart c)]).
  { destruct (op c); cbn [opText str list_ascii_of_string map N_of_ascii];
      (rewrite split_at by (apply leftPart_noUnit; reflexivity));
      (rewrite split_absent by (apply rightPart_noUnit; reflexivity));
      reflexivity. }
  rewrite S. cbn [map nth_error]. now rewrite trim_leftPart, trim_rightPart.
Qed.

Lemma getVariableValue_statistic v s :
  getVariableValue (Some v) s = statistic v s.
Proof.
  unfold getVariableValue, statistic, fields. cbn [find fst snd].
  repeat match goal with
         | |- context [jseqb v ?n] => destruct (jseqb v n); [reflexivity|]
         end.
  reflexivity.
Qed.

Lemma applyOperator_render s :
  applyOperator (op c) (render c) s = holds s c.
Proof.
  unfold applyOperator. rewrite operands_render.
  cbn [parseInt_opt]. rewrite parseInt_integerLiteral, getVariableValue_statistic.
  unfold holds.
  destruct (op c); cbn [compare lt gt le ge strict_ne];
    rewrite ?Z.geb_leb, ?Z.gtb_ltb, ?negb_involutive;
    try reflexivity;
    [ destruct (Z.ltb_spec (statistic (variable c) s) (literal c)),
        (Z.leb_spec (literal c) (statistic (variable c) s))
    | destruct (Z.ltb_spec (literal c) (statistic (variable c) s)),
        (Z.leb_spec (statistic (variable c) s) (literal c))
    | destruct (Z.leb_spec (statistic (variable c) s) (literal c)),
        (Z.ltb_spec (literal c) (statistic (variable c) s))
    | destruct (Z.leb_spec (literal c) (statistic (variable c) s)),
        (Z.ltb_spec (statistic (variable c) s) (literal c)) ];
    simpl; try reflexivity; lia.
Qed.

Lemma operator_eqb_eq a b : operator_eqb a b = true -> a = b.
Proof. destruct a, b; simpl; congruence. Qed.

Lemma clausePassesIn_selected order s :
  selects (op c) order = true ->
  clausePassesIn order (render c) s = holds s c.
Proof.
  induction order as [|o' rest IH]; simpl; [discriminate|].
  rewrite includes_operator. destruct (found o' (op c)).
  - intros H. apply operator_eqb_eq in H. subst o'. apply applyOperator_render.
  - exact IH.
Qed.

End Clause.

Lemma safeOrder_selects order o :
  safeOrder order = true -> selects o order = true.
Proof.
  unfold safeOrder. intros H.
  apply andb_prop in H as [H HLe]. apply andb_prop in H as [H HGe].
  cbn [forallb] in H.
  repeat match type of H with
         | (_ && _)%bool = true =>
             let H1 := fresh "E" in apply andb_prop in H as [H1 H]
         end.
  clear H.
  destruct o.
  - clear - E HGe. induction order as [|o' rest IH]; [discriminate|].
    destruct o'; simpl in *; try reflexivity; try discriminate; auto.
  - clear - E0 HLe. induction order as [|o' rest IH]; [discriminate|].
    destruct o'; simpl in *; try reflexivity; try discriminate; auto.
  - clear - E1. induction order as [|o' rest IH]; [discriminate|].
    destruct o'; simpl in *; try reflexivity; auto.
  - clear - E2. induction order as [|o' rest IH]; [discriminate|].
    destruct o'; simpl in *; try reflexivity; auto.
  - clear - E3. induction order as [|o' rest IH]; [discriminate|].
    destruct o'; simpl in *; try reflexivity; auto.
Qed.

Lemma clausePasses_sourceOrder cond s :
  clausePasses cond s = clausePassesIn sourceOrder cond s.
Proof. reflexivity. Qed.

Lemma clausePasses_render c s :
  wellFormed c = true -> clausePasses (render c) s = holds s c.
Proof.
  intros wf. rewrite clausePasses_sourceOrder.
  apply clausePassesIn_selected; [exact wf|].
  now apply safeOrder_selects.
Qed.

Lemma render_noUnit_amp c :
  wellFormed c = true -> noUnit 38%N (render c) = true.
Proof.
  intros wf. rewrite render_parts, !noUnit_app.
  rewrite (leftPart_noUnit c wf 38%N eq_refl), (rightPart_noUnit c 38%N eq_refl).
  now destruct (op c).
Qed.

Lemma render_edges c :
  wellFormed c = true ->
  render c <> [] /\ startsClean (render c) = true
  /\ startsClean (rev (render c)) = true.
Proof.
  intros wf.
  pose proof (name_nonempty c wf) as Hn.
  pose proof (name_noWhiteSpace c wf) as Hw.
  pose proof (literal_nonempty (literal c)) as Ln.
  pose proof (literal_noWhiteSpace (literal c)) as Lw.
  unfold render. repeat split.
  - destruct (variable c); [contradiction|discriminate].
  - destruct (variable c); [contradiction|]. simpl in *.
    now apply andb_prop in Hw as [Hw _].
  - rewrite !app_assoc, rev_app_distr.
    rewrite <- noWhiteSpace_rev in Lw.
    destruct (rev (integerLiteral (literal c))) eqn:E.
    + apply (f_equal (@rev _)) in E. rewrite rev_involutive in E.
      simpl in E. contradiction.
    + simpl in *. now apply andb_prop in Lw as [Lw _].
Qed.

(** Splitting a conjunction on [&&] and trimming the pieces gives back
    the clauses. *)
Lemma split_conjunction p c cs :
  allWhiteSpace p = true ->
  forallb wellFormed (c :: cs) = true ->
  map trim (split (str "&&") (p ++ join (str " && ") (map render (c :: cs))))
  = map render (c :: cs).
Proof.
  revert p c. induction cs as [|c' cs IH]; intros p c Hp Hwf.
  - cbn [map join]. simpl in Hwf. rewrite andb_true_r in Hwf.
    destruct (render_edges c Hwf) as (Hn & Hs & He).
    change (str "&&") with (38%N :: [38%N]).
    rewrite split_absent.
    + cbn [map]. f_equal.
      rewrite <- (app_nil_r (render c)) at 1.
      now apply trim_padded.
    + rewrite noUnit_app, (render_noUnit_amp c Hwf), andb_true_r.
      apply forallb_impl with (P := isWhiteSpace); [|exact Hp].
      intros a Ha. destruct (N.eqb_spec a 38%N) as [->|]; [discriminate|reflexivity].
  - cbn [forallb] in Hwf. apply andb_prop in Hwf as [Hc Hwf].
    destruct (render_edges c Hc) as (Hn & Hs & He).
    change (map render (c :: c' :: cs)) with (render c :: map render (c' :: cs)).
    change (join (str " && ") (render c :: map render (c' :: cs)))
      with (render c ++ str " && " ++ join (str " && ") (map render (c' :: cs))).
    change (str " && ") with (str " " ++ (38%N :: [38%N]) ++ str " ").
    change (str "&&") with (38%N :: [38%N]).
    replace (p ++ render c ++
             (str " " ++ (38%N :: [38%N]) ++ str " ") ++
             join (str " " ++ (38%N :: [38%N]) ++ str " ") (map render (c' :: cs)))
      with ((p ++ render c ++ str " ") ++ (38%N :: [38%N]) ++
            (str " " ++
             join (str " " ++ (38%N :: [38%N]) ++ str " ") (map render (c' :: cs))))
      by (now rewrite <- !app_assoc).
    rewrite split_at.
    + cbn [map]. f_equal.
      * now apply trim_padded.
      * apply (IH (str " ") c'); [reflexivity|exact Hwf].
    + rewrite !noUnit_app, (render_noUnit_amp c Hc).
      replace (noUnit 38%N p) with true; [reflexivity|].
      symmetry. apply forallb_impl with (P := isWhiteSpace); [|exact Hp].
      intros a Ha. destruct (N.eqb_spec a 38%N) as [->|]; [discriminate|reflexivity].
Qed.

Lemma conjunction_not_blank c cs :
  forallb wellFormed (c :: cs) = true ->
  exists u rest,
    join (str " && ") (map render (c :: cs)) = u :: rest
    /\ trim (u :: rest) <> [].
Proof.
  intros Hwf. cbn [forallb] in Hwf. apply andb_prop in Hwf as [Hc _].
  pose proof (name_nonempty c Hc) as Hn.
  pose proof (name_noWhiteSpace c Hc) as Hw.
  assert (S : exists u rest, join (str " && ") (map render (c :: cs)) = u :: rest
                             /\ isWhiteSpace u = false).
  { assert (R : exists u rest, render c = u :: rest /\ isWhiteSpace u = false).
    { unfold render. destruct (variable c) as [|u v]; [contradiction|].
      simpl in Hw. apply andb_prop in Hw as [Hu _]. apply negb_true_iff in Hu.
      exists u. eexists. split; [reflexivity|exact Hu]. }
    destruct R as (u & rest & R & Hu). exists u.
    destruct cs; cbn [map join]; rewrite R; eexists; (split; [|exact Hu]);
      reflexivity. }
  destruct S as (u & rest & E & Hu). exists u, rest. split; [exact E|].
  intros T. apply trim_empty_iff_white in T. simpl in T. now rewrite Hu in T.
Qed.

Lemma evaluateCondition_conjunction s cs :
  forallb wellFormed cs = true ->
  evaluateCondition (join (str " && ") (map render cs)) s = forallb (holds s) cs.
Proof.
  intros Hwf. destruct cs as [|c cs]; [reflexivity|].
  destruct (conjunction_not_blank c cs Hwf) as (u & rest & E & T).
  unfold evaluateCondition. rewrite E.
  destruct (trim (u :: rest)) eqn:Et; [contradiction|].
  rewrite <- E.
  rewrite <- (app_nil_l (join _ _)).
  rewrite (split_conjunction [] c cs eq_refl Hwf).
  clear E Et T. revert Hwf. generalize (c :: cs). intros l.
  induction l as [|a l IH]; [reflexivity|].
  cbn [forallb map]. intros H. apply andb_prop in H as [Ha Hl].
  now rewrite (clausePasses_render a s Ha), (IH Hl).
Qed.

End ConditionFacts.

(** C1 (the code departs from the claim).  A clause that is not of the form
    [<variable> <op> <integer>] does not make [evaluateCondition] answer
    [false]: a clause in which no operator occurs is passed over, and so is
    a [>=] clause whose right-hand side is not a numeral, whatever the
    statistics are. *)
Theorem evaluateCondition_malformed_clause_passes (s : BatchProcessingStats) :
  evaluateCondition (str "errorCount") s = true
  /\ evaluateCondition (str "modifiedFiles >= ten") s = true
  /\ evaluateCondition (str "totalFiles >= 5 && oops") (mkStats 5 0 0 0 0 0 0 None)
     = true.
Proof. repeat split; reflexivity. Qed.

(** C4.  A conjunction of well-formed clauses [<variable> <op> <integer>]
    joined by [&&] evaluates to [true] exactly when every clause holds, a
    clause holding when the comparison that its operator stands for holds
    between the named statistics field (0 for a name that is none of the six)
    and the literal.  In particular each single clause evaluates to its
    comparison.  The result does not depend on the order in which the
    operators are tried, as long as [>=] is tried before [>] and [<=] before
    [<]: both the order of the source and the order of the specification
    are such orders. *)
Theorem evaluateCondition_well_formed (s : BatchProcessingStats)
    (cs : list ConditionSpec.clause)
    (H : forallb ConditionSpec.wellFormed cs = true) :
  evaluateCondition (join (str " && ") (map ConditionSpec.render cs)) s
  = forallb (ConditionSpec.holds s) cs
  /\ (forall c, In c cs ->
        evaluateCondition (ConditionSpec.render c) s = ConditionSpec.holds s c
        /\ forall order, ConditionSpec.safeOrder order = true ->
             ConditionSpec.clausePassesIn order (ConditionSpec.render c) s
             = ConditionSpec.holds s c)
  /\ (forall cond,
        clausePasses cond s
        = ConditionSpec.clausePassesIn ConditionSpec.sourceOrder cond s)
  /\ ConditionSpec.safeOrder ConditionSpec.sourceOrder = true
  /\ ConditionSpec.safeOrder ConditionSpec.specOrder = true.
Proof.
  split; [now apply evaluateCondition_conjunction|].
  split; [|split; [intros; apply clausePasses_sourceOrder|split; reflexivity]].
  intros c Hc.
  assert (wf : ConditionSpec.wellFormed c = true).
  { rewrite forallb_forall in H. now apply H. }
  split.
  - pose proof (evaluateCondition_conjunction s [c]) as E.
    cbn [map join forallb] in E. rewrite !andb_true_r in E.
    now apply E.
  - intros order Ho. apply clausePassesIn_selected; [exact wf|].
    now apply safeOrder_selects.
Qed.

(** The two examples of the specification: [totalFiles >= 5 && errorCount
    == 0] against five files, then against four. *)
Lemma evaluateCondition_well_formed_witness :
  evaluateCondition (str "totalFiles >= 5 && errorCount == 0")
    (mkStats 5 0 0 0 0 0 0 None) = true
  /\ evaluateCondition (str "totalFiles >= 5 && errorCount == 0")
       (mkStats 4 0 0 0 0 0 0 None) = false.
Proof.
  pose (cs := [ConditionSpec.mkClause (str "totalFiles") ConditionSpec.Ge 5;
               ConditionSpec.mkClause (str "errorCount") ConditionSpec.Eq 0]).
  split.
  - exact (proj1 (evaluateCondition_well_formed (mkStats 5 0 0 0 0 0 0 None) cs eq_refl)).
  - exact (proj1 (evaluateCondition_well_formed (mkStats 4 0 0 0 0 0 0 None) cs eq_refl)).
Defined.

(** ** taskManager.ts: the task intent of a structured document *)

Section IntentFacts.

Import TaskManager IntentSpec.

Lemma allStrings_strings items : allStrings (map EString items) = Some items.
Proof.
  induction items as [|item items IH]; [reflexivity|].
  cbn [map allStrings]. now rewrite IH.
Qed.

Lemma join_numbered items i :
  join nl
    (mapIndexed (fun index item => numberToString (index + 1) ++ str ". " ++ item)
       i items)
  = numberedItems (S i) items.
Proof.
  revert i. induction items as [|item items IH]; intros i; [reflexivity|].
  cbn [mapIndexed]. destruct items as [|item' items].
  - cbn [mapIndexed join numberedItems]. now rewrite Nat.add_1_r.
  - specialize (IH (S i)). cbn [mapIndexed] in IH.
    cbn [mapIndexed join]. cbn [join] in IH. rewrite IH.
    cbn [numberedItems]. rewrite Nat.add_1_r. now rewrite <- !app_assoc.
Qed.

Lemma loadTaskConfig_structured summary items patterns :
  summary <> [] ->
  loadTaskConfig
    (Object (mkParsed (MString summary) (MArray (map EString items))
               (match patterns with
                | Some ps => MArray (map EString ps)
                | None => MUndefined
                end)))
  = Some (mkTaskConfig (trim summary) (map trim items) patterns).
Proof.
  intros Hs. destruct summary as [|c summary]; [contradiction|].
  cbn [loadTaskConfig p_taskSummary p_taskDescription p_filePatterns].
  rewrite allStrings_strings.
  destruct patterns as [ps|]; [now rewrite allStrings_strings|reflexivity].
Qed.

End IntentFacts.

(** C7 (as the code has it).  For a structured document whose summary is
    a non-empty string, the task intent is the summary with the white space
    around it removed, a blank line, the label U+8A73 U+7D30 followed by a
    colon, and then the items, each with the white space around it removed,
    numbered from 1, one per line. *)
Theorem getTaskDescription_structured (summary : jsstring)
    (items : list jsstring) (patterns : option (list jsstring))
    (H : summary <> []) :
  TaskManager.getTaskDescription
    (IntentSpec.structuredDocument summary items patterns)
  = Some (IntentSpec.intent TaskManager.detailsLabel (trim summary)
            (map trim items)).
Proof.
  unfold TaskManager.getTaskDescription, IntentSpec.structuredDocument.
  cbn [TaskManager.quickPick TaskManager.openDialog].
  rewrite (loadTaskConfig_structured summary items patterns H).
  unfold TaskManager.combinedTask, IntentSpec.intent.
  cbn [TaskManager.taskSummary TaskManager.taskDescription].
  now rewrite join_numbered.
Qed.

Lemma getTaskDescription_structured_witness :
  str "Tidy up" <> []
  /\ TaskManager.getTaskDescription
       (IntentSpec.structuredDocument (str "Tidy up")
          [str " rename "; str "add types"] (Some [str "*.ts"]))
     = Some (str "Tidy up" ++ [10; 10; 35443; 32048; 58; 10]%N
             ++ str "1. rename" ++ [10%N] ++ str "2. add types").
Proof.
  split; [discriminate|].
  exact (getTaskDescription_structured (str "Tidy up")
           [str " rename "; str "add types"] (Some [str "*.ts"])
           ltac:(discriminate)).
Defined.

(** C7, as the claim words it, fails: the label that the code writes is not
    [Details:], and the summary and the items are not copied unchanged. *)
Lemma getTaskDescription_structured_counterexample :
  TaskManager.getTaskDescription
    (IntentSpec.structuredDocument (str "Tidy up") [str "rename"; str "add types"] None)
  <> Some (IntentSpec.intent (str "Details:") (str "Tidy up")
             [str "rename"; str "add types"])
  /\ TaskManager.getTaskDescription
       (IntentSpec.structuredDocument (str " Tidy up") [str "rename "] None)
     <> Some (IntentSpec.intent TaskManager.detailsLabel (str " Tidy up")
                [str "rename "]).
Proof. split; intros E; vm_compute in E; discriminate E. Qed.

(** ** batchProcessor.ts: the selected files *)

Section SelectionFacts.

Import FileSelection SelectionSpec.

Lemma startsWith_joinPath root directoryUri name :
  startsWith root directoryUri = true ->
  startsWith root (joinPath directoryUri name) = true.
Proof.
  intros H. unfold joinPath.
  destruct (rev directoryUri) as [|c r]; [now apply startsWith_app_r|].
  destruct (N.eqb_spec c 47) as [->|Hc].
  - now apply startsWith_app_r.
  - assert (E : forall (a b : jsstring),
               match c with
               | 47%N => a
               | _ => b
               end = b).
    { intros a b. destruct c as [|p]; [reflexivity|].
      repeat (destruct p as [p|p|]; try reflexivity). now elim Hc. }
    rewrite E. now apply startsWith_app_r.
Qed.

Lemma startsWith_descend root uri names :
  startsWith root uri = true -> startsWith root (descend uri names) = true.
Proof.
  unfold descend. revert uri.
  induction names as [|name names IH]; intros uri H; [exact H|].
  cbn [fold_left]. apply IH. now apply startsWith_joinPath.
Qed.

(** Induction over what a directory holds, with the property available for
    every subdirectory that it lists. *)
Section DirectoryInduction.

Variable P : DirContents -> Prop.

Hypothesis onFailure : P ReadDirectoryFails.
Hypothesis onEntries :
  forall entries, Forall (holdsBelow P) entries -> P (Entries entries).

Fixpoint DirContents_induction (contents : DirContents) : P contents :=
  match contents with
  | ReadDirectoryFails => onFailure
  | Entries entries =>
      onEntries entries
        ((fix each (es : list (jsstring * FsNode)) : Forall (holdsBelow P) es :=
            match es with
            | [] => Forall_nil _
            | e :: es' =>
                Forall_cons e
                  (match e as e0 return holdsBelow P e0 with
                   | (_, File) => I
                   | (_, Directory sub) => DirContents_induction sub
                   | (_, Other) => I
                   end)
                  (each es')
            end) entries)
  end.

End DirectoryInduction.

(** Every file found under a directory is reached through names none of
    which starts with a dot. *)
Lemma getAllFilesInDirectory_visible :
  forall contents directoryUri f,
    In f (getAllFilesInDirectory directoryUri contents) ->
    exists names,
      names <> [] /\ forallb visibleName names = true
      /\ f = descend directoryUri names.
Proof.
  intros contents.
  induction contents as [|entries IH] using DirContents_induction;
    intros directoryUri f.
  - intros [].
  - cbn [getAllFilesInDirectory].
    induction IH as [|[name type] es Hsub _ IHes]; [intros []|].
    destruct (startsWith (str ".") name) eqn:Ed; [exact IHes|].
    assert (V : visibleName name = true) by (unfold visibleName; now rewrite Ed).
    destruct type as [|sub|].
    + intros [<-|H]; [|exact (IHes H)].
      exists [name]. repeat split; [discriminate|cbn; now rewrite V].
    + intros H. apply in_app_or in H as [H|H]; [|exact (IHes H)].
      apply Hsub in H as (names & _ & Hv & ->).
      exists (name :: names). repeat split; [discriminate|].
      cbn [forallb]. now rewrite V.
    + exact IHes.
Qed.

Lemma partitionByWorkspace_valid workspacePath selectedUris uri stat :
  In (uri, stat) (fst (partitionByWorkspace workspacePath selectedUris)) ->
  In (uri, stat) selectedUris /\ startsWith workspacePath uri = true.
Proof.
  induction selectedUris as [|[u s] rest IH]; [intros []|].
  cbn [partitionByWorkspace].
  destruct (partitionByWorkspace workspacePath rest) as [valid warnings].
  destruct (startsWith workspacePath u) eqn:E; cbn [fst] in *.
  - intros [H|H].
    + inversion H; subst. split; [now left|exact E].
    + destruct (IH H) as [H1 H2]. split; [now right|exact H2].
  - intros H. destruct (IH H) as [H1 H2]. split; [now right|exact H2].
Qed.

Lemma partitionByWorkspace_warns workspacePath selectedUris uri stat :
  In (uri, stat) selectedUris -> startsWith workspacePath uri = false ->
  In (OutsideWorkspace uri) (snd (partitionByWorkspace workspacePath selectedUris)).
Proof.
  induction selectedUris as [|[u s] rest IH]; [intros []|].
  cbn [partitionByWorkspace].
  destruct (partitionByWorkspace workspacePath rest) as [valid warnings].
  cbn [snd] in IH.
  intros [H|H] E.
  - inversion H; subst. rewrite E. now left.
  - destruct (startsWith workspacePath u); cbn [snd]; [now apply IH|].
    right. now apply IH.
Qed.

Lemma getFilesFromUri_origin uri stat f :
  In f (getFilesFromUri uri stat) ->
  exists names,
    forallb visibleName names = true /\ f = descend uri names
    /\ (names = [] -> stat = Some File)
    /\ (names <> [] -> exists contents, stat = Some (Directory contents)).
Proof.
  destruct stat as [[|contents|]|]; cbn [getFilesFromUri];
    [| |intros H; destruct H|intros H; destruct H].
  - intros [<-|[]]. exists [].
    split; [reflexivity|]. split; [reflexivity|]. split; [reflexivity|].
    intros Hne. now elim Hne.
  - intros H. apply getAllFilesInDirectory_visible in H as (names & Hn & Hv & ->).
    exists names.
    split; [exact Hv|]. split; [reflexivity|]. split; [intros ->; now elim Hn|].
    intros _. now exists contents.
Qed.

Lemma partitionByWorkspace_filter workspacePath selectedUris :
  fst (partitionByWorkspace workspacePath selectedUris)
  = filter (fun sel => startsWith workspacePath (fst sel)) selectedUris.
Proof.
  induction selectedUris as [|[uri stat] rest IH]; [reflexivity|].
  cbn [partitionByWorkspace filter fst].
  destruct (partitionByWorkspace workspacePath rest) as [valid warnings].
  cbn [fst] in IH.
  destruct (startsWith workspacePath uri); cbn [fst]; now rewrite IH.
Qed.

(** The files of the result, whatever messages are shown. *)
Lemma selectFilesAndFolders_files workspacePath others selectedUris :
  fst (selectFilesAndFolders (workspacePath :: others) (Some selectedUris))
  = flat_map (fun sel => getFilesFromUri (fst sel) (snd sel))
      (filter (fun sel => startsWith workspacePath (fst sel)) selectedUris).
Proof.
  unfold selectFilesAndFolders.
  destruct selectedUris as [|sel rest]; [reflexivity|].
  rewrite <- partitionByWorkspace_filter.
  destruct (partitionByWorkspace workspacePath (sel :: rest)) as [valid warnings].
  cbn [fst]. destruct valid as [|v valid]; [reflexivity|].
  cbn [fst]. apply flat_map_ext. now intros [uri stat].
Qed.

Lemma filter_twice {A : Type} (keep : A -> bool) (l : list A) :
  filter keep (filter keep l) = filter keep l.
Proof.
  induction l as [|x l IH]; [reflexivity|].
  cbn [filter]. destruct (keep x) eqn:E; [|exact IH].
  cbn [filter]. now rewrite E, IH.
Qed.

End SelectionFacts.

(** C8 (as the code has it).  Every file of the result comes from an entry
    that the user selected and whose path begins with the path of the first
    workspace folder: it is that entry itself when the entry is a file,
    whatever its name, and otherwise it lies below that directory along
    names none of which starts with a dot; the path of the first workspace
    folder is a prefix of its path.  And every selected entry whose path
    does not begin with that path is left out with a warning, also when
    nothing is left in the result: the result is the one of the selection
    without these entries. *)
Theorem selectFilesAndFolders_origin (workspaceFolders : list jsstring)
    (showOpenDialog : option (list FileSelection.selection)) :
  (forall f,
     In f (fst (FileSelection.selectFilesAndFolders workspaceFolders
                  showOpenDialog)) ->
     exists workspacePath others selectedUris uri stat names,
       workspaceFolders = workspacePath :: others
       /\ showOpenDialog = Some selectedUris
       /\ In (uri, stat) selectedUris
       /\ startsWith workspacePath uri = true
       /\ forallb SelectionSpec.visibleName names = true
       /\ f = SelectionSpec.descend uri names
       /\ (names = [] -> stat = Some FileSelection.File)
       /\ (names <> [] ->
           exists contents, stat = Some (FileSelection.Directory contents))
       /\ startsWith workspacePath f = true)
  /\ (forall workspacePath others selectedUris,
        workspaceFolders = workspacePath :: others ->
        showOpenDialog = Some selectedUris ->
        (forall uri stat,
           In (uri, stat) selectedUris ->
           startsWith workspacePath uri = false ->
           In (FileSelection.OutsideWorkspace uri)
             (snd (FileSelection.selectFilesAndFolders workspaceFolders
                     showOpenDialog)))
        /\ fst (FileSelection.selectFilesAndFolders workspaceFolders
                  showOpenDialog)
           = fst (FileSelection.selectFilesAndFolders workspaceFolders
                    (Some (filter (fun sel => startsWith workspacePath (fst sel))
                             selectedUris)))).
Proof.
  split.
  - intros f H.
    unfold FileSelection.selectFilesAndFolders in *.
    destruct workspaceFolders as [|workspacePath others]; [destruct H|].
    destruct showOpenDialog as [[|sel selectedUris]|]; try (destruct H).
    pose proof (partitionByWorkspace_valid workspacePath (sel :: selectedUris)) as V.
    destruct (FileSelection.partitionByWorkspace workspacePath (sel :: selectedUris))
      as [validUris warnings].
    cbn [fst snd] in V.
    destruct validUris as [|v validUris]; [destruct H|].
    cbn [fst] in H. apply in_flat_map in H as ([uri stat] & Hin & Hf).
    destruct (V uri stat Hin) as [Hsel Hpre].
    apply getFilesFromUri_origin in Hf as (names & Hv & -> & Hfile & Hdir).
    exists workspacePath, others, (sel :: selectedUris), uri, stat, names.
    repeat split; try assumption. now apply startsWith_descend.
  - intros workspacePath others selectedUris -> ->. split.
    + intros uri stat Hin Hout.
      unfold FileSelection.selectFilesAndFolders.
      destruct selectedUris as [|sel selectedUris]; [destruct Hin|].
      pose proof (partitionByWorkspace_warns workspacePath (sel :: selectedUris)) as W.
      destruct (FileSelection.partitionByWorkspace workspacePath (sel :: selectedUris))
        as [validUris warnings].
      cbn [fst snd] in W.
      destruct validUris; cbn [snd]; [apply in_or_app; left|];
        now apply (W uri stat).
    + now rewrite !selectFilesAndFolders_files, filter_twice.
Qed.

Lemma selectFilesAndFolders_origin_witness :
  (exists workspacePath others selectedUris uri stat names,
     [str "/ws"] = workspacePath :: others
     /\ Some [(str "/ws/src",
               Some (FileSelection.Directory (FileSelection.Entries
                 [(str ".git", FileSelection.Directory (FileSelection.Entries
                     [(str "config", FileSelection.File)]));
                  (str "lib", FileSelection.Directory (FileSelection.Entries
                     [(str ".cache", FileSelection.File);
                      (str "b.ts", FileSelection.File)]))])));
              (str "/elsewhere/x", Some FileSelection.File)]
        = Some selectedUris
     /\ In (uri, stat) selectedUris
     /\ startsWith workspacePath uri = true
     /\ forallb SelectionSpec.visibleName names = true
     /\ str "/ws/src/lib/b.ts" = SelectionSpec.descend uri names
     /\ (names = [] -> stat = Some FileSelection.File)
     /\ (names <> [] ->
         exists contents, stat = Some (FileSelection.Directory contents))
     /\ startsWith workspacePath (str "/ws/src/lib/b.ts") = true)
  /\ In (FileSelection.OutsideWorkspace (str "/elsewhere/x"))
       (snd (FileSelection.selectFilesAndFolders [str "/ws"]
               (Some [(str "/elsewhere/x", Some FileSelection.File);
                      (str "/other/y", Some FileSelection.File)])))
  /\ fst (FileSelection.selectFilesAndFolders [str "/ws"]
            (Some [(str "/elsewhere/x", Some FileSelection.File);
                   (str "/other/y", Some FileSelection.File)]))
     = [].
Proof.
  split; [|split].
  - apply (proj1 (selectFilesAndFolders_origin [str "/ws"]
             (Some [(str "/ws/src",
                Some (FileSelection.Directory (FileSelection.Entries
                  [(str ".git", FileSelection.Directory (FileSelection.Entries
                      [(str "config", FileSelection.File)]));
                   (str "lib", FileSelection.Directory (FileSelection.Entries
                      [(str ".cache", FileSelection.File);
                       (str "b.ts", FileSelection.File)]))])));
               (str "/elsewhere/x", Some FileSelection.File)]))
             (str "/ws/src/lib/b.ts")).
    vm_compute. left. reflexivity.
  - apply (proj1 (proj2 (selectFilesAndFolders_origin [str "/ws"]
                      (Some [(str "/elsewhere/x", Some FileSelection.File);
                             (str "/other/y", Some FileSelection.File)]))
                    (str "/ws") [] _ eq_refl eq_refl)
             (str "/elsewhere/x") (Some FileSelection.File)
             (or_introl eq_refl) eq_refl).
  - reflexivity.
Defined.

(** C8, as the claim words it, fails: a file whose name starts with a dot
    is in the result when the user selects it directly, and so are the
    files of a directly selected directory whose name starts with a dot. *)
Lemma selectFilesAndFolders_counterexample :
  In (str "/ws/.env")
    (fst (FileSelection.selectFilesAndFolders [str "/ws"]
            (Some [(str "/ws/.env", Some FileSelection.File)])))
  /\ SelectionSpec.dotPrefixed (str "/ws/.env") = true
  /\ In (str "/ws/.git/config")
       (fst (FileSelection.selectFilesAndFolders [str "/ws"]
               (Some [(str "/ws/.git",
                       Some (FileSelection.Directory (FileSelection.Entries
                               [(str "config", FileSelection.File)])))]))).
Proof. repeat split; vm_compute; auto. Qed.

(** The test against the workspace is a test on the characters of the
    path: a directory beside the workspace folder whose name continues the
    folder's name passes it. *)
Lemma selectFilesAndFolders_prefix_sibling :
  FileSelection.selectFilesAndFolders [str "/ws"]
    (Some [(str "/ws-other/a.ts", Some FileSelection.File)])
  = ([str "/ws-other/a.ts"], []).
Proof. reflexivity. Qed.

(** ** The steps of a run *)

Section RunFacts.

Import HookRunner ClineIntegration BatchProcessor RunSpec.

Lemma bind_returned {A B} (c : M A) (k : A -> M B) st a st1 :
  c st = (Returned a, st1) -> bind c k st = k a st1.
Proof. intros E. unfold bind. now rewrite E. Qed.

Lemma bind_thrown {A B} (c : M A) (k : A -> M B) st e st1 :
  c st = (Thrown e, st1) -> bind c k st = (Thrown e, st1).
Proof. intros E. unfold bind. now rewrite E. Qed.

Lemma addEvents_nil st : addEvents [] st = st.
Proof. now destruct st. Qed.

Lemma addEvents_app a b st : addEvents a (addEvents b st) = addEvents (a ++ b) st.
Proof. unfold addEvents. cbn. now rewrite app_assoc. Qed.

Lemma emit_adds e st : emit e st = (Returned tt, addEvents [e] st).
Proof. reflexivity. Qed.

(** *** The statistics without [modifiedFiles] *)

Lemma counters_setModifiedFiles n s : counters (setModifiedFiles n s) = counters s.
Proof. reflexivity. Qed.

Lemma counters_fields s s' :
  counters s = counters s' <->
  totalFiles s = totalFiles s' /\ processedFiles s = processedFiles s'
  /\ successfulFiles s = successfulFiles s' /\ failedFiles s = failedFiles s'
  /\ errorCount s = errorCount s' /\ startTime s = startTime s'
  /\ endTime s = endTime s'.
Proof.
  destruct s, s'. unfold counters, setModifiedFiles. cbn. split.
  - intros E. injection E. intros. now subst.
  - intros (-> & -> & -> & -> & -> & -> & ->). reflexivity.
Qed.

Lemma counters_incr (f : BatchProcessingStats -> BatchProcessingStats) s s' :
  (f = incrProcessedFiles \/ f = incrSuccessfulFiles \/ f = incrFailedFiles
   \/ f = incrErrorCount) ->
  counters s = counters s' -> counters (f s) = counters (f s').
Proof.
  intros Hf E. apply counters_fields in E as (E1 & E2 & E3 & E4 & E5 & E6 & E7).
  apply counters_fields.
  destruct Hf as [-> | [-> | [-> | ->]]]; destruct s, s'; cbn in *; subst;
    repeat split; reflexivity.
Qed.

Lemma counters_bump o s s' :
  counters s = counters s' -> counters (bump o s) = counters (bump o s').
Proof.
  intros E. destruct o; cbn [bump].
  - apply counters_incr; auto.
  - apply counters_incr; auto. apply counters_incr; auto.
Qed.

Lemma iterationEvent_counters s0 s0' e :
  counters s0 = counters s0' -> iterationEvent s0 e -> iterationEvent s0' e.
Proof.
  intros E. destruct e as [| | |at_ s| | | | | | | | | | |block| | | |]; cbn; auto.
  - destruct at_; auto.
    + intros ->. now symmetry.
    + intros [o ->]. exists o.
      apply counters_incr; auto. now apply counters_bump.
    + intros ->. now apply (counters_bump failed).
  - destruct block; auto. intros ->.
    apply counters_incr; auto. now apply counters_bump.
Qed.

(** *** git *)

Lemma refresh_runs env st :
  exists st' answers,
    refreshModifiedFilesCount env st = (Returned tt, st')
    /\ counters (stats st') = counters (stats st)
    /\ latestResult st' = latestResult st
    /\ trace st' = answers ++ trace st
    /\ forallb isGitStatus answers = true
    /\ steps (rev answers) = refreshSteps env.
Proof.
  unfold refreshModifiedFilesCount, refreshSteps.
  destruct (workspaceFolders env) as [|workspaceRoot others].
  - exists st, []. repeat split.
  - destruct (negb (isGitRepository env) || jseqb workspaceRoot []).
    + exists st, []. repeat split.
    + unfold bind, get, update, emit. cbn.
      destruct (gitModifiedCount env (gitCalls st)) as [n|]; cbn.
      * eexists. exists [GitStatus (Some n)]. split; [reflexivity|].
        cbn. repeat split.
      * eexists. exists [GitStatus None]. split; [reflexivity|].
        cbn. repeat split.
Qed.

(** *** Hooks *)

Lemma hookLoop_runs env filteredHooks snapshot st :
  exists actions,
    hookLoop env filteredHooks snapshot st = (Returned tt, addEvents actions st)
    /\ forallb isHookAction actions = true.
Proof.
  revert st. induction filteredHooks as [|hook rest IH]; intros st.
  - exists []. now rewrite addEvents_nil.
  - cbn [hookLoop].
    assert (S : exists one,
      (if conditionFails hook snapshot then emit (HookSkipped (name hook))
       else tryCatch (runCommand env hook)
              (fun _ => emit (HookFailed (name hook)))) st
      = (Returned tt, addEvents one st) /\ forallb isHookAction one = true).
    { destruct (conditionFails hook snapshot).
      - eexists. split; [apply emit_adds|reflexivity].
      - destruct (commandThrows env (command hook)) eqn:Ec.
        + exists [HookFailed (name hook);
                  HookCommand (name hook)
                    (startsWith (str "vscode:") (command hook))
                    (if startsWith (str "vscode:") (command hook)
                     then skipn 7 (command hook) else command hook)].
          split; [|reflexivity].
          unfold tryCatch, runCommand, bind. cbv zeta.
          rewrite emit_adds, Ec. reflexivity.
        + exists [HookCommand (name hook)
                    (startsWith (str "vscode:") (command hook))
                    (if startsWith (str "vscode:") (command hook)
                     then skipn 7 (command hook) else command hook)].
          split; [|reflexivity].
          unfold tryCatch, runCommand, bind. cbv zeta.
          rewrite emit_adds, Ec. reflexivity. }
    destruct S as (one & E & H1).
    rewrite (bind_returned _ _ _ _ _ E).
    destruct (IH (addEvents one st)) as (actions & E' & H2).
    exists (actions ++ one). rewrite E', addEvents_app. split; [reflexivity|].
    rewrite forallb_app. now rewrite H1, H2.
Qed.

Lemma hooks_run env hooks at_ fileUri st :
  exists st' actions,
    runHooksWithLogging env hooks at_ fileUri st = (Returned tt, st')
    /\ stats st' = stats st
    /\ latestResult st' = latestResult st
    /\ trace st' = actions ++ HooksEvaluated at_ (stats st) :: trace st
    /\ forallb isHookAction actions = true.
Proof.
  unfold runHooksWithLogging, executeHooks.
  unfold bind at 1. unfold update at 1.
  unfold tryCatch. unfold bind at 1. unfold bind at 1. unfold get at 1.
  unfold bind at 1. unfold emit at 1, update at 1.
  match goal with
  | |- context [hookLoop env ?fh ?sn ?s] =>
      destruct (hookLoop_runs env fh sn s) as (actions & E & Ha); rewrite E
  end.
  clear E. cbn. eexists. exists actions. split; [reflexivity|].
  cbn. split; [reflexivity|]. split; [reflexivity|].
  split; [reflexivity|exact Ha].
Qed.

(** *** The agent *)

Lemma wait_runs cline fuel polls elapsedTime :
  (maxWaitTime <= elapsedTime + Z.of_nat fuel * checkInterval)%Z ->
  exists r steps,
    (forall st, waitForCompletion fuel cline polls elapsedTime st
                = (r, addEvents steps st))
    /\ forallb isAgentStep steps = true
    /\ match r with
       | Returned t =>
           (elapsedTime <= t)%Z
           /\ ((forall n, polls <= n < polls + fuel ->
                          getTaskStatus cline n = Some active) ->
               (maxWaitTime <= t)%Z)
       | Thrown e =>
           e = AgentCallRejected
           /\ exists n, polls <= n < polls + fuel /\ getTaskStatus cline n = None
       end.
Proof.
  revert polls elapsedTime.
  induction fuel as [|fuel IH]; intros polls elapsedTime Hfuel;
    cbn [waitForCompletion]; destruct (Z.ltb_spec elapsedTime maxWaitTime).
  - unfold checkInterval in Hfuel. lia.
  - exists (Returned elapsedTime), []. split; [|split; [reflexivity|]].
    + intros st. now rewrite addEvents_nil.
    + split; [lia|]. intros _. lia.
  - destruct (getTaskStatus cline polls) as [status|] eqn:Es.
    + destruct (isTerminal status) eqn:Et.
      * exists (Returned elapsedTime), [StatusPolled elapsedTime status].
        split; [|split; [reflexivity|]].
        -- intros st. unfold bind. now rewrite emit_adds.
        -- split; [lia|]. intros Hall. rewrite (Hall polls) in Es by lia.
           injection Es as <-. discriminate.
      * destruct (IH (S polls) (elapsedTime + checkInterval)%Z)
          as (r & steps & E & Hs & Hr); [lia|].
        exists r, (steps ++ [StatusPolled elapsedTime status]).
        split; [|split].
        -- intros st. unfold bind. rewrite emit_adds.
           now rewrite E, addEvents_app.
        -- rewrite forallb_app, Hs. reflexivity.
        -- destruct r as [t|e].
           ++ destruct Hr as [Hle Hmax]. unfold checkInterval in Hle.
              split; [lia|]. intros Hall. apply Hmax.
              intros n Hn. apply Hall. lia.
           ++ destruct Hr as (-> & n & Hn & Hnone).
              split; [reflexivity|]. exists n. split; [lia|exact Hnone].
    + exists (Thrown AgentCallRejected), []. split; [|split; [reflexivity|]].
      * intros st. now rewrite addEvents_nil.
      * split; [reflexivity|]. exists polls. split; [lia|exact Es].
  - exists (Returned elapsedTime), []. split; [|split; [reflexivity|]].
    + intros st. now rewrite addEvents_nil.
    + split; [lia|]. intros _. lia.
Qed.

Lemma pollFuel_enough :
  (maxWaitTime <= 0 + Z.of_nat pollFuel * checkInterval)%Z.
Proof. vm_compute. discriminate. Qed.

(** The agent call never reads the state of the run: it only adds events,
    the first of which is the submission of the task. *)
Lemma process_runs env cline fileUri taskDescription :
  exists r steps,
    (forall st,
       processFileWithCline env cline fileUri taskDescription st
       = (r, addEvents
               (steps ++ [StartNewTask (fileLabelOf env fileUri) taskDescription])
               st))
    /\ forallb isAgentStep steps = true
    /\ match r with
       | Returned _ =>
           (forall n, n < pollFuel -> getTaskStatus cline n = Some active) ->
           hd_error steps = Some TimeoutWarning
       | Thrown e =>
           e = AgentCallRejected
           /\ (startNewTask cline = false \/ pressPrimaryButton cline = false
               \/ exists n, n < pollFuel /\ getTaskStatus cline n = None)
       end.
Proof.
  unfold processFileWithCline, fileLabelOf. cbv zeta.
  set (start := StartNewTask _ _).
  destruct (startNewTask cline) eqn:Es.
  2:{ exists (Thrown AgentCallRejected), []. split; [|split; [reflexivity|]].
      - intros st. unfold bind. rewrite emit_adds. reflexivity.
      - split; [reflexivity|]. now left. }
  destruct (pressPrimaryButton cline) eqn:Ep.
  2:{ exists (Thrown AgentCallRejected), [PrimaryButtonPressed].
      split; [|split; [reflexivity|]].
      - intros st. unfold bind. rewrite emit_adds. reflexivity.
      - split; [reflexivity|]. right. now left. }
  destruct (wait_runs cline pollFuel 0 0%Z pollFuel_enough)
    as (r & steps & E & Hs & Hr).
  destruct r as [t|e].
  - destruct Hr as [Hle Hmax].
    destruct (Z.geb_spec t maxWaitTime) as [Ht|Ht].
    + exists (Returned tt), (TimeoutWarning :: steps ++ [PrimaryButtonPressed]).
      split; [|split].
      * intros st. unfold bind. rewrite emit_adds. cbn [await ret].
        rewrite emit_adds. cbn [await ret]. rewrite E.
        destruct (Z.geb_spec t maxWaitTime); [|lia].
        rewrite emit_adds, !addEvents_app. do 2 f_equal;
          try (cbn; now rewrite <- !app_assoc).
      * cbn. rewrite forallb_app, Hs. reflexivity.
      * reflexivity.
    + exists (Returned tt), (steps ++ [PrimaryButtonPressed]).
      split; [|split].
      * intros st. unfold bind. rewrite emit_adds. cbn [await ret].
        rewrite emit_adds. cbn [await ret]. rewrite E.
        destruct (Z.geb_spec t maxWaitTime); [lia|].
        unfold ret. rewrite !addEvents_app. do 2 f_equal;
          try (cbn; now rewrite <- !app_assoc).
      * rewrite forallb_app, Hs. reflexivity.
      * intros Hall. assert (maxWaitTime <= t)%Z; [|lia].
        apply Hmax. intros n Hn. apply Hall. lia.
  - destruct Hr as (-> & n & Hn & Hnone).
    exists (Thrown AgentCallRejected), (steps ++ [PrimaryButtonPressed]).
    split; [|split].
    + intros st. unfold bind. rewrite emit_adds. cbn [await ret].
      rewrite emit_adds. cbn [await ret]. rewrite E.
      rewrite !addEvents_app. do 2 f_equal;
        try (cbn; now rewrite <- !app_assoc).
    + rewrite forallb_app, Hs. reflexivity.
    + split; [reflexivity|]. right. right. exists n. split; [lia|exact Hnone].
Qed.

Lemma agentOutcome_result env cline fileUri taskDescription r steps st0 :
  processFileWithCline env cline fileUri taskDescription st0 = (r, steps) ->
  agentOutcome env cline fileUri taskDescription
  = match r with Returned _ => success | Thrown _ => failed end.
Proof.
  intros E. unfold agentOutcome.
  destruct (process_runs env cline fileUri taskDescription) as (r' & s' & E' & _).
  rewrite E' in E. rewrite E'. cbn [fst]. now injection E as -> _.
Qed.

(** *** Events and what they show *)

Lemma tasksStarted_app a b : tasksStarted (a ++ b) = tasksStarted a ++ tasksStarted b.
Proof.
  induction a as [|e a IH]; [reflexivity|].
  destruct e; cbn; rewrite ?IH; reflexivity.
Qed.

Lemma tasksStarted_none l : forallb startsNoTask l = true -> tasksStarted l = [].
Proof.
  induction l as [|e l IH]; [reflexivity|].
  cbn [forallb]. intros H. apply andb_prop in H as [He Hl].
  destruct e; try discriminate; cbn; now apply IH.
Qed.

Lemma forallb_rev {A} (p : A -> bool) l : forallb p (rev l) = forallb p l.
Proof.
  induction l as [|a l IH]; [reflexivity|].
  cbn. rewrite forallb_app, IH. cbn. rewrite andb_true_r. apply andb_comm.
Qed.

Lemma agentSteps_startNoTask l :
  forallb isAgentStep l = true -> forallb startsNoTask l = true.
Proof. apply forallb_impl. now intros []. Qed.

Lemma hookActions_startNoTask l :
  forallb isHookAction l = true -> forallb startsNoTask l = true.
Proof. apply forallb_impl. now intros []. Qed.

Lemma gitAnswers_startNoTask l :
  forallb isGitStatus l = true -> forallb startsNoTask l = true.
Proof. apply forallb_impl. now intros []. Qed.

Lemma gitAnswers_iteration s0 l :
  forallb isGitStatus l = true -> Forall (iterationEvent s0) l.
Proof.
  intros H. apply Forall_forall. intros e He.
  rewrite forallb_forall in H. specialize (H e He). now destruct e.
Qed.

Lemma agentSteps_iteration s0 l :
  forallb isAgentStep l = true -> Forall (iterationEvent s0) l.
Proof.
  intros H. apply Forall_forall. intros e He.
  rewrite forallb_forall in H. specialize (H e He). now destruct e.
Qed.

Lemma hookActions_iteration s0 l :
  forallb isHookAction l = true -> Forall (iterationEvent s0) l.
Proof.
  intros H. apply Forall_forall. intros e He.
  rewrite forallb_forall in H. specialize (H e He). now destruct e.
Qed.

Ltac trace_eq :=
  cbn [trace addEvents withStats withTrace];
  repeat (rewrite <- ?app_assoc; cbn [app]);
  reflexivity.

Ltac count_tasks :=
  repeat (rewrite ?rev_app_distr; cbn [rev app]);
  rewrite <- ?app_assoc; cbn [app];
  repeat (rewrite ?tasksStarted_app; cbn [tasksStarted app]);
  rewrite ?tasksStarted_none
    by (rewrite forallb_rev;
        first [now apply agentSteps_startNoTask
              |now apply hookActions_startNoTask
              |now apply gitAnswers_startNoTask]);
  reflexivity.

Ltac iteration_events :=
  repeat first
    [ apply Forall_nil
    | apply Forall_app; split
    | now apply hookActions_iteration
    | now apply agentSteps_iteration
    | now apply gitAnswers_iteration
    | apply Forall_cons; [first [exact I | eassumption | idtac]|] ].

Lemma update_runs f st : update f st = (Returned tt, f st).
Proof. reflexivity. Qed.

(** *** The agent call and the counting that follows it *)

Lemma attemptTask_runs env cline hooks taskDescription fileUri fileLabel st :
  exists st' evs,
    attemptTask env cline hooks taskDescription fileUri fileLabel st
    = (Returned (agentOutcome env cline fileUri taskDescription), st')
    /\ counters (stats st')
       = counters (bump (agentOutcome env cline fileUri taskDescription) (stats st))
    /\ latestResult st' = latestResult st
    /\ trace st' = evs ++ trace st
    /\ Forall (iterationEvent (stats st)) evs
    /\ tasksStarted (rev evs) = [fileLabelOf env fileUri].
Proof.
  destruct (process_runs env cline fileUri taskDescription)
    as (r & steps & E & Hs & _).
  rewrite (agentOutcome_result _ _ _ _ _ _ _ (E st)).
  unfold attemptTask, tryCatch.
  set (start := StartNewTask (fileLabelOf env fileUri) taskDescription) in *.
  destruct r as [[]|e].
  - rewrite (bind_returned _ _ _ _ _ (E st)).
    exists (withTrace (ProcessedMessage true fileLabel)
              (withStats incrSuccessfulFiles (addEvents (steps ++ [start]) st))).
    exists (ProcessedMessage true fileLabel :: steps ++ [start]).
    split; [reflexivity|]. split; [reflexivity|]. split; [reflexivity|].
    split; [reflexivity|]. split.
    + iteration_events.
    + unfold start. count_tasks.
  - rewrite (bind_thrown _ _ _ _ _ (E st)).
    rewrite (bind_returned _ _ _ _ _ (update_runs _ _)).
    rewrite (bind_returned _ _ _ _ _ (update_runs _ _)).
    rewrite (bind_returned _ _ _ _ _ (emit_adds _ _)).
    match goal with
    | |- context [bind (refreshModifiedFilesCount env) _ ?s] =>
        destruct (refresh_runs env s) as (st1 & answers & E1 & C1 & L1 & T1 & G1 & _);
        rewrite (bind_returned _ _ _ _ _ E1)
    end.
    destruct (hooks_run env hooks onError (Some fileUri) st1)
      as (st2 & actions & E2 & S2 & L2 & T2 & A2).
    rewrite (bind_returned _ _ _ _ _ E2).
    exists st2.
    assert (C : counters (stats st1) = counters (bump failed (stats st))).
    { rewrite C1. reflexivity. }
    exists (actions ++ HooksEvaluated onError (stats st1)
              :: answers ++ ProcessedMessage false fileLabel
              :: steps ++ [start]).
    split; [reflexivity|]. split; [now rewrite S2|].
    split; [now rewrite L2, L1|]. split.
    { rewrite T2, T1. trace_eq. }
    split.
    + iteration_events.
    + unfold start. count_tasks.
Qed.

(** *** The log *)

Lemma appendLogSection_runs env block st :
  exists r st',
    appendLogSection env block st = (r, st')
    /\ stats st' = stats st
    /\ latestResult st' = latestResult st
    /\ ((r = Returned tt /\ trace st' = LogAppended block :: trace st)
        \/ (r = Thrown AppendFileRejected /\ trace st' = trace st
            /\ appendFile env (appendCalls st) = false)).
Proof.
  unfold appendLogSection, bind, get, update. cbn.
  destruct (appendFile env (appendCalls st)) eqn:Ea; cbn;
    eexists; eexists; (split; [reflexivity|]); cbn; repeat split.
  - now left.
  - right. repeat split.
Qed.

Lemma appendTaskLog_runs env cline logFilePath fileLabel taskStatus st :
  exists r st' evs,
    appendTaskLog env cline logFilePath fileLabel taskStatus st = (r, st')
    /\ stats st' = stats st
    /\ latestResult st' = latestResult st
    /\ trace st' = evs ++ trace st
    /\ (evs = []
        \/ exists messages lines,
             evs = [LogAppended
                      (TaskLogBlock fileLabel taskStatus messages lines (stats st))])
    /\ (logCallsResolve env cline logFilePath -> r = Returned tt).
Proof.
  unfold appendTaskLog, logCallsResolve.
  destruct logFilePath as [path|].
  2:{ exists (Returned tt), st, []. repeat split. now left. }
  destruct (getTaskMessages cline) as [messages|].
  2:{ exists (Thrown AgentCallRejected), st, []. repeat split; [now left|].
      intros [H|[_ H]]; [discriminate|now elim H]. }
  unfold bind at 1. unfold takeHookLogSlice at 1.
  unfold bind at 1. unfold get at 1. unfold bind at 1. unfold update at 1.
  unfold ret at 1. unfold bind at 1. unfold get at 1.
  match goal with
  | |- context [appendLogSection env ?b ?s] =>
      destruct (appendLogSection_runs env b s) as (r & st' & E & S & L & T);
      rewrite E
  end.
  exists r, st'.
  destruct T as [[-> T]|(-> & T & F)].
  - exists [LogAppended
              (TaskLogBlock fileLabel taskStatus messages
                 (skipn (lastHookLogIndex st) (hookLogs st)) (stats st))].
    split; [reflexivity|]. split; [exact S|]. split; [exact L|].
    split; [rewrite T; reflexivity|]. split; [|reflexivity].
    right. eexists. eexists. reflexivity.
  - exists []. split; [reflexivity|]. split; [exact S|]. split; [exact L|].
    split; [exact T|]. split; [now left|].
    intros [H|[H _]]; [discriminate|]. cbn in F. now rewrite H in F.
Qed.

(** *** One iteration of the loop *)

Lemma processOneFile_runs env cline hooks taskDescription logFilePath total
    file i st :
  exists r st' evs,
    processOneFile env cline hooks taskDescription logFilePath total file i st
    = (r, st')
    /\ counters (stats st')
       = counters (incrProcessedFiles
                     (bump (agentOutcome env (cline i) file taskDescription)
                        (stats st)))
    /\ latestResult st' = latestResult st
    /\ trace st' = evs ++ trace st
    /\ Forall (iterationEvent (stats st)) evs
    /\ tasksStarted (rev evs) = [fileLabelOf env file]
    /\ (logCallsResolve env (cline i) logFilePath -> r = Returned tt).
Proof.
  unfold processOneFile. cbv zeta.
  change (orElse (asRelativePath env file None) file) with (shownLabelOf env file).
  rewrite (bind_returned _ _ _ _ _ (emit_adds _ _)).
  match goal with
  | |- context [bind (refreshModifiedFilesCount env) _ ?s] =>
      destruct (refresh_runs env s) as (st1 & g1 & E1 & C1 & L1 & T1 & G1 & _);
      rewrite (bind_returned _ _ _ _ _ E1)
  end.
  destruct (hooks_run env hooks beforeFile (Some file) st1)
    as (st2 & a2 & E2 & S2 & L2 & T2 & A2).
  rewrite (bind_returned _ _ _ _ _ E2).
  destruct (attemptTask_runs env (cline i) hooks taskDescription file
              (shownLabelOf env file) st2)
    as (st3 & e3 & E3 & C3 & L3 & T3 & I3 & K3).
  rewrite (bind_returned _ _ _ _ _ E3).
  set (o := agentOutcome env (cline i) file taskDescription) in *.
  rewrite (bind_returned _ _ _ _ _ (update_runs _ _)).
  match goal with
  | |- context [bind (refreshModifiedFilesCount env) _ ?s] =>
      destruct (refresh_runs env s) as (st4 & g4 & E4 & C4 & L4 & T4 & G4 & _);
      rewrite (bind_returned _ _ _ _ _ E4)
  end.
  destruct (hooks_run env hooks afterFile (Some file) st4)
    as (st5 & a5 & E5 & S5 & L5 & T5 & A5).
  rewrite (bind_returned _ _ _ _ _ E5).
  destruct (appendTaskLog_runs env (cline i) logFilePath (shownLabelOf env file)
              o st5) as (r & st6 & e6 & E6 & S6 & L6 & T6 & B6 & R6).
  rewrite E6.
  assert (C2 : counters (stats st2) = counters (stats st)).
  { rewrite S2, C1. reflexivity. }
  assert (C5 : counters (stats st5)
               = counters (incrProcessedFiles (bump o (stats st)))).
  { rewrite S5, C4. cbn [stats withStats].
    apply counters_incr; [now left|]. rewrite C3. now apply counters_bump. }
  exists r, st6,
    (e6 ++ a5 ++ HooksEvaluated afterFile (stats st4) :: g4 ++ e3
       ++ a2 ++ HooksEvaluated beforeFile (stats st1) :: g1
       ++ [ProgressReport (i + 1) total (asRelativePath env file None)]).
  split; [reflexivity|]. split; [now rewrite S6|].
  split.
  { rewrite L6, L5, L4. cbn [latestResult withStats]. now rewrite L3, L2, L1. }
  split.
  { rewrite T6, T5, T4. cbn [trace withStats]. rewrite T3, T2, T1. trace_eq. }
  split; [|split; [|exact R6]].
  - apply Forall_app. split.
    { destruct B6 as [->|(messages & lines & ->)]; [constructor|].
      constructor; [|constructor]. cbn. exact C5. }
    apply Forall_app. split; [now apply hookActions_iteration|].
    constructor.
    { cbn. exists o. now rewrite <- S5. }
    apply Forall_app. split; [now apply gitAnswers_iteration|].
    apply Forall_app. split.
    { revert I3. apply Forall_impl. intros e. now apply iterationEvent_counters. }
    apply Forall_app. split; [now apply hookActions_iteration|].
    constructor.
    { cbn. now rewrite <- C2, S2. }
    apply Forall_app. split; [now apply gitAnswers_iteration|].
    constructor; [exact I|constructor].
  - assert (K6 : tasksStarted (rev e6) = []).
    { destruct B6 as [->|(messages & lines & ->)]; reflexivity. }
    repeat (rewrite ?rev_app_distr; cbn [rev app]).
    rewrite <- ?app_assoc. cbn [app].
    repeat (rewrite ?tasksStarted_app; cbn [tasksStarted app]).
    rewrite K3, K6.
    rewrite ?tasksStarted_none
      by (rewrite forallb_rev;
          first [now apply hookActions_startNoTask
                |now apply gitAnswers_startNoTask]).
    reflexivity.
Qed.

Lemma counters_step o s s1 :
  counters s1 = counters (incrProcessedFiles (bump o s)) ->
  (totalFiles s1 = totalFiles s /\ startTime s1 = startTime s
   /\ endTime s1 = endTime s
   /\ processedFiles s1 = processedFiles s + 1
   /\ successfulFiles s1 + failedFiles s1
      = successfulFiles s + failedFiles s + 1
   /\ errorCount s1 - failedFiles s1 = errorCount s - failedFiles s
   /\ successfulFiles s1
      = successfulFiles s + match o with success => 1 | failed => 0 end)%Z.
Proof.
  intros E. apply counters_fields in E as (E1 & E2 & E3 & E4 & E5 & E6 & E7).
  destruct o, s, s1; cbn in *; subst; repeat split; lia.
Qed.

Lemma iterationEvent_observation s0 e :
  consistent s0 -> (processedFiles s0 < totalFiles s0)%Z ->
  iterationEvent s0 e -> observationOk e.
Proof.
  intros [Hc [H0 Ht]] Hlt.
  destruct e as [| | |at_ s| | | | | | | | | | |block| | | |];
    cbn [iterationEvent]; try (intros _; exact I);
    try (intros F; now destruct F).
  - unfold observationOk, consistent. cbn [observation].
    destruct at_; [intros F; destruct F|intros F; destruct F| | |].
    + intros E. apply counters_fields in E as (E1 & E2 & E3 & E4 & E5 & E6 & E7).
      lia.
    + intros [o E]. apply counters_step in E. lia.
    + intros E. apply counters_fields in E as (E1 & E2 & E3 & E4 & E5 & E6 & E7).
      cbn in *. lia.
  - destruct block as [| |label o messages lines s|];
      [intros F; destruct F|intros F; destruct F| |intros F; destruct F].
    unfold observationOk, consistent. cbn [observation].
    intros E. apply counters_step in E. lia.
Qed.

Lemma iterationEvent_notCompleted s0 e :
  iterationEvent s0 e -> notCompleted e = true.
Proof. destruct e; cbn; try reflexivity. intros []. Qed.

(** *** The loop over the files *)

Lemma fileLoop_runs env cline hooks taskDescription logFilePath total :
  forall files i st,
  exists r st' evs n,
    fileLoop env cline hooks taskDescription logFilePath total files i st
    = (r, st')
    /\ latestResult st' = latestResult st
    /\ trace st' = evs ++ trace st
    /\ n <= length files
    /\ (totalFiles (stats st') = totalFiles (stats st)
        /\ startTime (stats st') = startTime (stats st)
        /\ endTime (stats st') = endTime (stats st)
        /\ processedFiles (stats st') = processedFiles (stats st) + Z.of_nat n
        /\ successfulFiles (stats st') + failedFiles (stats st')
           = successfulFiles (stats st) + failedFiles (stats st) + Z.of_nat n
        /\ errorCount (stats st') - failedFiles (stats st')
           = errorCount (stats st) - failedFiles (stats st))%Z
    /\ forallb notCompleted evs = true
    /\ tasksStarted (rev evs) = map (fileLabelOf env) (firstn n files)
    /\ (consistent (stats st) ->
        (processedFiles (stats st) + Z.of_nat (length files)
         <= totalFiles (stats st))%Z ->
        Forall observationOk evs)
    /\ (forall k, stopsAfter env i k files ->
                  (forall j, logCallsResolve env (cline j) logFilePath) ->
                  r = Returned tt /\ n = k).
Proof.
  induction files as [|file rest IH]; intros i st.
  - exists (Returned tt), st, [], 0. cbn [fileLoop length firstn map rev].
    repeat split; try lia; try constructor.
    destruct H as (_ & Hk & _). cbn in Hk. lia.
  - cbn [fileLoop].
    destruct (isCancellationRequested env i) eqn:Ec.
    + exists (Returned tt), st, [], 0. cbn [length firstn map rev].
      repeat split; try lia; try constructor.
      destruct H as (Hj & _ & _). destruct k as [|k]; [reflexivity|].
      specialize (Hj 0 ltac:(lia)). rewrite Nat.add_0_r in Hj. congruence.
    + destruct (processOneFile_runs env cline hooks taskDescription logFilePath
                  total file i st)
        as (r1 & st1 & e1 & E1 & C1 & L1 & T1 & I1 & K1 & R1).
      apply counters_step in C1 as (F1 & F2 & F3 & F4 & F5 & F6 & _).
      assert (N1 : forallb notCompleted e1 = true).
      { apply forallb_forall. intros e He. rewrite Forall_forall in I1.
        apply (iterationEvent_notCompleted (stats st)). now apply I1. }
      destruct r1 as [[]|err].
      * rewrite (bind_returned _ _ _ _ _ E1).
        destruct (IH (S i) st1)
          as (r & st' & e2 & n & E & L & T & Hn & S & N & K & O & R).
        exists r, st', (e2 ++ e1), (Datatypes.S n).
        split; [exact E|]. split; [now rewrite L|].
        split; [rewrite T, T1; now rewrite app_assoc|].
        split; [cbn; lia|].
        destruct S as (S1 & S2 & S3 & S4 & S5 & S6).
        split; [repeat split; first [congruence|lia]|].
        split; [now rewrite forallb_app, N, N1|]. split.
        { rewrite rev_app_distr, tasksStarted_app, K1, K. reflexivity. }
        split.
        { intros Hc Hlen. cbn [length] in Hlen. apply Forall_app. split.
          - apply O; [|lia]. destruct Hc as [Hc1 Hc2]. split; lia.
          - revert I1. apply Forall_impl. intros e.
            apply iterationEvent_observation; [exact Hc|lia]. }
        intros k (Hj & Hk & Hc) Hlog.
        destruct k as [|k].
        { cbn [length] in Hc. specialize (Hc ltac:(lia)).
          rewrite Nat.add_0_r in Hc. congruence. }
        destruct (R k) as [-> ->]; [|exact Hlog|split; reflexivity].
        split; [|split].
        -- intros j Hlt. replace (Datatypes.S i + j) with (i + Datatypes.S j) by lia.
           apply Hj. lia.
        -- cbn [length] in Hk. lia.
        -- intros Hlt. replace (Datatypes.S i + k) with (i + Datatypes.S k) by lia.
           apply Hc. cbn [length]. lia.
      * rewrite (bind_thrown _ _ _ _ _ E1).
        exists (Thrown err), st1, e1, 1.
        split; [reflexivity|]. split; [exact L1|]. split; [exact T1|].
        split; [cbn; lia|].
        split; [repeat split; first [congruence|lia]|].
        split; [exact N1|]. split.
        { rewrite K1. reflexivity. }
        split.
        { intros Hc Hlen. cbn [length] in Hlen. revert I1. apply Forall_impl.
          intros e. apply iterationEvent_observation; [exact Hc|lia]. }
        intros k _ Hlog. specialize (R1 (Hlog i)). discriminate.
Qed.

(** *** The completion sequence *)

Lemma steps_app a b : steps (a ++ b) = steps a ++ steps b.
Proof.
  induction a as [|e a IH]; [reflexivity|].
  cbn [app steps]. destruct (completionStepOf e); cbn; now rewrite IH.
Qed.

Lemma steps_hookActions l : forallb isHookAction l = true -> steps (rev l) = [].
Proof.
  intros H. rewrite <- forallb_rev in H.
  induction (rev l) as [|e r IH]; [reflexivity|].
  cbn in H. apply andb_prop in H as [He Hr].
  destruct e; try discriminate; cbn; now apply IH.
Qed.

Lemma consistent_counters s s' :
  counters s = counters s' -> consistent s' -> consistent s.
Proof.
  intros E. apply counters_fields in E as (E1 & E2 & E3 & E4 & E5 & E6 & E7).
  unfold consistent. lia.
Qed.

Lemma quiet_observations l :
  (forallb isHookAction l = true \/ forallb isGitStatus l = true) ->
  Forall observationOk l.
Proof.
  intros H. apply Forall_forall. intros e He.
  destruct H as [H|H]; rewrite forallb_forall in H; specialize (H e He);
    now destruct e.
Qed.

Lemma quiet_notCompleted l :
  (forallb isHookAction l = true \/ forallb isGitStatus l = true) ->
  forallb notCompleted l = true.
Proof.
  intros [H|H]; revert H; apply forallb_impl; now intros [].
Qed.

Ltac observations :=
  repeat first
    [ apply Forall_nil
    | apply Forall_app; split
    | apply quiet_observations; first [now left | now right]
    | apply Forall_cons ].

Lemma appendSummary_runs env st :
  exists r st' evs,
    appendSummary env st = (r, st')
    /\ stats st' = stats st
    /\ trace st' = evs ++ trace st
    /\ (consistent (stats st) -> Forall observationOk evs)
    /\ forallb startsNoTask evs = true
    /\ ((forall n, appendFile env n = true) ->
        r = Returned tt
        /\ evs = [LogAppended (SummaryBlock (stats st));
                  LogAppended (HookRunBlock afterBatch
                                 (skipn (lastHookLogIndex st) (hookLogs st)))]).
Proof.
  unfold appendSummary.
  assert (E0 : takeHookLogSlice st
               = (Returned (skipn (lastHookLogIndex st) (hookLogs st)),
                  markHookLogsWritten st)) by reflexivity.
  rewrite (bind_returned _ _ _ _ _ E0).
  destruct (appendLogSection_runs env
              (HookRunBlock afterBatch (skipn (lastHookLogIndex st) (hookLogs st)))
              (markHookLogsWritten st)) as (r1 & st1 & E1 & S1 & L1 & T1).
  cbn [stats trace markHookLogsWritten] in S1, T1.
  destruct T1 as [[-> T1]|(-> & T1 & F1)].
  - rewrite (bind_returned _ _ _ _ _ E1).
    assert (E2 : get st1 = (Returned st1, st1)) by reflexivity.
    rewrite (bind_returned _ _ _ _ _ E2).
    destruct (appendLogSection_runs env (SummaryBlock (stats st1)) st1)
      as (r3 & st3 & E3 & S3 & L3 & T3).
    rewrite E3. exists r3, st3.
    destruct T3 as [[-> T3]|(-> & T3 & F3)].
    + exists [LogAppended (SummaryBlock (stats st));
              LogAppended (HookRunBlock afterBatch
                             (skipn (lastHookLogIndex st) (hookLogs st)))].
      split; [reflexivity|]. split; [now rewrite S3|].
      split; [rewrite T3, T1, S1; reflexivity|]. split; [|split; [reflexivity|]].
      * intros Hc. constructor; [exact Hc|]. constructor; [exact I|constructor].
      * intros _. split; reflexivity.
    + exists [LogAppended (HookRunBlock afterBatch
                             (skipn (lastHookLogIndex st) (hookLogs st)))].
      split; [reflexivity|]. split; [now rewrite S3|].
      split; [rewrite T3, T1; reflexivity|]. split; [|split; [reflexivity|]].
      * intros Hc. constructor; [exact I|constructor].
      * intros H. now rewrite H in F3.
  - rewrite (bind_thrown _ _ _ _ _ E1).
    exists (Thrown AppendFileRejected), st1, [].
    split; [reflexivity|]. split; [exact S1|]. split; [exact T1|].
    split; [|split; [reflexivity|]].
    + intros _. constructor.
    + intros H. cbn in F1. now rewrite H in F1.
Qed.

Lemma completeBatch_runs env hooks st :
  exists r st' evs,
    completeBatch env hooks (logFile env) st = (r, st')
    /\ trace st' = evs ++ trace st
    /\ counters (stats st') = counters (setEndTime (clockAtEnd env) (stats st))
    /\ (consistent (stats st) -> Forall observationOk evs)
    /\ forallb startsNoTask evs = true
    /\ ((logFile env = None \/ forall n, appendFile env n = true) ->
        r = Returned tt
        /\ steps (rev evs) = expectedCompletion env
        /\ latestResult st'
           = Some (mkResult (stats st')
                     (clockAtEnd env - startTime (stats st'))
                     (clockAtEnd env))).
Proof.
  unfold completeBatch.
  rewrite (bind_returned _ _ _ _ _ (update_runs _ _)).
  rewrite (bind_returned _ _ _ _ _ (emit_adds _ _)).
  match goal with
  | |- context [bind (refreshModifiedFilesCount env) _ ?s] =>
      destruct (refresh_runs env s) as (st1 & g1 & E1 & C1 & L1 & T1 & G1 & R1);
      rewrite (bind_returned _ _ _ _ _ E1)
  end.
  destruct (hooks_run env hooks afterBatch None st1)
    as (st2 & a2 & E2 & S2 & L2 & T2 & A2).
  rewrite (bind_returned _ _ _ _ _ E2).
  cbn [stats addEvents withStats] in C1.
  assert (C2 : counters (stats st2)
               = counters (setEndTime (clockAtEnd env) (stats st))).
  { now rewrite S2. }
  assert (K : forall s', counters s' = counters (setEndTime (clockAtEnd env) (stats st)) ->
               consistent (stats st) -> consistent s').
  { intros s' E Hc. apply (consistent_counters _ _ E). exact Hc. }
  assert (P : forall (st3 : State) (e3 : list event),
            stats st3 = stats st2 -> trace st3 = e3 ++ trace st2 ->
            exists r st' evs,
              (Dashboard.notifyDashboardResult env ;;
               match logFile env with
               | Some path => emit (LogPathMessage path)
               | None => ret tt
               end ;;
               st4 <- get ;; emit (FinalSummaryMessage (stats st4))) st3
              = (r, st')
              /\ r = Returned tt
              /\ stats st' = stats st2
              /\ trace st' = evs ++ e3 ++ trace st2
              /\ (consistent (stats st) -> Forall observationOk evs)
              /\ forallb startsNoTask evs = true
              /\ steps (rev evs)
                 = (if activePanel env then [StepDashboard] else [])
                   ++ (match logFile env with Some _ => [StepLogPath] | None => [] end)
                   ++ [StepFinalMessage]
              /\ latestResult st'
                 = Some (mkResult (stats st')
                           (clockAtEnd env - startTime (stats st'))
                           (clockAtEnd env))).
  { intros st3 e3 S3 T3.
    assert (Hend : endTime (stats st2) = Some (clockAtEnd env)).
    { now apply counters_fields in C2 as (_ & _ & _ & _ & _ & _ & Hend). }
    assert (Hc2 : consistent (stats st) -> consistent (stats st2)).
    { now apply K. }
    unfold Dashboard.notifyDashboardResult, bind, get, update, emit, ret.
    cbn. rewrite S3, Hend.
    set (result := {| resultStats := stats st2;
                      durationMs := clockAtEnd env - startTime (stats st2);
                      completedAt := clockAtEnd env |}).
    destruct (activePanel env), (logFile env) as [path|]; cbn.
    - do 2 eexists.
      exists [FinalSummaryMessage (stats st2); LogPathMessage path;
              DashboardPosted result].
      split; [reflexivity|]. cbn. rewrite T3, ?S3.
      split; [reflexivity|]. split; [reflexivity|]. split; [reflexivity|].
      split; [|split; [reflexivity|split; reflexivity]].
      intros Hc. repeat constructor; now apply Hc2.
    - do 2 eexists.
      exists [FinalSummaryMessage (stats st2); DashboardPosted result].
      split; [reflexivity|]. cbn. rewrite T3, ?S3.
      split; [reflexivity|]. split; [reflexivity|]. split; [reflexivity|].
      split; [|split; [reflexivity|split; reflexivity]].
      intros Hc. repeat constructor; now apply Hc2.
    - do 2 eexists.
      exists [FinalSummaryMessage (stats st2); LogPathMessage path].
      split; [reflexivity|]. cbn. rewrite T3, ?S3.
      split; [reflexivity|]. split; [reflexivity|]. split; [reflexivity|].
      split; [|split; [reflexivity|split; reflexivity]].
      intros Hc. repeat constructor; now apply Hc2.
    - do 2 eexists.
      exists [FinalSummaryMessage (stats st2)].
      split; [reflexivity|]. cbn. rewrite T3, ?S3.
      split; [reflexivity|]. split; [reflexivity|]. split; [reflexivity|].
      split; [|split; [reflexivity|split; reflexivity]].
      intros Hc. repeat constructor; now apply Hc2. }
  assert (H0 : steps (rev (a2 ++ HooksEvaluated afterBatch (stats st1)
                             :: g1 ++ [EndTimeSet (clockAtEnd env)]))
               = [StepEndTime] ++ refreshSteps env ++ [StepAfterBatchHooks]).
  { repeat (rewrite ?rev_app_distr; cbn [rev app]).
    rewrite <- ?app_assoc. cbn [app].
    change (EndTimeSet (clockAtEnd env)
              :: rev g1 ++ HooksEvaluated afterBatch (stats st1) :: rev a2)
      with ([EndTimeSet (clockAtEnd env)]
              ++ rev g1 ++ [HooksEvaluated afterBatch (stats st1)] ++ rev a2).
    rewrite !steps_app, R1, (steps_hookActions _ A2). reflexivity. }
  assert (T2' : trace st2
                = (a2 ++ HooksEvaluated afterBatch (stats st1)
                     :: g1 ++ [EndTimeSet (clockAtEnd env)]) ++ trace st).
  { rewrite T2, T1. trace_eq. }
  assert (O2 : consistent (stats st) ->
               Forall observationOk
                 (a2 ++ HooksEvaluated afterBatch (stats st1)
                    :: g1 ++ [EndTimeSet (clockAtEnd env)])).
  { intros Hc. observations; try exact I. now apply K. }
  assert (Q2 : forallb startsNoTask
                 (a2 ++ HooksEvaluated afterBatch (stats st1)
                    :: g1 ++ [EndTimeSet (clockAtEnd env)]) = true).
  { rewrite forallb_app. cbn [forallb startsNoTask]. rewrite forallb_app.
    now rewrite (hookActions_startNoTask _ A2), (gitAnswers_startNoTask _ G1). }
  set (pre := a2 ++ HooksEvaluated afterBatch (stats st1)
                :: g1 ++ [EndTimeSet (clockAtEnd env)]) in *.
  destruct (logFile env) as [path|] eqn:El.
  - destruct (appendSummary_runs env st2)
      as (r3 & st3 & e3 & E3 & S3 & T3 & O3 & Q3 & R3).
    destruct r3 as [[]|err].
    + rewrite (bind_returned _ _ _ _ _ E3).
      destruct (P st3 e3 S3 T3)
        as (r & st' & evs & E & -> & S' & T' & O' & Q' & K' & L').
      exists (Returned tt), st', (evs ++ e3 ++ pre).
      split; [exact E|]. split; [rewrite T', T2'; trace_eq|].
      split; [now rewrite S'|]. split.
      { intros Hc. apply Forall_app. split; [now apply O'|].
        apply Forall_app. split; [apply O3; now apply K|now apply O2]. }
      split; [now rewrite !forallb_app, Q', Q3, Q2|].
      intros [H|H]; [discriminate|].
      split; [reflexivity|]. split; [|exact L'].
      destruct (R3 H) as [_ ->].
      rewrite !rev_app_distr, !steps_app, H0, K'.
      unfold expectedCompletion. rewrite El.
      cbn [rev app steps completionStepOf]. now rewrite <- !app_assoc.
    + rewrite (bind_thrown _ _ _ _ _ E3).
      exists (Thrown err), st3, (e3 ++ pre).
      split; [reflexivity|]. split; [rewrite T3, T2'; trace_eq|].
      split; [now rewrite S3|]. split.
      { intros Hc. apply Forall_app.
        split; [apply O3; now apply K|now apply O2]. }
      split; [now rewrite !forallb_app, Q3, Q2|].
      intros [H|H]; [discriminate|]. destruct (R3 H) as [F _]. discriminate.
  - rewrite (bind_returned _ _ _ _ _ (eq_refl : ret tt st2 = (Returned tt, st2))).
    destruct (P st2 []) as (r & st' & evs & E & -> & S' & T' & O' & Q' & K' & L');
      [reflexivity|reflexivity|].
    exists (Returned tt), st', (evs ++ pre).
    split; [exact E|]. split; [rewrite T', T2'; trace_eq|].
    split; [now rewrite S'|]. split.
    { intros Hc. apply Forall_app. split; [now apply O'|now apply O2]. }
    split; [now rewrite !forallb_app, Q', Q2|].
    intros _. split; [reflexivity|]. split; [|exact L'].
    rewrite !rev_app_distr, !steps_app, H0, K'.
    unfold expectedCompletion. rewrite El. now rewrite <- !app_assoc.
Qed.

(** *** The whole run *)

Lemma afterLoop_skip a b :
  forallb notCompleted a = true -> afterLoop (a ++ ProgressCompleted :: b) = b.
Proof.
  induction a as [|e a IH]; [reflexivity|].
  cbn [forallb]. intros H. apply andb_prop in H as [He Ha].
  destruct e; try discriminate; cbn; now apply IH.
Qed.

Lemma openBatch_runs env files taskDescription st0 :
  exists r st' evs,
    openBatch env files taskDescription st0 = (r, st')
    /\ trace st' = evs ++ trace st0
    /\ latestResult st' = latestResult st0
    /\ counters (stats st') = counters (initialStats env files)
    /\ Forall observationOk evs
    /\ forallb notCompleted evs = true
    /\ tasksStarted (rev evs) = []
    /\ (r = Returned (logFile env)
        \/ (exists e, r = Thrown e)
           /\ ~ (logFile env = None \/ forall n, appendFile env n = true)).
Proof.
  unfold openBatch. cbv zeta.
  fold (initialStats env files).
  rewrite (bind_returned _ _ _ _ _ (update_runs _ _)).
  set (st1 := withStats (fun _ => initialStats env files) st0).
  assert (Hinit : consistent (initialStats env files)).
  { unfold consistent, initialStats. cbn. lia. }
  assert (E2 : exists c,
    createBatchLogFile env (hookConfigs env) taskDescription st1
    = (Returned (logFile env), addEvents [c] st1)
    /\ observationOk c /\ notCompleted c = true /\ startsNoTask c = true).
  { unfold createBatchLogFile, bind, get, emit, update, ret. cbn.
    destruct (logFile env); eexists; (split; [reflexivity|]);
      (split; [first [exact Hinit | exact I]|split; reflexivity]). }
  destruct E2 as (c & E2 & Oc & Nc & Kc).
  rewrite (bind_returned _ _ _ _ _ E2).
  match goal with
  | |- context [bind (refreshModifiedFilesCount env) _ ?s] =>
      destruct (refresh_runs env s) as (st3 & g3 & E3 & C3 & L3 & T3 & G3 & _);
      rewrite (bind_returned _ _ _ _ _ E3)
  end.
  destruct (hooks_run env (hookConfigs env) beforeBatch None st3)
    as (st4 & a4 & E4 & S4 & L4 & T4 & A4).
  rewrite (bind_returned _ _ _ _ _ E4).
  cbn [stats addEvents withStats st1] in C3.
  assert (T4' : trace st4
                = (a4 ++ HooksEvaluated beforeBatch (stats st3) :: g3 ++ [c])
                  ++ trace st0).
  { rewrite T4, T3. unfold st1. trace_eq. }
  assert (O4 : Forall observationOk
                 (a4 ++ HooksEvaluated beforeBatch (stats st3) :: g3 ++ [c])).
  { observations; [|exact Oc].
    unfold observationOk. cbn. now apply (consistent_counters _ _ C3). }
  assert (N4 : forallb notCompleted
                 (a4 ++ HooksEvaluated beforeBatch (stats st3) :: g3 ++ [c])
               = true).
  { rewrite forallb_app. cbn [forallb notCompleted]. rewrite forallb_app.
    rewrite !quiet_notCompleted by (first [now left | now right]).
    cbn. now rewrite Nc. }
  assert (K4 : tasksStarted
                 (rev (a4 ++ HooksEvaluated beforeBatch (stats st3) :: g3 ++ [c]))
               = []).
  { apply tasksStarted_none. rewrite forallb_rev, forallb_app.
    cbn [forallb startsNoTask]. rewrite forallb_app.
    rewrite (hookActions_startNoTask _ A4), (gitAnswers_startNoTask _ G3).
    cbn. now rewrite Kc. }
  set (pre := a4 ++ HooksEvaluated beforeBatch (stats st3) :: g3 ++ [c]) in *.
  destruct (logFile env) as [path|] eqn:El.
  - assert (E0 : takeHookLogSlice st4
                 = (Returned (skipn (lastHookLogIndex st4) (hookLogs st4)),
                    markHookLogsWritten st4)) by reflexivity.
    unfold bind at 1. rewrite (bind_returned _ _ _ _ _ E0).
    match goal with
    | |- context [appendLogSection env ?b ?s] =>
        destruct (appendLogSection_runs env b s) as (r5 & st5 & E5 & S5 & L5 & T5)
    end.
    cbn [stats trace latestResult markHookLogsWritten] in S5, T5, L5.
    cbv beta. rewrite E5. cbn [fst snd].
    destruct T5 as [[-> T5]|(-> & T5 & F5)].
    + exists (Returned (Some path)), st5,
        (LogAppended (HookRunBlock beforeBatch
                        (skipn (lastHookLogIndex st4) (hookLogs st4))) :: pre).
      split; [reflexivity|]. split; [rewrite T5, T4'; reflexivity|].
      split; [now rewrite L5, L4, L3|]. split; [now rewrite S5, S4|].
      split; [constructor; [exact I|exact O4]|].
      split; [cbn; exact N4|]. split; [|now left].
      cbn [rev]. rewrite tasksStarted_app, K4. reflexivity.
    + exists (Thrown AppendFileRejected), st5, pre.
      split; [reflexivity|]. split; [now rewrite T5|].
      split; [now rewrite L5, L4, L3|]. split; [now rewrite S5, S4|].
      split; [exact O4|]. split; [exact N4|]. split; [exact K4|].
      right. split; [now eexists|].
      intros [H|H]; [discriminate|]. now rewrite H in F5.
  - rewrite (bind_returned _ _ _ _ _ (eq_refl : ret tt st4 = (Returned tt, st4))).
    exists (Returned None), st4, pre.
    split; [reflexivity|]. split; [exact T4'|].
    split; [now rewrite L4, L3|]. split; [now rewrite S4|].
    split; [exact O4|]. split; [exact N4|]. split; [exact K4|now left].
Qed.

Lemma loggingResolves_calls env cline :
  loggingResolves env cline ->
  forall j, logCallsResolve env (cline j) (logFile env).
Proof.
  intros [H|[Ha Hm]] j; [now left|]. right. split; [exact Ha|apply Hm].
Qed.

Lemma loggingResolves_appends env cline :
  loggingResolves env cline ->
  logFile env = None \/ forall n, appendFile env n = true.
Proof. intros [H|[Ha _]]; [now left|now right]. Qed.

Lemma runBatch_runs env cline files taskDescription st0 :
  exists r st' evs n,
    runBatch env cline files taskDescription st0 = (r, st')
    /\ trace st' = evs ++ trace st0
    /\ Forall observationOk evs
    /\ consistent (stats st')
    /\ n <= length files
    /\ totalFiles (stats st') = Z.of_nat (length files)
    /\ processedFiles (stats st') = Z.of_nat n
    /\ errorCount (stats st') = failedFiles (stats st')
    /\ tasksStarted (rev evs) = map (fileLabelOf env) (firstn n files)
    /\ (forall k, stopsAfter env 0 k files -> loggingResolves env cline ->
          r = Returned tt /\ n = k
          /\ steps (afterLoop (rev evs)) = expectedCompletion env
          /\ endTime (stats st') = Some (clockAtEnd env)
          /\ latestResult st'
             = Some (mkResult (stats st')
                       (clockAtEnd env - startTime (stats st'))
                       (clockAtEnd env))).
Proof.
  unfold runBatch. cbv zeta.
  destruct (openBatch_runs env files taskDescription st0)
    as (r1 & st1 & e1 & E1 & T1 & L1 & C1 & O1 & N1 & K1 & R1).
  apply counters_fields in C1 as (F1 & F2 & F3 & F4 & F5 & F6 & F7).
  cbn [initialStats totalFiles processedFiles successfulFiles failedFiles
       errorCount startTime endTime] in F1, F2, F3, F4, F5, F6, F7.
  assert (H1 : consistent (stats st1)).
  { unfold consistent. lia. }
  destruct R1 as [->|[[err ->] Hno]].
  2:{ rewrite (bind_thrown _ _ _ _ _ E1).
      exists (Thrown err), st1, e1, 0.
      split; [reflexivity|]. split; [exact T1|]. split; [exact O1|].
      split; [exact H1|]. split; [lia|]. split; [exact F1|].
      split; [exact F2|]. split; [lia|]. split; [exact K1|].
      intros k _ Hlog. elim Hno. now apply (loggingResolves_appends env cline). }
  rewrite (bind_returned _ _ _ _ _ E1).
  destruct (fileLoop_runs env cline (hookConfigs env) taskDescription
              (logFile env) (length files) files 0 st1)
    as (r2 & st2 & e2 & n & E2 & L2 & T2 & Hn & S2 & N2 & K2 & O2 & R2).
  destruct S2 as (S21 & S22 & S23 & S24 & S25 & S26).
  assert (H2 : consistent (stats st2)).
  { unfold consistent. lia. }
  specialize (O2 H1 ltac:(lia)).
  destruct r2 as [[]|err].
  2:{ rewrite (bind_thrown _ _ _ _ _ E2).
      exists (Thrown err), st2, (e2 ++ e1), n.
      split; [reflexivity|]. split; [rewrite T2, T1; now rewrite app_assoc|].
      split; [apply Forall_app; now split|]. split; [exact H2|].
      split; [exact Hn|]. split; [lia|]. split; [lia|]. split; [lia|].
      split; [rewrite rev_app_distr, tasksStarted_app, K1, K2; reflexivity|].
      intros k Hk Hlog.
      destruct (R2 k Hk (loggingResolves_calls env cline Hlog)) as [F _].
      discriminate. }
  rewrite (bind_returned _ _ _ _ _ E2).
  rewrite (bind_returned _ _ _ _ _ (emit_adds _ _)).
  match goal with
  | |- context [completeBatch env ?h _ ?s] =>
      destruct (completeBatch_runs env h s)
        as (r3 & st3 & e3 & E3 & T3 & C3 & O3 & Q3 & R3)
  end.
  cbn [stats trace addEvents] in T3, C3, O3.
  apply counters_fields in C3 as (G1 & G2 & G3 & G4 & G5 & G6 & G7).
  cbn [setEndTime totalFiles processedFiles successfulFiles failedFiles
       errorCount startTime endTime] in G1, G2, G3, G4, G5, G6, G7.
  exists r3, st3, (e3 ++ ProgressCompleted :: e2 ++ e1), n.
  split; [exact E3|]. split.
  { rewrite T3, T2, T1. trace_eq. }
  split.
  { apply Forall_app. split; [now apply O3|].
    constructor; [exact I|]. apply Forall_app. now split. }
  split; [unfold consistent; lia|]. split; [exact Hn|].
  split; [lia|]. split; [lia|]. split; [lia|]. split.
  { change (e3 ++ ProgressCompleted :: e2 ++ e1)
      with (e3 ++ [ProgressCompleted] ++ e2 ++ e1).
    rewrite !rev_app_distr, !tasksStarted_app, K1, K2.
    rewrite (tasksStarted_none (rev e3)) by now rewrite forallb_rev.
    cbn [rev app tasksStarted]. now rewrite !app_nil_r. }
  intros k Hk Hlog.
  destruct (R2 k Hk (loggingResolves_calls env cline Hlog)) as [_ ->].
  destruct (R3 (loggingResolves_appends env cline Hlog)) as (-> & K3 & L3).
  split; [reflexivity|]. split; [reflexivity|]. split; [|split; [exact G7|exact L3]].
  rewrite rev_app_distr. cbn [rev]. rewrite <- app_assoc. cbn [app].
  rewrite afterLoop_skip; [exact K3|].
  rewrite forallb_rev, forallb_app. now rewrite N2, N1.
Qed.

End RunFacts.

(** ** Properties of a run *)

Section RunProperties.

Import BatchProcessor RunSpec.

Lemma startBatchProcessing_cases env st :
  startBatchProcessing env st = (Thrown AgentUnavailable, st)
  \/ startBatchProcessing env st = (Returned tt, st)
  \/ exists cline files taskDescription,
       clineExtension env = Some (Some cline)
       /\ startBatchProcessing env st = runBatch env cline files taskDescription st.
Proof.
  unfold startBatchProcessing.
  destruct (clineExtension env) as [[cline|]|]; [|now left|now left].
  destruct (fst (FileSelection.selectFilesAndFolders (workspaceFolders env)
                   (showOpenDialog env))) as [|f files] eqn:Ef.
  - right. now left.
  - destruct (TaskManager.getTaskDescription (taskPrompts env)) as [[|c d]|].
    + right. now left.
    + right. right. exists cline, (f :: files), (c :: d). now split.
    + right. now left.
Qed.

Lemma trace_observations env previous :
  consistent (stats (snd (startBatchProcessing env (initialState previous))))
  /\ Forall observationOk
       (trace (snd (startBatchProcessing env (initialState previous)))).
Proof.
  assert (Z0 : consistent (stats (initialState previous))).
  { unfold consistent. cbn. lia. }
  destruct (startBatchProcessing_cases env (initialState previous))
    as [E|[E|(cline & files & taskDescription & _ & E)]]; rewrite E.
  - split; [exact Z0|constructor].
  - split; [exact Z0|constructor].
  - destruct (runBatch_runs env cline files taskDescription (initialState previous))
      as (r & st' & evs & n & E' & T & O & C & _).
    rewrite E'. cbn [snd]. split; [exact C|].
    rewrite T. cbn [trace initialState]. now rewrite app_nil_r.
Qed.

Lemma stopsAfter_cancelled env k files :
  k < length files -> cancelledAfter env k -> stopsAfter env 0 k files.
Proof.
  intros Hk [Hc1 Hc2]. split; [|split].
  - intros j Hj. now apply Hc1.
  - lia.
  - intros _. exact Hc2.
Qed.


(** The loop always stops after some number of files. *)
Lemma stopsAfter_exists env files : forall i, exists k, stopsAfter env i k files.
Proof.
  induction files as [|file rest IH]; intros i.
  - exists 0. split; [|split]; [lia|cbn; lia|cbn; lia].
  - destruct (isCancellationRequested env i) eqn:Ec.
    + exists 0. split; [|split]; [lia|cbn; lia|].
      intros _. now rewrite Nat.add_0_r.
    + destruct (IH (S i)) as (k & H1 & H2 & H3). exists (S k).
      split; [|split].
      * intros j Hj. destruct j as [|j]; [now rewrite Nat.add_0_r|].
        replace (i + S j) with (S i + j) by lia. apply H1. lia.
      * cbn. lia.
      * intros Hlt. replace (i + S k) with (S i + k) by lia.
        apply H3. cbn in Hlt. lia.
Qed.

End RunProperties.

(** C2.  Whatever the outside world answers, the statistics that a run
    shows at any observation point other than the [onError] hooks (hook
    conditions before and after a file and around the batch, the blocks of
    the log, the dashboard, the final message) satisfy [processedFiles =
    successfulFiles + failedFiles] and [processedFiles <= totalFiles]; so do
    the statistics in which the run ends. *)
Theorem statistics_consistent_after_each_file (env : Env)
    (previous : option DashboardResult) :
  let final :=
    snd (BatchProcessor.startBatchProcessing env
           (BatchProcessor.initialState previous)) in
  RunSpec.consistent (stats final)
  /\ forall e at_ s,
       In e (trace final) ->
       RunSpec.observation e = Some (at_, s) ->
       at_ <> Some onError ->
       RunSpec.consistent s.
Proof.
  cbv zeta. destruct (trace_observations env previous) as [C O].
  split; [exact C|]. intros e at_ s He Ho Hat.
  rewrite Forall_forall in O. specialize (O e He).
  unfold RunSpec.observationOk in O. rewrite Ho in O.
  destruct at_ as [[]|]; try exact O. now elim Hat.
Qed.

(** C9.  When the [onError] hooks are evaluated, the failing file is counted
    in [failedFiles] but not yet in [processedFiles]: the statistics shown
    there satisfy [processedFiles = successfulFiles + failedFiles - 1], and
    a well-formed hook clause over [processedFiles] is evaluated against
    that count, which leaves out the file that just failed. *)
Theorem onError_hooks_precede_processed_count (env : Env)
    (previous : option DashboardResult) (e : event) (s : BatchProcessingStats)
    (He : In e (trace (snd (BatchProcessor.startBatchProcessing env
                              (BatchProcessor.initialState previous)))))
    (Ho : RunSpec.observation e = Some (Some onError, s)) :
  (processedFiles s = successfulFiles s + failedFiles s - 1)%Z
  /\ (0 <= processedFiles s < totalFiles s)%Z
  /\ forall c,
       ConditionSpec.wellFormed c = true ->
       ConditionSpec.variable c = str "processedFiles" ->
       evaluateCondition (ConditionSpec.render c) s
       = ConditionSpec.compare (ConditionSpec.op c)
           (successfulFiles s + failedFiles s - 1) (ConditionSpec.literal c).
Proof.
  destruct (trace_observations env previous) as [_ O].
  rewrite Forall_forall in O. specialize (O e He).
  unfold RunSpec.observationOk in O. rewrite Ho in O. destruct O as [O1 O2].
  split; [lia|]. split; [exact O2|].
  intros c Hwf Hv.
  pose proof (evaluateCondition_conjunction s [c]) as E.
  cbn [map join forallb] in E. rewrite !andb_true_r in E.
  rewrite (E Hwf). unfold ConditionSpec.holds. rewrite Hv.
  f_equal. change (ConditionSpec.statistic (str "processedFiles") s)
    with (processedFiles s). lia.
Qed.

Lemma onError_hooks_precede_processed_count_witness :
  (0 = 0 + 1 - 1)%Z
  /\ (0 <= 0 < 3)%Z
  /\ forall c,
       ConditionSpec.wellFormed c = true ->
       ConditionSpec.variable c = str "processedFiles" ->
       evaluateCondition (ConditionSpec.render c) (mkStats 3 0 0 1 0 1 1000 None)
       = ConditionSpec.compare (ConditionSpec.op c) (0 + 1 - 1)
           (ConditionSpec.literal c).
Proof.
  apply (onError_hooks_precede_processed_count Examples.firstFails None
           (HooksEvaluated onError (mkStats 3 0 0 1 0 1 1000 None))
           (mkStats 3 0 0 1 0 1 1000 None)).
  - vm_compute. repeat (first [left; reflexivity | right]).
  - reflexivity.
Defined.

Section AgentProperties.

Import ClineIntegration BatchProcessor RunSpec.

Lemma stuck_outcome env cline fileUri taskDescription :
  startNewTask cline = true -> pressPrimaryButton cline = true ->
  (forall n, n < pollFuel -> getTaskStatus cline n = Some active) ->
  agentOutcome env cline fileUri taskDescription = success
  /\ forall st, exists steps,
       processFileWithCline env cline fileUri taskDescription st
       = (Returned tt, addEvents (TimeoutWarning :: steps) st).
Proof.
  intros Hs Hp Ha.
  destruct (process_runs env cline fileUri taskDescription)
    as (r & steps & E & _ & Hr).
  destruct r as [[]|e].
  - split.
    + now rewrite (agentOutcome_result _ _ _ _ _ _ _ (E (initialState None))).
    + intros st. specialize (Hr Ha).
      destruct steps as [|step steps]; [discriminate|].
      cbn in Hr. injection Hr as ->.
      eexists. rewrite E. reflexivity.
  - destruct Hr as (_ & [F|[F|(n & Hn & F)]]); try congruence.
    rewrite Ha in F by exact Hn. discriminate.
Qed.

End AgentProperties.

(** C5.  When the agent accepts the task and then reports [active] at every
    poll of the wait budget (120 polls, 5 seconds apart), the call for the
    file returns (its last step is the time-out warning); the loop counts
    the file as successful, not as failed, and goes on with the next file.
    A call for a file throws only when the submission, the confirmation or
    one of the polls of the budget is rejected by the agent. *)
Theorem stuck_task_counts_as_success (env : Env) (cline : nat -> ClineAPI)
    (hooks : list HookConfig) (taskDescription : jsstring)
    (logFilePath : option jsstring) (total : nat)
    (file : jsstring) (rest : list jsstring) (i : nat) (st : State)
    (Hstart : startNewTask (cline i) = true)
    (Hpress : pressPrimaryButton (cline i) = true)
    (Hstuck : forall n, n < ClineIntegration.pollFuel ->
                        getTaskStatus (cline i) n = Some active)
    (Hgo : isCancellationRequested env i = false)
    (Hlog : RunSpec.logCallsResolve env (cline i) logFilePath) :
  (Z.of_nat ClineIntegration.pollFuel * ClineIntegration.checkInterval
   = ClineIntegration.maxWaitTime)%Z
  /\ (exists steps,
        ClineIntegration.processFileWithCline env (cline i) file taskDescription st
        = (Returned tt, RunSpec.addEvents (TimeoutWarning :: steps) st))
  /\ (exists st1,
        BatchProcessor.fileLoop env cline hooks taskDescription logFilePath total
          (file :: rest) i st
        = BatchProcessor.fileLoop env cline hooks taskDescription logFilePath
            total rest (S i) st1
        /\ successfulFiles (stats st1) = (successfulFiles (stats st) + 1)%Z
        /\ failedFiles (stats st1) = failedFiles (stats st)
        /\ errorCount (stats st1) = errorCount (stats st)
        /\ processedFiles (stats st1) = (processedFiles (stats st) + 1)%Z)
  /\ (forall other st0 e st',
        ClineIntegration.processFileWithCline env other file taskDescription st0
        = (Thrown e, st') ->
        e = AgentCallRejected
        /\ (startNewTask other = false \/ pressPrimaryButton other = false
            \/ exists n, n < ClineIntegration.pollFuel
                         /\ getTaskStatus other n = None)).
Proof.
  destruct (stuck_outcome env (cline i) file taskDescription Hstart Hpress Hstuck)
    as [Ho Hp].
  split; [reflexivity|]. split; [apply Hp|]. split.
  - destruct (processOneFile_runs env cline hooks taskDescription logFilePath
                total file i st)
      as (r & st1 & evs & E & C & _ & _ & _ & _ & R).
    rewrite (R Hlog) in E. rewrite Ho in C.
    apply counters_step in C as (_ & _ & _ & C1 & C2 & C3 & C4).
    exists st1. split.
    + cbn [BatchProcessor.fileLoop]. rewrite Hgo.
      now rewrite (bind_returned _ _ _ _ _ E).
    + repeat split; lia.
  - intros other st0 e st' E.
    destruct (process_runs env other file taskDescription)
      as (r & steps & E' & _ & Hr).
    rewrite E' in E. injection E as -> _. exact Hr.
Qed.

Lemma stuck_task_counts_as_success_witness :
  (Z.of_nat ClineIntegration.pollFuel * ClineIntegration.checkInterval
   = ClineIntegration.maxWaitTime)%Z
  /\ (exists steps,
        ClineIntegration.processFileWithCline Examples.secondStuck Examples.stuck
          (str "/ws/b.ts") (str "add comments") (BatchProcessor.initialState None)
        = (Returned tt,
           RunSpec.addEvents (TimeoutWarning :: steps)
             (BatchProcessor.initialState None)))
  /\ (exists st1,
        BatchProcessor.fileLoop Examples.secondStuck
          (fun i => match i with 1 => Examples.stuck | _ => Examples.completing end)
          [] (str "add comments") None 3 [str "/ws/b.ts"; str "/ws/c.ts"] 1
          (BatchProcessor.initialState None)
        = BatchProcessor.fileLoop Examples.secondStuck
            (fun i => match i with 1 => Examples.stuck | _ => Examples.completing end)
            [] (str "add comments") None 3 [str "/ws/c.ts"] 2 st1
        /\ successfulFiles (stats st1) = (0 + 1)%Z
        /\ failedFiles (stats st1) = 0%Z
        /\ errorCount (stats st1) = 0%Z
        /\ processedFiles (stats st1) = (0 + 1)%Z)
  /\ (forall other st0 e st',
        ClineIntegration.processFileWithCline Examples.secondStuck other
          (str "/ws/b.ts") (str "add comments") st0
        = (Thrown e, st') ->
        e = AgentCallRejected
        /\ (startNewTask other = false \/ pressPrimaryButton other = false
            \/ exists n, n < ClineIntegration.pollFuel
                         /\ getTaskStatus other n = None)).
Proof.
  apply (stuck_task_counts_as_success Examples.secondStuck
           (fun i => match i with 1 => Examples.stuck | _ => Examples.completing end)
           [] (str "add comments") None 3 (str "/ws/b.ts") [str "/ws/c.ts"] 1
           (BatchProcessor.initialState None)).
  - reflexivity.
  - reflexivity.
  - intros n _. reflexivity.
  - reflexivity.
  - left. reflexivity.
Defined.

(** C6.  When cancellation is requested after [k < N] files have completed,
    the run ends normally with [processedFiles = k], and the agent has been
    given a task for the first [k] files and for no other.  The token is
    read at the top of an iteration: when it is set there, the loop returns
    at once and leaves the state as it is. *)
Theorem cancellation_stops_before_next_file (env : Env)
    (cline : nat -> ClineAPI) (files : list jsstring)
    (taskDescription : jsstring) (previous : option DashboardResult) (k : nat)
    (Hk : k < length files)
    (Hcancel : RunSpec.cancelledAfter env k)
    (Hlog : RunSpec.loggingResolves env cline) :
  let final :=
    BatchProcessor.runBatch env cline files taskDescription
      (BatchProcessor.initialState previous) in
  fst final = Returned tt
  /\ processedFiles (stats (snd final)) = Z.of_nat k
  /\ RunSpec.tasksStarted (RunSpec.history (snd final))
     = map (RunSpec.fileLabelOf env) (firstn k files)
  /\ (forall hooks logFilePath total file rest i st,
        isCancellationRequested env i = true ->
        BatchProcessor.fileLoop env cline hooks taskDescription logFilePath
          total (file :: rest) i st
        = (Returned tt, st)).
Proof.
  cbv zeta.
  destruct (runBatch_runs env cline files taskDescription
              (BatchProcessor.initialState previous))
    as (r & st' & evs & n & E & T & _ & _ & _ & _ & P & _ & K & R).
  destruct (R k (stopsAfter_cancelled env k files Hk Hcancel) Hlog)
    as (-> & -> & _).
  rewrite E. cbn [fst snd]. split; [reflexivity|]. split; [exact P|]. split.
  - unfold RunSpec.history. rewrite T. cbn [trace BatchProcessor.initialState].
    now rewrite app_nil_r.
  - intros hooks logFilePath total file rest i st Hi.
    cbn [BatchProcessor.fileLoop]. now rewrite Hi.
Qed.

Lemma cancellation_stops_before_next_file_witness :
  fst (BatchProcessor.runBatch Examples.cancelledAfterOne
         (fun _ => Examples.completing)
         [str "/ws/a.ts"; str "/ws/b.ts"; str "/ws/c.ts"] (str "add comments")
         (BatchProcessor.initialState None))
  = Returned tt
  /\ processedFiles
       (stats (snd (BatchProcessor.runBatch Examples.cancelledAfterOne
                      (fun _ => Examples.completing)
                      [str "/ws/a.ts"; str "/ws/b.ts"; str "/ws/c.ts"]
                      (str "add comments") (BatchProcessor.initialState None))))
     = 1%Z
  /\ RunSpec.tasksStarted
       (RunSpec.history
          (snd (BatchProcessor.runBatch Examples.cancelledAfterOne
                  (fun _ => Examples.completing)
                  [str "/ws/a.ts"; str "/ws/b.ts"; str "/ws/c.ts"]
                  (str "add comments") (BatchProcessor.initialState None))))
     = [str "a.ts"]
  /\ (forall hooks logFilePath total file rest i st,
        isCancellationRequested Examples.cancelledAfterOne i = true ->
        BatchProcessor.fileLoop Examples.cancelledAfterOne
          (fun _ => Examples.completing) hooks (str "add comments") logFilePath
          total (file :: rest) i st
        = (Returned tt, st)).
Proof.
  apply (cancellation_stops_before_next_file Examples.cancelledAfterOne
           (fun _ => Examples.completing)
           [str "/ws/a.ts"; str "/ws/b.ts"; str "/ws/c.ts"] (str "add comments")
           None 1).
  - cbn. lia.
  - split; [intros i Hi; destruct i; [reflexivity|lia]|reflexivity].
  - right. split; [intros n; reflexivity|intros i; discriminate].
Defined.

(** C3 (the code departs from the claim on one path).  With a log file
    open, a rejected append inside the loop aborts the run: here the block
    of the first of three files cannot be appended; the run throws, the two
    other files are never handed to the agent, no step of the completion
    sequence takes place and the dashboard is not notified. *)
Theorem rejected_append_aborts_the_run :
  let final :=
    BatchProcessor.startBatchProcessing Examples.secondAppendFails
      (BatchProcessor.initialState None) in
  fst final = Thrown AppendFileRejected
  /\ RunSpec.tasksStarted (RunSpec.history (snd final)) = [str "a.ts"]
  /\ totalFiles (stats (snd final)) = 3%Z
  /\ processedFiles (stats (snd final)) = 1%Z
  /\ RunSpec.steps (RunSpec.history (snd final)) = []
  /\ forallb RunSpec.notCompleted (trace (snd final)) = true
  /\ latestResult (snd final) = None.
Proof. vm_compute. repeat split. Qed.

(** The part of the no-abort property that the code does guarantee: when
    the log file cannot be created the run goes on without a log and nothing
    aborts it, whatever the agent, the hooks and git do; and a run that does
    not start for want of the agent has thrown before anything was done. *)
Theorem run_without_log_never_aborts (env : Env)
    (previous : option DashboardResult) :
  (forall cline,
     clineExtension env = Some (Some cline) -> logFile env = None ->
     fst (BatchProcessor.startBatchProcessing env
            (BatchProcessor.initialState previous)) = Returned tt)
  /\ (clineExtension env = None \/ clineExtension env = Some None ->
      BatchProcessor.startBatchProcessing env
        (BatchProcessor.initialState previous)
      = (Thrown AgentUnavailable, BatchProcessor.initialState previous)).
Proof.
  split.
  - intros cline Hc Hl. unfold BatchProcessor.startBatchProcessing. rewrite Hc.
    destruct (fst (FileSelection.selectFilesAndFolders _ _)) as [|f files];
      [reflexivity|].
    destruct (TaskManager.getTaskDescription _) as [[|c d]|]; try reflexivity.
    destruct (runBatch_runs env cline (f :: files) (c :: d)
                (BatchProcessor.initialState previous))
      as (r & st' & evs & n & E' & _ & _ & _ & _ & _ & _ & _ & _ & R).
    rewrite E'. cbn [fst].
    destruct (stopsAfter_exists env (f :: files) 0) as [k Hk].
    destruct (R k Hk) as (-> & _); [now left|reflexivity].
  - unfold BatchProcessor.startBatchProcessing.
    intros [-> | ->]; reflexivity.
Qed.

(* ================================================================= *)
(** * Further properties of the sources *)

(** ** Strings: joining, splitting and trimming *)

Section MoreStringFacts.

Lemma jseqb_eq a b : jseqb a b = true <-> a = b.
Proof.
  revert b. induction a as [|x a IH]; intros [|y b]; cbn [jseqb];
    split; try congruence; try discriminate.
  - intros H. apply andb_prop in H as [H1 H2].
    apply N.eqb_eq in H1. apply IH in H2. congruence.
  - intros E. injection E as -> ->. unfold unit_eqb. rewrite N.eqb_refl.
    now apply IH.
Qed.

Lemma join_cons sep p q rest :
  join sep (p :: q :: rest) = p ++ sep ++ join sep (q :: rest).
Proof. reflexivity. Qed.

Lemma join_app sep a b :
  a <> [] -> b <> [] -> join sep (a ++ b) = join sep a ++ sep ++ join sep b.
Proof.
  intros Ha Hb. induction a as [|p a IH]; [contradiction|].
  destruct a as [|q a].
  - destruct b; [contradiction|]. reflexivity.
  - change ((p :: q :: a) ++ b) with (p :: q :: (a ++ b)).
    rewrite !join_cons.
    change (q :: a ++ b) with ((q :: a) ++ b).
    rewrite IH by discriminate. now rewrite <- !app_assoc.
Qed.

(** Splitting what was joined gives the pieces back, when the separator
    cannot start inside a piece. *)
Lemma split_join h t pieces :
  pieces <> [] -> forallb (noUnit h) pieces = true ->
  split (h :: t) (join (h :: t) pieces) = pieces.
Proof.
  induction pieces as [|p rest IH]; [contradiction|]. intros _ H.
  cbn [forallb] in H. apply andb_prop in H as [Hp Hr].
  destruct rest as [|q rest].
  - cbn [join]. now apply split_absent.
  - rewrite join_cons, split_at by exact Hp. f_equal. now apply IH.
Qed.

Lemma trimStart_parts s :
  exists p, allWhiteSpace p = true /\ s = p ++ trimStart s.
Proof.
  induction s as [|c s (p & Hp & E)].
  - now exists [].
  - cbn [trimStart]. destruct (isWhiteSpace c) eqn:Ec.
    + exists (c :: p). split; [cbn; now rewrite Ec|]. cbn. now f_equal.
    + now exists [].
Qed.

(** A string is its trimmed part with white space before and after. *)
Lemma trim_parts s :
  exists p q,
    allWhiteSpace p = true /\ allWhiteSpace q = true /\ s = p ++ trim s ++ q.
Proof.
  destruct (trimStart_parts s) as (p & Hp & E).
  destruct (trimStart_parts (rev (trimStart s))) as (q & Hq & E').
  exists p, (rev q). split; [exact Hp|]. split; [now rewrite allWhiteSpace_rev|].
  unfold trim, trimEnd. rewrite <- rev_app_distr, <- E', rev_involutive.
  exact E.
Qed.

Lemma trimStart_startsClean s : startsClean (trimStart s) = true.
Proof.
  induction s as [|c s IH]; [reflexivity|].
  cbn [trimStart]. destruct (isWhiteSpace c) eqn:Ec; [exact IH|].
  cbn. now rewrite Ec.
Qed.

Lemma trimStart_before a x :
  x <> [] -> startsClean x = true -> trimStart (a ++ x) = trimStart a ++ x.
Proof.
  intros Hx Hs. induction a as [|c a IH].
  - cbn. now apply trimStart_clean.
  - cbn [app trimStart]. destruct (isWhiteSpace c); [exact IH|reflexivity].
Qed.

Lemma startsClean_app x y : x <> [] -> startsClean (x ++ y) = startsClean x.
Proof. destruct x; [contradiction|reflexivity]. Qed.

Lemma rev_nonempty {A} (x : list A) : x <> [] -> rev x <> [].
Proof.
  intros Hx E. apply (f_equal (@rev A)) in E. rewrite rev_involutive in E.
  now apply Hx.
Qed.

(** Trimming never reaches past a part that is clean at both ends. *)
Lemma trim_around a m b :
  m <> [] -> startsClean m = true -> startsClean (rev m) = true ->
  trim (a ++ m ++ b) = trimStart a ++ m ++ trimEnd b.
Proof.
  intros Hm Hs He. unfold trim, trimEnd.
  rewrite (trimStart_before a (m ++ b))
    by (try (rewrite startsClean_app; assumption);
        intros E; apply app_eq_nil in E as [E _]; now apply Hm).
  rewrite !rev_app_distr, <- app_assoc.
  rewrite (trimStart_before (rev b) (rev m ++ rev (trimStart a))).
  - rewrite !rev_app_distr, !rev_involutive. now rewrite <- app_assoc.
  - intros E. apply app_eq_nil in E as [E _]. now apply (rev_nonempty m Hm).
  - rewrite startsClean_app; [exact He|now apply rev_nonempty].
Qed.

Lemma trimStart_all_white s : allWhiteSpace s = true -> trimStart s = [].
Proof.
  intros H. rewrite <- (app_nil_r s). now rewrite trimStart_white.
Qed.

Lemma trim_edges s :
  startsClean (trim s) = true /\ startsClean (rev (trim s)) = true.
Proof.
  unfold trim, trimEnd. split.
  - pose proof (trimStart_startsClean s) as Hs.
    destruct (trimStart s) as [|c y]; [reflexivity|].
    cbn [rev]. rewrite trimStart_before by (discriminate || exact Hs).
    rewrite rev_app_distr. exact Hs.
  - rewrite rev_involutive. apply trimStart_startsClean.
Qed.

Lemma trimEnd_padded p x q :
  x <> [] -> startsClean (rev x) = true -> allWhiteSpace q = true ->
  trimEnd (p ++ x ++ q) = p ++ x.
Proof.
  intros Hx He Hq. unfold trimEnd.
  rewrite !rev_app_distr, <- app_assoc.
  rewrite trimStart_white by now rewrite allWhiteSpace_rev.
  rewrite trimStart_clean.
  - now rewrite rev_app_distr, !rev_involutive.
  - rewrite startsClean_app; [exact He|now apply rev_nonempty].
Qed.

Lemma trim_trimStart s : trim (trimStart s) = trim s.
Proof.
  unfold trim. now rewrite (trimStart_clean _ (trimStart_startsClean s)).
Qed.

Lemma trim_trimEnd s : trim (trimEnd s) = trim s.
Proof.
  destruct (trim_parts s) as (p & q & Hp & Hq & E).
  destruct (trim_edges s) as [Hs He].
  destruct (trim s) as [|c x] eqn:T.
  - assert (W : allWhiteSpace s = true) by now apply trim_empty_iff_white.
    apply trim_empty_iff_white. unfold trimEnd.
    rewrite trimStart_all_white by now rewrite allWhiteSpace_rev.
    reflexivity.
  - rewrite E at 1. rewrite trimEnd_padded by (discriminate || assumption).
    rewrite <- (app_nil_r (c :: x)) at 1.
    now rewrite (trim_padded p (c :: x) [])
      by (discriminate || assumption || reflexivity).
Qed.

(** A line counts when something other than white space is on it. *)
Lemma trim_length_positive line :
  (0 <? length (trim line))%nat = negb (allWhiteSpace line).
Proof.
  destruct (allWhiteSpace line) eqn:E.
  - apply trim_empty_iff_white in E. now rewrite E.
  - destruct (trim line) eqn:T; [|reflexivity].
    apply trim_empty_iff_white in T. congruence.
Qed.

End MoreStringFacts.

(** ** batchProcessor.ts: git and the text of the log *)

(** X1.  [getGitModifiedCount] answers the number of lines of the
    output of [git status --porcelain] on which something other than white
    space stands: every output is its lines joined by line feeds, and the
    empty lines, the blank lines and the empty piece after a final line feed
    are not counted. *)
Theorem getGitModifiedCount_counts_lines (lines : list jsstring)
    (H : forallb (noUnit 10%N) lines = true) :
  Git.getGitModifiedCount (Some (join TaskManager.nl lines))
  = Some (Z.of_nat
            (length (filter (fun line => negb (allWhiteSpace line)) lines))).
Proof.
  unfold Git.getGitModifiedCount. do 2 f_equal.
  destruct lines as [|l lines]; [reflexivity|].
  change TaskManager.nl with [10%N].
  rewrite split_join by (discriminate || exact H).
  generalize (l :: lines). clear. intros ls.
  induction ls as [|a ls IH]; [reflexivity|].
  cbn [map filter]. rewrite trim_length_positive.
  destruct (allWhiteSpace a); cbn [negb length]; [exact IH|now rewrite IH].
Qed.

Lemma getGitModifiedCount_counts_lines_witness :
  Git.getGitModifiedCount
    (Some (str " M src/a.ts" ++ [10%N] ++ str "  " ++ [10%N]
           ++ str "?? b.ts" ++ [10%N]))
  = Some 2%Z.
Proof.
  exact (getGitModifiedCount_counts_lines
           [str " M src/a.ts"; str "  "; str "?? b.ts"; []] eq_refl).
Defined.

(** X2.  [isGitRepository] answers [true] exactly when git ran and
    printed [true] with nothing but white space around it; a git that
    cannot be run, and any other output, answer [false]. *)
Theorem isGitRepository_true_iff (exec : option jsstring) :
  Git.isGitRepository exec = true <->
  exists p q,
    exec = Some (p ++ str "true" ++ q)
    /\ allWhiteSpace p = true /\ allWhiteSpace q = true.
Proof.
  unfold Git.isGitRepository. split.
  - destruct exec as [output|]; [|discriminate].
    intros H. apply jseqb_eq in H.
    destruct (trim_parts output) as (p & q & Hp & Hq & E).
    exists p, q. rewrite H in E. now rewrite <- E.
  - intros (p & q & -> & Hp & Hq). apply jseqb_eq.
    apply trim_padded; (discriminate || assumption || reflexivity).
Qed.

Section LogTextFacts.

Import TaskManager LogFormat.

Lemma replaceColonsAndDots_clean timestamp :
  noUnit 58%N (replaceColonsAndDots timestamp) = true
  /\ noUnit 46%N (replaceColonsAndDots timestamp) = true.
Proof.
  induction timestamp as [|c t [IH1 IH2]]; [now split|].
  unfold replaceColonsAndDots, noUnit in *. cbn [map forallb].
  rewrite IH1, IH2, !andb_true_r.
  destruct (N.eqb_spec c 58) as [->|H1]; [now split|].
  destruct (N.eqb_spec c 46) as [->|H2]; [now split|].
  cbn [orb]. split; apply negb_true_iff, N.eqb_neq; assumption.
Qed.

End LogTextFacts.

(** X3.  Whatever the clock answers, the name of the log file has
    one dot only, the one of its extension [.log], and no colon: the colons
    and the dots of the time stamp are replaced one for one by hyphens. *)
Theorem logFileName_single_extension (isoString : jsstring) :
  split (str ".") (LogFormat.logFileName isoString)
  = [str "batch-" ++ LogFormat.replaceColonsAndDots isoString; str "log"]
  /\ includes (str ":") (LogFormat.logFileName isoString) = false
  /\ length (LogFormat.replaceColonsAndDots isoString) = length isoString.
Proof.
  destruct (replaceColonsAndDots_clean isoString) as [Hc Hd].
  unfold LogFormat.logFileName. split; [|split].
  - change (str ".log") with ([46%N] ++ str "log").
    change (str ".") with [46%N].
    rewrite app_assoc, split_at.
    + reflexivity.
    + now rewrite noUnit_app, Hd.
  - change (str ":") with [58%N]. apply includes_absent.
    now rewrite !noUnit_app, Hc.
  - apply length_map.
Qed.

(** X4.  The lines of a hook-run block can be read back: split at
    the line feeds, the block is its title line, then the hook-log lines as
    they were handed over (or the one line that says that no hook was
    executed), then the empty piece after the final line feed; this holds
    when no line feed stands in the title or in a hook-log line. *)
Theorem buildHookRunBlock_lines (title : jsstring) (hookLogs : list jsstring)
    (Ht : noUnit 10%N title = true)
    (Hl : forallb (noUnit 10%N) hookLogs = true) :
  split TaskManager.nl (LogFormat.buildHookRunBlock title hookLogs)
  = (str "-- Hook Runs (" ++ title ++ str ") --")
    :: match hookLogs with
       | [] => [str "No hooks were executed."]
       | _ => hookLogs
       end ++ [[]].
Proof.
  unfold LogFormat.buildHookRunBlock, LogFormat.formatHookRunSection.
  change TaskManager.nl with [10%N].
  assert (Hh : noUnit 10%N (str "-- Hook Runs (" ++ title ++ str ") --") = true).
  { now rewrite !noUnit_app, Ht. }
  destruct hookLogs as [|l hookLogs].
  - apply split_join; [discriminate|]. cbn [forallb]. now rewrite Hh.
  - set (header := str "-- Hook Runs (" ++ title ++ str ") --") in *.
    replace (join [10%N] [header; join [10%N] (l :: hookLogs); []])
      with (join [10%N] (header :: (l :: hookLogs) ++ [[]])).
    + apply split_join; [discriminate|].
      cbn [forallb]. rewrite Hh. cbn [andb].
      change (forallb (noUnit 10%N) ((l :: hookLogs) ++ [[]]) = true).
      now rewrite forallb_app, Hl.
    + change (header :: (l :: hookLogs) ++ [[]])
        with ([header] ++ ((l :: hookLogs) ++ [[]])).
      rewrite join_app by (discriminate || (intros E; destruct hookLogs; discriminate E)).
      rewrite (join_app [10%N] (l :: hookLogs) [[]]) by discriminate.
      reflexivity.
Qed.

Lemma buildHookRunBlock_lines_witness :
  split TaskManager.nl
    (LogFormat.buildHookRunBlock (str "beforeBatch")
       [str "beforeBatch start: lint"; str "beforeBatch completed"])
  = [str "-- Hook Runs (beforeBatch) --"; str "beforeBatch start: lint";
     str "beforeBatch completed"; []].
Proof.
  exact (buildHookRunBlock_lines (str "beforeBatch")
           [str "beforeBatch start: lint"; str "beforeBatch completed"]
           eq_refl eq_refl).
Defined.

(** ** hookManager.ts: clauses as the user may write them *)

Section ClauseTextFacts.

Import ConditionSpec ClauseText.

Lemma plain_noUnit h s :
  operatorUnit h = true -> plain s = true -> noUnit h s = true.
Proof.
  intros Hh. apply forallb_impl. intros a Ha.
  apply negb_true_iff, N.eqb_neq. intros ->. now rewrite Hh in Ha.
Qed.

Lemma white_not_operator c : isWhiteSpace c = true -> operatorUnit c = false.
Proof.
  intros Hw. unfold operatorUnit.
  destruct (N.eqb_spec c 38) as [->|]; [discriminate|].
  destruct (N.eqb_spec c 60) as [->|]; [discriminate|].
  destruct (N.eqb_spec c 61) as [->|]; [discriminate|].
  destruct (N.eqb_spec c 62) as [->|]; [discriminate|]. reflexivity.
Qed.

Lemma white_plain p : allWhiteSpace p = true -> plain p = true.
Proof.
  apply forallb_impl. intros a Ha. now rewrite (white_not_operator a Ha).
Qed.

Lemma plain_app a b : plain (a ++ b) = plain a && plain b.
Proof. apply forallb_app. Qed.

Lemma plain_trimStart s : plain s = true -> plain (trimStart s) = true.
Proof.
  induction s as [|c s IH]; [reflexivity|].
  intros H. cbn [trimStart]. destruct (isWhiteSpace c); [|exact H].
  cbn in H. apply andb_prop in H as [_ H]. now apply IH.
Qed.

Lemma plain_trimEnd s : plain s = true -> plain (trimEnd s) = true.
Proof.
  intros H. unfold trimEnd, plain. rewrite forallb_rev.
  apply plain_trimStart. unfold plain. now rewrite forallb_rev.
Qed.

Lemma opText_edges o :
  opText o <> [] /\ startsClean (opText o) = true
  /\ startsClean (rev (opText o)) = true /\ noUnit 38%N (opText o) = true.
Proof. destruct o; repeat split; discriminate. Qed.

Lemma opText_units o :
  opText o
  = match o return jsstring with
    | Ge => @cons code_unit 62%N (@cons code_unit 61%N (@nil code_unit))
    | Le => @cons code_unit 60%N (@cons code_unit 61%N (@nil code_unit))
    | Eq => @cons code_unit 61%N (@cons code_unit 61%N (@nil code_unit))
    | Gt => @cons code_unit 62%N (@nil code_unit)
    | Lt => @cons code_unit 60%N (@nil code_unit)
    end.
Proof. now destruct o. Qed.

Lemma includes_cons p c s :
  includes p (c :: s) = startsWith p (c :: s) || includes p s.
Proof. reflexivity. Qed.

Lemma startsWith_cons h t c s :
  startsWith (h :: t) (c :: s) = unit_eqb h c && startsWith t s.
Proof. reflexivity. Qed.

Lemma includes_operator_plain l r o o' :
  plain l = true -> plain r = true ->
  includes (opText o') (l ++ opText o ++ r) = found o' o.
Proof.
  intros Hl Hr. rewrite !opText_units.
  destruct o';
    rewrite includes_skip by (apply plain_noUnit; [reflexivity|exact Hl]);
    destruct o; cbn [app found operator_eqb];
    rewrite ?includes_cons, ?startsWith_cons;
    repeat match goal with
           | |- context [includes (?h :: ?t) r] =>
               rewrite (includes_absent h t r)
                 by (apply plain_noUnit; [reflexivity|exact Hr])
           | |- context [startsWith (?h :: ?t) r] =>
               rewrite (startsWith_absent h t r)
                 by (apply plain_noUnit; [reflexivity|exact Hr])
           end;
    reflexivity.
Qed.

Lemma operands_plain l r o :
  plain l = true -> plain r = true ->
  operands (opText o) (l ++ opText o ++ r) = (Some (trim l), Some (trim r)).
Proof.
  intros Hl Hr. unfold operands.
  assert (S : split (opText o) (l ++ opText o ++ r) = [l; r]).
  { destruct o; cbn [opText str list_ascii_of_string map N_of_ascii];
      (rewrite split_at by (apply plain_noUnit; [reflexivity|exact Hl]));
      (rewrite split_absent by (apply plain_noUnit; [reflexivity|exact Hr]));
      reflexivity. }
  now rewrite S.
Qed.

(** A clause in which one operator stands between two parts that hold no
    operator character: the variable is looked up under the trimmed left
    part and compared with what [parseInt] makes of the trimmed right
    part. *)
Lemma clausePasses_plain l r o s :
  plain l = true -> plain r = true ->
  clausePasses (l ++ opText o ++ r) s
  = passes o (getVariableValue (Some (trim l)) s) (parseInt (trim r)).
Proof.
  intros Hl Hr. rewrite clausePasses_sourceOrder.
  unfold sourceOrder. cbn [clausePassesIn].
  rewrite !includes_operator_plain by assumption.
  destruct o; cbn [found operator_eqb]; unfold applyOperator;
    rewrite operands_plain by assumption; reflexivity.
Qed.

Lemma evaluateCondition_not_blank cond s :
  trim cond <> [] ->
  evaluateCondition cond s
  = forallb (fun c => clausePasses c s) (map trim (split (str "&&") cond)).
Proof.
  intros H. unfold evaluateCondition.
  destruct cond as [|c cond]; [now elim H|].
  destruct (trim (c :: cond)); [now elim H|reflexivity].
Qed.

Lemma clausePasses_empty s : clausePasses [] s = true.
Proof. reflexivity. Qed.

(** A condition without [&] is a single clause. *)
Lemma evaluateCondition_single cond s :
  noUnit 38%N cond = true ->
  evaluateCondition cond s = clausePasses (trim cond) s.
Proof.
  intros H. destruct (trim cond) as [|c t] eqn:T.
  - unfold evaluateCondition. destruct cond; [reflexivity|]. now rewrite T.
  - rewrite evaluateCondition_not_blank by (rewrite T; discriminate).
    change (str "&&") with [38%N; 38%N].
    rewrite split_absent by exact H.
    cbn [map forallb]. now rewrite T, andb_true_r.
Qed.

Lemma evaluateCondition_plain l r o s :
  plain l = true -> plain r = true ->
  evaluateCondition (l ++ opText o ++ r) s
  = passes o (getVariableValue (Some (trim l)) s) (parseInt (trim r)).
Proof.
  intros Hl Hr. destruct (opText_edges o) as (Hn & Hs & He & Ha).
  rewrite evaluateCondition_single.
  - rewrite trim_around by assumption.
    rewrite clausePasses_plain
      by (now apply plain_trimStart || now apply plain_trimEnd).
    now rewrite trim_trimStart, trim_trimEnd.
  - rewrite !noUnit_app, Ha.
    rewrite (plain_noUnit 38%N l eq_refl Hl), (plain_noUnit 38%N r eq_refl Hr).
    reflexivity.
Qed.

Lemma passes_number o v z : passes o v (Num z) = compare o v z.
Proof.
  destruct o; cbn [passes compare lt gt le ge strict_ne];
    rewrite ?Z.geb_leb, ?Z.gtb_ltb, ?negb_involutive; try reflexivity.
  - destruct (Z.ltb_spec v z), (Z.leb_spec z v); simpl; try reflexivity; lia.
  - destruct (Z.ltb_spec z v), (Z.leb_spec v z); simpl; try reflexivity; lia.
  - destruct (Z.leb_spec v z), (Z.ltb_spec z v); simpl; try reflexivity; lia.
  - destruct (Z.leb_spec z v), (Z.ltb_spec v z); simpl; try reflexivity; lia.
Qed.

Lemma passes_NaN o v : passes o v NaN = match o with Eq => false | _ => true end.
Proof. now destruct o. Qed.

Lemma name_plain c : wellFormed c = true -> plain (variable c) = true.
Proof.
  intros wf. apply forallb_impl with (P := nameUnit); [|now apply name_units].
  intros a Ha. unfold nameUnit in Ha. now apply andb_prop in Ha as [_ Ha].
Qed.

Lemma literal_plain z : plain (integerLiteral z) = true.
Proof.
  apply forallb_impl with (P := literalUnit); [|apply literal_units].
  intros a Ha. destruct (operatorUnit a) eqn:Eo; [|reflexivity].
  pose proof (literalUnit_not_operator a a Eo Ha) as F.
  now rewrite N.eqb_refl in F.
Qed.

End ClauseTextFacts.

(** X5.  The white space of a clause does not matter: a well-formed
    clause evaluates to its comparison with any white space, or none,
    before the variable, around the operator and after the literal. *)
Theorem evaluateCondition_ignores_spacing (s : BatchProcessingStats)
    (c : ConditionSpec.clause) (p0 p1 p2 p3 : jsstring)
    (Hc : ConditionSpec.wellFormed c = true)
    (H0 : allWhiteSpace p0 = true) (H1 : allWhiteSpace p1 = true)
    (H2 : allWhiteSpace p2 = true) (H3 : allWhiteSpace p3 = true) :
  evaluateCondition (ClauseText.spaced p0 p1 p2 p3 c) s
  = ConditionSpec.holds s c.
Proof.
  unfold ClauseText.spaced.
  replace (p0 ++ ConditionSpec.variable c ++ p1
              ++ ConditionSpec.opText (ConditionSpec.op c) ++ p2
              ++ ConditionSpec.integerLiteral (ConditionSpec.literal c) ++ p3)
    with ((p0 ++ ConditionSpec.variable c ++ p1)
            ++ ConditionSpec.opText (ConditionSpec.op c)
            ++ (p2 ++ ConditionSpec.integerLiteral (ConditionSpec.literal c) ++ p3))
    by now rewrite <- !app_assoc.
  rewrite evaluateCondition_plain.
  - rewrite (trim_padded p0 (ConditionSpec.variable c) p1);
      [|now apply name_nonempty
       |now apply noWhiteSpace_clean, name_noWhiteSpace
       |apply noWhiteSpace_clean; rewrite noWhiteSpace_rev;
        now apply name_noWhiteSpace
       |assumption|assumption].
    rewrite (trim_padded p2 (ConditionSpec.integerLiteral (ConditionSpec.literal c)) p3);
      [|apply literal_nonempty
       |apply noWhiteSpace_clean, literal_noWhiteSpace
       |apply noWhiteSpace_clean; rewrite noWhiteSpace_rev;
        apply literal_noWhiteSpace
       |assumption|assumption].
    rewrite parseInt_integerLiteral, passes_number, getVariableValue_statistic.
    reflexivity.
  - now rewrite !plain_app, (white_plain p0), (white_plain p1), (name_plain c).
  - now rewrite !plain_app, (white_plain p2), (white_plain p3), literal_plain.
Qed.

Lemma evaluateCondition_ignores_spacing_witness :
  evaluateCondition (str "errorCount==0") (mkStats 3 3 3 0 0 0 0 None) = true
  /\ evaluateCondition (str "  failedFiles   >=1 ") (mkStats 3 3 3 0 0 0 0 None)
     = false.
Proof.
  split.
  - exact (evaluateCondition_ignores_spacing (mkStats 3 3 3 0 0 0 0 None)
             (ConditionSpec.mkClause (str "errorCount") ConditionSpec.Eq 0)
             [] [] [] [] eq_refl eq_refl eq_refl eq_refl eq_refl).
  - exact (evaluateCondition_ignores_spacing (mkStats 3 3 3 0 0 0 0 None)
             (ConditionSpec.mkClause (str "failedFiles") ConditionSpec.Ge 1)
             (str "  ") (str "   ") [] (str " ")
             eq_refl eq_refl eq_refl eq_refl eq_refl).
Defined.

(** X6.  A clause whose right-hand side does not begin with a number
    (the name of another statistic, a word, nothing at all) compares
    nothing: with [>=], [<=], [>] or [<] it passes and with [==] it fails,
    whatever the statistics are. *)
Theorem evaluateCondition_without_a_number (s : BatchProcessingStats)
    (l r : jsstring) (o : ConditionSpec.operator)
    (Hl : ClauseText.plain l = true) (Hr : ClauseText.plain r = true)
    (Hn : parseInt (trim r) = NaN) :
  evaluateCondition (l ++ ConditionSpec.opText o ++ r) s
  = match o with ConditionSpec.Eq => false | _ => true end.
Proof.
  rewrite evaluateCondition_plain by assumption.
  rewrite Hn. apply passes_NaN.
Qed.

Lemma evaluateCondition_without_a_number_witness :
  evaluateCondition (str "processedFiles >= totalFiles")
    (mkStats 9 1 1 0 0 0 0 None) = true
  /\ evaluateCondition (str "processedFiles == totalFiles")
       (mkStats 9 9 9 0 0 0 0 None) = false.
Proof.
  split.
  - exact (evaluateCondition_without_a_number (mkStats 9 1 1 0 0 0 0 None)
             (str "processedFiles ") (str " totalFiles") ConditionSpec.Ge
             eq_refl eq_refl eq_refl).
  - exact (evaluateCondition_without_a_number (mkStats 9 9 9 0 0 0 0 None)
             (str "processedFiles ") (str " totalFiles") ConditionSpec.Eq
             eq_refl eq_refl eq_refl).
Defined.

(** X7.  A condition in which none of the characters [&], [<], [=],
    [>] occurs holds no test: it evaluates to [true] whatever it says and
    whatever the statistics are. *)
Theorem evaluateCondition_without_operator (s : BatchProcessingStats)
    (cond : jsstring) (H : ClauseText.plain cond = true) :
  evaluateCondition cond s = true.
Proof.
  rewrite evaluateCondition_single by now apply (plain_noUnit 38%N).
  assert (P : ClauseText.plain (trim cond) = true).
  { unfold trim. now apply plain_trimEnd, plain_trimStart. }
  revert P. generalize (trim cond). intros t P.
  unfold clausePasses.
  change (str ">=") with [62%N; 61%N]. change (str "<=") with [60%N; 61%N].
  change (str ">") with [62%N]. change (str "<") with [60%N].
  change (str "==") with [61%N; 61%N].
  now rewrite !includes_absent by (apply plain_noUnit; [reflexivity|exact P]).
Qed.

Lemma evaluateCondition_without_operator_witness :
  evaluateCondition (str "errorCount is zero") (mkStats 3 3 0 3 0 3 0 None)
  = true.
Proof.
  exact (evaluateCondition_without_operator (mkStats 3 3 0 3 0 3 0 None)
           (str "errorCount is zero") eq_refl).
Defined.

(** X8.  A condition is the conjunction of its clauses, well formed or
    not: joined by [&&], clauses in which no [&] occurs evaluate to [true]
    together exactly when each of them evaluates to [true] alone. *)
Theorem evaluateCondition_conjunction_of_clauses (s : BatchProcessingStats)
    (clauses : list jsstring)
    (H : forallb (noUnit 38%N) clauses = true) :
  evaluateCondition (join (str "&&") clauses) s
  = forallb (fun clause => evaluateCondition clause s) clauses.
Proof.
  assert (E : forallb (fun clause => evaluateCondition clause s) clauses
              = forallb (fun c => clausePasses c s) (map trim clauses)).
  { induction clauses as [|c cs IH]; [reflexivity|].
    cbn [forallb map] in *. apply andb_prop in H as [Hc Hcs].
    now rewrite (evaluateCondition_single c s Hc), (IH Hcs). }
  rewrite E.
  destruct clauses as [|c [|c' cs]].
  - reflexivity.
  - cbn [join map forallb] in *. rewrite andb_true_r in H.
    now rewrite (evaluateCondition_single c s H), andb_true_r.
  - change (str "&&") with [38%N; 38%N] in *.
    destruct (trim (join [38%N; 38%N] (c :: c' :: cs))) eqn:T.
    + exfalso. apply trim_empty_iff_white in T.
      rewrite join_cons in T. unfold allWhiteSpace in T.
      rewrite !forallb_app in T. apply andb_prop in T as [_ T].
      apply andb_prop in T as [T _]. discriminate T.
    + rewrite evaluateCondition_not_blank by (rewrite T; discriminate).
      change (str "&&") with [38%N; 38%N].
      now rewrite split_join by (discriminate || exact H).
Qed.

Lemma evaluateCondition_conjunction_of_clauses_witness :
  evaluateCondition (str "totalFiles>=2&&oops&& errorCount == 0")
    (mkStats 2 2 2 0 0 0 0 None)
  = (evaluateCondition (str "totalFiles>=2") (mkStats 2 2 2 0 0 0 0 None)
     && (evaluateCondition (str "oops") (mkStats 2 2 2 0 0 0 0 None)
         && (evaluateCondition (str " errorCount == 0")
               (mkStats 2 2 2 0 0 0 0 None) && true))).
Proof.
  exact (evaluateCondition_conjunction_of_clauses (mkStats 2 2 2 0 0 0 0 None)
           [str "totalFiles>=2"; str "oops"; str " errorCount == 0"] eq_refl).
Defined.

(** ** taskManager.ts: which documents are accepted *)

Section TaskConfigFacts.

Import TaskManager.

Lemma allStrings_inv items l : allStrings items = Some l -> items = map EString l.
Proof.
  revert l. induction items as [|[s|] items IH]; intros l; cbn [allStrings].
  - now intros [= <-].
  - destruct (allStrings items) as [l'|]; [|discriminate].
    intros [= <-]. cbn [map]. f_equal. now apply IH.
  - discriminate.
Qed.

End TaskConfigFacts.

(** X9.  [loadTaskConfig] accepts a document exactly when it parses
    to an object whose [taskSummary] is a non-empty string, whose
    [taskDescription] is an array of strings and whose [filePatterns] is
    absent or an array of strings; the task configuration is then the
    trimmed summary, the trimmed items and the patterns as they are.  For
    every other document it throws. *)
Theorem loadTaskConfig_accepts_iff (doc : TaskManager.document)
    (taskConfig : TaskManager.TaskConfig) :
  TaskManager.loadTaskConfig doc = Some taskConfig <->
  exists summary items patterns,
    summary <> []
    /\ doc = TaskManager.Object
               (TaskManager.mkParsed (TaskManager.MString summary)
                  (TaskManager.MArray (map TaskManager.EString items))
                  (match patterns with
                   | Some ps => TaskManager.MArray (map TaskManager.EString ps)
                   | None => TaskManager.MUndefined
                   end))
    /\ taskConfig
       = TaskManager.mkTaskConfig (trim summary) (map trim items) patterns.
Proof.
  split.
  - destruct doc as [| | |[summary description patterns]]; try discriminate.
    cbn [TaskManager.loadTaskConfig TaskManager.p_taskSummary
         TaskManager.p_taskDescription TaskManager.p_filePatterns].
    destruct summary as [|[|c summary]| |]; try discriminate.
    destruct description as [| |items|]; try discriminate.
    destruct (TaskManager.allStrings items) as [l|] eqn:El; [|discriminate].
    apply allStrings_inv in El. subst items.
    destruct patterns as [| |ps|]; try discriminate.
    + intros [= <-]. exists (c :: summary), l, None.
      split; [discriminate|]. now split.
    + destruct (TaskManager.allStrings ps) as [l'|] eqn:Ep; [|discriminate].
      apply allStrings_inv in Ep. subst ps.
      intros [= <-]. exists (c :: summary), l, (Some l').
      split; [discriminate|]. now split.
  - intros (summary & items & patterns & Hs & -> & ->).
    now apply loadTaskConfig_structured.
Qed.

(** ** batchProcessor.ts: exactly which files are selected *)

Section TreeFacts.

Import FileSelection SelectionSpec TreeSpec.

Lemma descend_cons uri name names :
  descend uri (name :: names) = descend (joinPath uri name) names.
Proof. reflexivity. Qed.

Lemma fileAt_cons e es names :
  fileAt (Entries es) names -> fileAt (Entries (e :: es)) names.
Proof.
  intros H. inversion H; subst.
  - apply fileHere. now right.
  - eapply fileBelow; [right; eassumption|assumption].
Qed.

(** Every file found under a directory is a listed file, reached through
    listed subdirectories along names none of which starts with a dot. *)
Lemma getAllFilesInDirectory_sound :
  forall contents directoryUri f,
    In f (getAllFilesInDirectory directoryUri contents) ->
    exists names,
      fileAt contents names /\ forallb visibleName names = true
      /\ f = descend directoryUri names.
Proof.
  intros contents.
  induction contents as [|entries IH] using DirContents_induction;
    intros directoryUri f.
  - intros [].
  - cbn [getAllFilesInDirectory].
    induction IH as [|[name type] es Hsub _ IHes]; [intros []|].
    assert (Lift : In f (getAllFilesInDirectory directoryUri (Entries es)) ->
                   exists names,
                     fileAt (Entries ((name, type) :: es)) names
                     /\ forallb visibleName names = true
                     /\ f = descend directoryUri names).
    { intros H. destruct (IHes H) as (names & Ha & Hv & E).
      exists names. split; [now apply fileAt_cons|now split]. }
    cbn [getAllFilesInDirectory] in Lift.
    destruct (startsWith (str ".") name) eqn:Ed; [exact Lift|].
    assert (V : visibleName name = true) by (unfold visibleName; now rewrite Ed).
    destruct type as [|sub|].
    + intros [<-|H]; [|exact (Lift H)].
      exists [name]. split; [apply fileHere; now left|].
      split; [cbn; now rewrite V|reflexivity].
    + intros H. apply in_app_or in H as [H|H]; [|exact (Lift H)].
      apply Hsub in H as (names & Ha & Hv & ->).
      exists (name :: names).
      split; [eapply fileBelow; [now left|exact Ha]|].
      split; [cbn [forallb]; now rewrite V|reflexivity].
    + exact Lift.
Qed.

Lemma getAllFilesInDirectory_entry directoryUri entries name type f :
  In (name, type) entries -> visibleName name = true ->
  match type with
  | File => f = joinPath directoryUri name
  | Directory sub => In f (getAllFilesInDirectory (joinPath directoryUri name) sub)
  | Other => False
  end ->
  In f (getAllFilesInDirectory directoryUri (Entries entries)).
Proof.
  intros Hin Hv Hf. cbn [getAllFilesInDirectory].
  induction entries as [|[n t] es IH]; [destruct Hin|].
  destruct Hin as [E|Hin].
  - injection E as -> ->. unfold visibleName in Hv.
    apply negb_true_iff in Hv. rewrite Hv.
    destruct type as [|sub|]; [now left|apply in_or_app; now left|destruct Hf].
  - specialize (IH Hin).
    destruct (startsWith (str ".") n); [exact IH|].
    destruct t; [now right|apply in_or_app; now right|exact IH].
Qed.

Lemma getAllFilesInDirectory_complete contents names :
  fileAt contents names ->
  forall directoryUri,
    forallb visibleName names = true ->
    In (descend directoryUri names) (getAllFilesInDirectory directoryUri contents).
Proof.
  induction 1 as [entries name Hin|entries name sub names Hin Hsub IH];
    intros directoryUri Hv; cbn [forallb] in Hv; apply andb_prop in Hv as [Hn Hv].
  - now apply (getAllFilesInDirectory_entry directoryUri entries name File).
  - apply (getAllFilesInDirectory_entry directoryUri entries name (Directory sub));
      [exact Hin|exact Hn|].
    rewrite descend_cons. now apply IH.
Qed.

End TreeFacts.

(** X10.  The result of [selectFilesAndFolders] holds exactly: the
    selected entries that are files and whose path begins with the path of
    the first workspace folder, and, for each selected directory whose path
    begins with it, the files listed below that directory that are reached
    through names none of which starts with a dot.  Nothing else is in the
    result, and none of these is left out. *)
Theorem selectFilesAndFolders_exact (workspaceFolders : list jsstring)
    (showOpenDialog : option (list FileSelection.selection)) (f : jsstring) :
  In f (fst (FileSelection.selectFilesAndFolders workspaceFolders showOpenDialog))
  <->
  exists workspacePath others selectedUris uri stat,
    workspaceFolders = workspacePath :: others
    /\ showOpenDialog = Some selectedUris
    /\ In (uri, stat) selectedUris
    /\ startsWith workspacePath uri = true
    /\ ((stat = Some FileSelection.File /\ f = uri)
        \/ exists contents names,
             stat = Some (FileSelection.Directory contents)
             /\ TreeSpec.fileAt contents names
             /\ forallb SelectionSpec.visibleName names = true
             /\ f = SelectionSpec.descend uri names).
Proof.
  split.
  - destruct workspaceFolders as [|workspacePath others]; [intros []|].
    destruct showOpenDialog as [selectedUris|]; [|intros []].
    rewrite selectFilesAndFolders_files. intros H.
    apply in_flat_map in H as ([uri stat] & Hin & Hf).
    apply filter_In in Hin as [Hin Hpre]. cbn [fst snd] in *.
    exists workspacePath, others, selectedUris, uri, stat.
    split; [reflexivity|]. split; [reflexivity|]. split; [exact Hin|].
    split; [exact Hpre|].
    destruct stat as [[|contents|]|]; cbn [FileSelection.getFilesFromUri] in Hf;
      try (now destruct Hf).
    + left. destruct Hf as [<-|[]]. now split.
    + right. apply getAllFilesInDirectory_sound in Hf as (names & Ha & Hv & E).
      now exists contents, names.
  - intros (workspacePath & others & selectedUris & uri & stat
            & -> & -> & Hin & Hpre & Hf).
    rewrite selectFilesAndFolders_files.
    apply in_flat_map. exists (uri, stat). split.
    + apply filter_In. now split.
    + cbn [fst snd].
      destruct Hf as [[-> ->]|(contents & names & -> & Ha & Hv & ->)].
      * now left.
      * now apply getAllFilesInDirectory_complete.
Qed.

(** X11.  The files come in the order of the selection and nothing
    is de-duplicated: the result for a selection made of two parts is the
    result for the first part followed by the result for the second, so a
    file that is selected itself and also lies below a selected directory
    is in the result twice. *)
Theorem selectFilesAndFolders_concatenates (workspaceFolders : list jsstring)
    (first second : list FileSelection.selection) :
  fst (FileSelection.selectFilesAndFolders workspaceFolders
         (Some (first ++ second)))
  = fst (FileSelection.selectFilesAndFolders workspaceFolders (Some first))
    ++ fst (FileSelection.selectFilesAndFolders workspaceFolders (Some second)).
Proof.
  destruct workspaceFolders as [|workspacePath others]; [reflexivity|].
  rewrite !selectFilesAndFolders_files.
  now rewrite filter_app, flat_map_app.
Qed.

(** ** clineIntegration.ts: the polls of one call *)

Section PollFacts.

Import ClineIntegration PollSpec RunSpec.

Lemma activePolls_step first count :
  activePolls first (S count)
  = StatusPolled (Z.of_nat first * checkInterval) active
    :: activePolls (S first) count.
Proof. reflexivity. Qed.

(** The loop, entered at its poll number [polls] after [polls] intervals,
    with the task active for [n] more polls and settled at the next. *)
Lemma wait_settles cline status :
  forall n fuel polls st,
    (forall j, j < n -> getTaskStatus cline (polls + j) = Some active) ->
    getTaskStatus cline (polls + n) = Some status ->
    isTerminal status = true ->
    n < fuel ->
    (Z.of_nat (polls + n) * checkInterval < maxWaitTime)%Z ->
    waitForCompletion fuel cline polls (Z.of_nat polls * checkInterval) st
    = (Returned (Z.of_nat (polls + n) * checkInterval)%Z,
       addEvents
         (rev (activePolls polls n
               ++ [StatusPolled (Z.of_nat (polls + n) * checkInterval) status]))
         st).
Proof.
  induction n as [|n IH]; intros fuel polls st Ha Hs Ht Hf Hb;
    (destruct fuel as [|fuel]; [lia|]); cbn [waitForCompletion].
  - rewrite Nat.add_0_r in *.
    destruct (Z.ltb_spec (Z.of_nat polls * checkInterval) maxWaitTime); [|lia].
    rewrite Hs, (bind_returned _ _ _ _ _ (emit_adds _ _)), Ht. reflexivity.
  - assert (Z.of_nat polls * checkInterval < maxWaitTime)%Z.
    { unfold checkInterval in *. lia. }
    destruct (Z.ltb_spec (Z.of_nat polls * checkInterval) maxWaitTime); [|lia].
    assert (Hfirst : getTaskStatus cline polls = Some active).
    { rewrite <- (Nat.add_0_r polls). apply Ha. lia. }
    rewrite Hfirst, (bind_returned _ _ _ _ _ (emit_adds _ _)). cbn [isTerminal].
    replace (Z.of_nat polls * checkInterval + checkInterval)%Z
      with (Z.of_nat (S polls) * checkInterval)%Z by lia.
    rewrite (IH fuel (S polls));
      [ | intros j Hj; replace (S polls + j) with (polls + S j) by lia;
          apply Ha; lia
        | replace (S polls + n) with (polls + S n) by lia; try exact Hs
        | exact Ht
        | lia
        | replace (S polls + n) with (polls + S n) by lia; try exact Hb ].
    replace (S polls + n) with (polls + S n) by lia.
    rewrite activePolls_step, addEvents_app.
    f_equal; try f_equal; cbn [rev app]; now rewrite <- !app_assoc.
Qed.

(** The loop never polls more often than its fuel allows. *)
Lemma wait_polls cline :
  forall fuel polls elapsedTime st,
    length (filter isStatusPolled
              (trace (snd (waitForCompletion fuel cline polls elapsedTime st))))
    <= length (filter isStatusPolled (trace st)) + fuel.
Proof.
  induction fuel as [|fuel IH]; intros polls elapsedTime st;
    cbn [waitForCompletion]; destruct (elapsedTime <? maxWaitTime)%Z;
    try (cbn; lia).
  destruct (getTaskStatus cline polls) as [status|]; [|cbn; lia].
  unfold bind at 1. rewrite emit_adds.
  destruct (isTerminal status).
  - cbn. lia.
  - etransitivity; [apply IH|]. cbn. lia.
Qed.

End PollFacts.

(** X12.  When the agent accepts the task, is found active at the
    first [n] polls and in a terminal state at the next, and [n] is less
    than the 120 polls of the wait budget, the call returns after exactly
    [n + 1] polls, 5 seconds apart from 0, with no time-out warning: the
    events of the call are the submission, the confirmation and these
    polls, and nothing else of the state changes. *)
Theorem processFileWithCline_settles (env : Env) (cline : ClineAPI)
    (fileUri taskDescription : jsstring) (n : nat) (status : TaskStatus)
    (st : State)
    (Hs : startNewTask cline = true)
    (Hp : pressPrimaryButton cline = true)
    (Ha : forall j, j < n -> getTaskStatus cline j = Some active)
    (Hn : getTaskStatus cline n = Some status)
    (Ht : ClineIntegration.isTerminal status = true)
    (Hb : n < 120) :
  ClineIntegration.processFileWithCline env cline fileUri taskDescription st
  = (Returned tt,
     RunSpec.addEvents
       (rev (PollSpec.settledCall (RunSpec.fileLabelOf env fileUri)
               taskDescription n status))
       st).
Proof.
  unfold ClineIntegration.processFileWithCline. cbv zeta.
  change (ClineIntegration.orElse (asRelativePath env fileUri (Some false)) fileUri)
    with (RunSpec.fileLabelOf env fileUri).
  rewrite (bind_returned _ _ _ _ _ (emit_adds _ _)).
  rewrite Hs. cbn [await].
  rewrite (bind_returned _ _ _ _ _ (eq_refl : ret tt _ = (Returned tt, _))).
  rewrite (bind_returned _ _ _ _ _ (emit_adds _ _)).
  rewrite Hp. cbn [await].
  rewrite (bind_returned _ _ _ _ _ (eq_refl : ret tt _ = (Returned tt, _))).
  assert (Hlt : (Z.of_nat (0 + n) * ClineIntegration.checkInterval
                 < ClineIntegration.maxWaitTime)%Z).
  { unfold ClineIntegration.checkInterval, ClineIntegration.maxWaitTime. lia. }
  rewrite (bind_returned _ _ _ _ _
             (wait_settles cline status n ClineIntegration.pollFuel 0 _
                Ha Hn Ht ltac:(vm_compute; lia) Hlt)).
  destruct (Z.geb_spec (Z.of_nat (0 + n) * ClineIntegration.checkInterval)
              ClineIntegration.maxWaitTime); [lia|].
  unfold ret. f_equal. rewrite !addEvents_app.
  f_equal; unfold PollSpec.settledCall; cbn [Nat.add];
    rewrite !rev_app_distr; cbn [rev app]; now rewrite <- !app_assoc.
Qed.

Lemma processFileWithCline_settles_witness :
  ClineIntegration.processFileWithCline Examples.firstFails
    (mkCline true true
       (fun j => match j with 0 | 1 => Some active | _ => Some completed end)
       (Some []))
    (str "/ws/a.ts") (str "add comments") (BatchProcessor.initialState None)
  = (Returned tt,
     RunSpec.addEvents
       [StatusPolled 10000 completed; StatusPolled 5000 active;
        StatusPolled 0 active; PrimaryButtonPressed;
        StartNewTask (str "a.ts") (str "add comments")]
       (BatchProcessor.initialState None)).
Proof.
  refine (processFileWithCline_settles Examples.firstFails
            (mkCline true true
               (fun j => match j with 0 | 1 => Some active | _ => Some completed end)
               (Some []))
            (str "/ws/a.ts") (str "add comments") 2 completed
            (BatchProcessor.initialState None) eq_refl eq_refl _ eq_refl eq_refl _).
  - intros j Hj. destruct j as [|[|j]]; [reflexivity|reflexivity|lia].
  - lia.
Defined.

(** X13.  Whatever the agent answers, one call asks for the status
    of the task at most 120 times (10 minutes of polls 5 seconds apart),
    and the only error that it throws is the rejection of one of its calls
    by the agent. *)
Theorem processFileWithCline_polls_at_most_120 (env : Env) (cline : ClineAPI)
    (fileUri taskDescription : jsstring) (st : State) :
  let outcome :=
    ClineIntegration.processFileWithCline env cline fileUri taskDescription st in
  length (filter PollSpec.isStatusPolled (trace (snd outcome)))
  <= length (filter PollSpec.isStatusPolled (trace st)) + 120
  /\ (fst outcome = Returned tt \/ fst outcome = Thrown AgentCallRejected).
Proof.
  cbv zeta. split.
  - unfold ClineIntegration.processFileWithCline. cbv zeta.
    rewrite (bind_returned _ _ _ _ _ (emit_adds _ _)).
    destruct (startNewTask cline); cbn [await]; [|cbn; lia].
    rewrite (bind_returned _ _ _ _ _ (eq_refl : ret tt _ = (Returned tt, _))).
    rewrite (bind_returned _ _ _ _ _ (emit_adds _ _)).
    destruct (pressPrimaryButton cline); cbn [await]; [|cbn; lia].
    rewrite (bind_returned _ _ _ _ _ (eq_refl : ret tt _ = (Returned tt, _))).
    match goal with
    | |- context [bind (ClineIntegration.waitForCompletion ?f ?c ?p ?t) _ ?s] =>
        pose proof (wait_polls c f p t s) as W;
        destruct (ClineIntegration.waitForCompletion f c p t s) as [[t'|e] st1] eqn:E
    end.
    + rewrite (bind_returned _ _ _ _ _ E). cbn [snd] in W.
      change (ClineIntegration.pollFuel) with 120 in W.
      destruct (t' >=? ClineIntegration.maxWaitTime)%Z; cbn in *; lia.
    + rewrite (bind_thrown _ _ _ _ _ E). cbn [snd] in *.
      change (ClineIntegration.pollFuel) with 120 in W. cbn in W. lia.
  - destruct (process_runs env cline fileUri taskDescription)
      as (r & steps & E & _ & Hr).
    rewrite E. cbn [fst]. destruct r as [[]|e]; [now left|].
    destruct Hr as [-> _]. now right.
Qed.

(** ** hookManager.ts: the hooks of a lifecycle point *)

Section HookFacts.

Import HookRunner HookSpec RunSpec BatchProcessor.

Lemma issuedCommands_app a b :
  issuedCommands (a ++ b) = issuedCommands a ++ issuedCommands b.
Proof.
  induction a as [|e a IH]; [reflexivity|].
  destruct e; cbn; now rewrite ?IH.
Qed.

Lemma hookLoop_exact env filteredHooks snapshot :
  forall st,
    hookLoop env filteredHooks snapshot st
    = (Returned tt,
       addEvents (rev (flat_map (hookEvents env snapshot) filteredHooks)) st).
Proof.
  induction filteredHooks as [|hook rest IH]; intros st.
  - cbn. now rewrite addEvents_nil.
  - cbn [hookLoop flat_map].
    assert (E : (if conditionFails hook snapshot then emit (HookSkipped (name hook))
                 else tryCatch (runCommand env hook)
                        (fun _ => emit (HookFailed (name hook)))) st
                = (Returned tt, addEvents (rev (hookEvents env snapshot hook)) st)).
    { unfold hookEvents. destruct (conditionFails hook snapshot).
      - apply emit_adds.
      - unfold tryCatch, runCommand, bind. cbv zeta. rewrite emit_adds.
        destruct (commandThrows env (command hook)); reflexivity. }
    rewrite (bind_returned _ _ _ _ _ E), IH, addEvents_app.
    now rewrite rev_app_distr.
Qed.

Lemma executeHooks_exact env hooks at_ st :
  executeHooks env hooks at_ st
  = (Returned tt,
     addEvents
       (rev (HooksEvaluated at_ (stats st)
             :: flat_map (hookEvents env (stats st)) (hooksAt at_ hooks)))
       st).
Proof.
  unfold executeHooks, hooksAt.
  rewrite (bind_returned _ _ _ _ _ (eq_refl : get st = (Returned st, st))).
  rewrite (bind_returned _ _ _ _ _ (emit_adds _ _)).
  rewrite hookLoop_exact, addEvents_app. cbn [rev]. reflexivity.
Qed.

(** The state after [runHooksWithLogging]: two lines more in [hookLogs],
    and the events of [executeHooks]. *)
Lemma runHooksWithLogging_exact env hooks at_ fileUri st :
  runHooksWithLogging env hooks at_ fileUri st
  = (Returned tt,
     mkState (stats st) (hookLogs st ++ hookLines env hooks at_ fileUri)
       (lastHookLogIndex st) (latestResult st) (gitCalls st) (appendCalls st)
       (rev (HooksEvaluated at_ (stats st)
             :: flat_map (hookEvents env (stats st)) (hooksAt at_ hooks))
        ++ trace st)).
Proof.
  unfold runHooksWithLogging. cbv zeta.
  rewrite (bind_returned _ _ _ _ _ (update_runs _ _)).
  unfold tryCatch.
  rewrite (bind_returned _ _ _ _ _ (executeHooks_exact _ _ _ _)).
  unfold update, hookLines, hooksAt, fileLabelOf, addEvents, pushHookLog.
  cbn [stats hookLogs lastHookLogIndex latestResult gitCalls appendCalls trace].
  rewrite <- app_assoc. reflexivity.
Qed.

(** *** The hooks as the configuration file gives them *)

Lemma raw_runHook_done env hook snapshot st :
  RawHooks.faulty hook = false ->
  RawHooks.runHook env hook snapshot st
  = (RawHooks.Done, addEvents (rev (RawHooks.hookEvents env snapshot hook)) st).
Proof.
  unfold RawHooks.faulty, RawHooks.runHook, RawHooks.hookEvents,
    RawHooks.conditionFails.
  destruct (RawHooks.hookCondition hook) as [[|]|[|c cs]],
    (RawHooks.hookName hook) as [truthy text|]; try discriminate; intros _;
    try reflexivity;
    try (destruct (negb (evaluateCondition (c :: cs) snapshot)); try reflexivity);
    destruct (RawHooks.hookCommand hook) as [cmd|]; try reflexivity;
    cbv zeta; destruct (commandThrows env cmd); reflexivity.
Qed.

Lemma raw_runHook_faulty env hook snapshot st :
  RawHooks.faulty hook = true ->
  RawHooks.runHook env hook snapshot st = (RawHooks.TypeError, st).
Proof.
  unfold RawHooks.faulty, RawHooks.runHook, RawHooks.conditionFails.
  destruct (RawHooks.hookCondition hook) as [[|]|[|c cs]],
    (RawHooks.hookName hook) as [truthy text|]; try discriminate; reflexivity.
Qed.

Lemma raw_hookLoop_done env snapshot filteredHooks :
  forall st,
    existsb RawHooks.faulty filteredHooks = false ->
    RawHooks.hookLoop env filteredHooks snapshot st
    = (RawHooks.Done,
       addEvents (rev (flat_map (RawHooks.hookEvents env snapshot) filteredHooks))
         st).
Proof.
  induction filteredHooks as [|hook rest IH]; intros st H.
  - cbn. now rewrite addEvents_nil.
  - cbn [existsb] in H. apply orb_false_iff in H as [Hh Hr].
    cbn [RawHooks.hookLoop flat_map].
    rewrite (raw_runHook_done env hook snapshot st Hh), (IH _ Hr), addEvents_app.
    now rewrite rev_app_distr.
Qed.

Lemma raw_hookLoop_throws env snapshot filteredHooks :
  forall st,
    existsb RawHooks.faulty filteredHooks = true ->
    fst (RawHooks.hookLoop env filteredHooks snapshot st) = RawHooks.TypeError.
Proof.
  induction filteredHooks as [|hook rest IH]; intros st H; [discriminate|].
  cbn [existsb] in H. cbn [RawHooks.hookLoop].
  destruct (RawHooks.faulty hook) eqn:Hh.
  - now rewrite (raw_runHook_faulty env hook snapshot st Hh).
  - rewrite (raw_runHook_done env hook snapshot st Hh). now apply IH.
Qed.

Lemma raw_issuedCommands env snapshot filteredHooks :
  existsb RawHooks.faulty filteredHooks = false ->
  issuedCommands (flat_map (RawHooks.hookEvents env snapshot) filteredHooks)
  = flat_map (RawHooks.commandsOf snapshot) filteredHooks.
Proof.
  induction filteredHooks as [|hook rest IH]; intros H; [reflexivity|].
  cbn [existsb] in H. apply orb_false_iff in H as [Hh Hr].
  cbn [flat_map]. rewrite issuedCommands_app, (IH Hr). f_equal.
  unfold RawHooks.hookEvents, RawHooks.commandsOf.
  destruct (RawHooks.conditionFails hook snapshot) as [[|]|],
    (RawHooks.hookName hook) as [truthy text|]; try reflexivity.
  destruct (RawHooks.hookCommand hook) as [cmd|]; [|reflexivity].
  cbv zeta. now destruct (commandThrows env cmd).
Qed.

Lemma conforming_not_null typed :
  existsb RawHooks.isNull (map RawHooks.conforming typed) = false.
Proof. induction typed as [|hook typed IH]; [reflexivity|exact IH]. Qed.

Lemma conforming_sound typed at_ :
  existsb RawHooks.faulty (RawHooks.targeted at_ (map RawHooks.conforming typed))
  = false.
Proof.
  induction typed as [|hook typed IH]; [reflexivity|].
  cbn [map RawHooks.targeted flat_map RawHooks.conforming RawHooks.hookRunAt].
  fold (RawHooks.targeted at_ (map RawHooks.conforming typed)).
  destruct (RunAt_eqb (runAt hook) at_); cbn [app]; [|exact IH].
  cbn [existsb]. rewrite IH, orb_false_r.
  unfold RawHooks.faulty. cbn. now destruct (condition hook).
Qed.

Lemma conforming_events env snapshot typed at_ :
  flat_map (RawHooks.hookEvents env snapshot)
    (RawHooks.targeted at_ (map RawHooks.conforming typed))
  = flat_map (hookEvents env snapshot) (hooksAt at_ typed).
Proof.
  unfold hooksAt.
  induction typed as [|hook typed IH]; [reflexivity|].
  cbn [map RawHooks.targeted flat_map RawHooks.conforming RawHooks.hookRunAt
       filter].
  fold (RawHooks.targeted at_ (map RawHooks.conforming typed)).
  destruct (RunAt_eqb (runAt hook) at_); cbn [app flat_map]; [|exact IH].
  rewrite IH. f_equal.
  all: unfold RawHooks.hookEvents, hookEvents, RawHooks.conditionFails,
    conditionFails; cbn.
  all: destruct (condition hook) as [[|c cs]|]; try reflexivity.
  all: now destruct (negb (evaluateCondition (c :: cs) snapshot)).
Qed.

Lemma conforming_commands snapshot typed at_ :
  flat_map (RawHooks.commandsOf snapshot)
    (RawHooks.targeted at_ (map RawHooks.conforming typed))
  = map commandOf
      (filter (fun hook =>
                 RunAt_eqb (runAt hook) at_
                 && negb (conditionFails hook snapshot))
         typed).
Proof.
  induction typed as [|hook typed IH]; [reflexivity|].
  cbn [map RawHooks.targeted flat_map RawHooks.conforming RawHooks.hookRunAt
       filter].
  fold (RawHooks.targeted at_ (map RawHooks.conforming typed)).
  destruct (RunAt_eqb (runAt hook) at_); cbn [app flat_map andb]; [|exact IH].
  rewrite IH.
  unfold RawHooks.commandsOf, commandOf, RawHooks.conditionFails,
    conditionFails. cbn.
  destruct (condition hook) as [[|c cs]|]; try reflexivity.
  all: now destruct (negb (evaluateCondition (c :: cs) snapshot)).
Qed.

Lemma raw_executeHooks_done env entries at_ st :
  existsb RawHooks.isNull entries = false ->
  existsb RawHooks.faulty (RawHooks.targeted at_ entries) = false ->
  RawHooks.executeHooks env entries at_ st
  = (RawHooks.Done,
     addEvents
       (rev (HooksEvaluated at_ (stats st)
             :: flat_map (RawHooks.hookEvents env (stats st))
                  (RawHooks.targeted at_ entries)))
       st).
Proof.
  intros Hn Hf. unfold RawHooks.executeHooks. rewrite Hn.
  change (withTrace (HooksEvaluated at_ (stats st)) st)
    with (addEvents [HooksEvaluated at_ (stats st)] st).
  rewrite (raw_hookLoop_done env _ _ _ Hf), addEvents_app. reflexivity.
Qed.

Lemma raw_executeHooks_throws env entries at_ st :
  fst (RawHooks.executeHooks env entries at_ st) = RawHooks.TypeError <->
  existsb RawHooks.isNull entries = true
  \/ existsb RawHooks.faulty (RawHooks.targeted at_ entries) = true.
Proof.
  destruct (existsb RawHooks.isNull entries) eqn:Hn.
  - unfold RawHooks.executeHooks. rewrite Hn. split; [now left|reflexivity].
  - destruct (existsb RawHooks.faulty (RawHooks.targeted at_ entries)) eqn:Hf.
    + unfold RawHooks.executeHooks. rewrite Hn. split; [now right|].
      intros _. now apply raw_hookLoop_throws.
    + rewrite (raw_executeHooks_done env entries at_ st Hn Hf). cbn [fst].
      split; [discriminate|]. intros [F|F]; discriminate F.
Qed.

Lemma raw_hookLoop_frame env snapshot filteredHooks :
  forall st, exists evs,
    snd (RawHooks.hookLoop env filteredHooks snapshot st) = addEvents evs st.
Proof.
  induction filteredHooks as [|hook rest IH]; intros st.
  - exists []. cbn. now rewrite addEvents_nil.
  - cbn [RawHooks.hookLoop].
    destruct (RawHooks.faulty hook) eqn:Hh.
    + rewrite (raw_runHook_faulty env hook snapshot st Hh).
      exists []. cbn. now rewrite addEvents_nil.
    + rewrite (raw_runHook_done env hook snapshot st Hh).
      destruct (IH (addEvents (rev (RawHooks.hookEvents env snapshot hook)) st))
        as (evs & E).
      rewrite E, addEvents_app. now eexists.
Qed.

Lemma raw_executeHooks_frame env entries at_ st :
  exists evs, snd (RawHooks.executeHooks env entries at_ st) = addEvents evs st.
Proof.
  unfold RawHooks.executeHooks.
  destruct (existsb RawHooks.isNull entries).
  - exists []. cbn. now rewrite addEvents_nil.
  - change (withTrace (HooksEvaluated at_ (stats st)) st)
      with (addEvents [HooksEvaluated at_ (stats st)] st).
    destruct (raw_hookLoop_frame env (stats st) (RawHooks.targeted at_ entries)
                (addEvents [HooksEvaluated at_ (stats st)] st)) as (evs & E).
    rewrite E, addEvents_app. now eexists.
Qed.

Lemma raw_hookNames_none filteredHooks :
  RawHooks.hookNames filteredHooks = None <->
  existsb RawHooks.unprintable filteredHooks = true.
Proof.
  induction filteredHooks as [|hook rest IH]; [split; discriminate|].
  cbn [RawHooks.hookNames existsb].
  unfold RawHooks.nameOrDefault, RawHooks.unprintable at 1.
  destruct (RawHooks.hookName hook) as [[|] text|]; cbn [orb].
  - destruct (RawHooks.hookNames rest); [split; [discriminate|]|].
    + intros H. apply IH in H. discriminate H.
    + split; [intros _; now apply IH|reflexivity].
  - destruct (RawHooks.hookNames rest); [split; [discriminate|]|].
    + intros H. apply IH in H. discriminate H.
    + split; [intros _; now apply IH|reflexivity].
  - split; reflexivity.
Qed.

Lemma raw_faulty_split filteredHooks :
  existsb RawHooks.unprintable filteredHooks = false ->
  existsb RawHooks.faulty filteredHooks
  = existsb RawHooks.truthyNotText filteredHooks.
Proof.
  induction filteredHooks as [|hook rest IH]; [reflexivity|].
  cbn [existsb]. intros H. apply orb_false_iff in H as [Hh Hr].
  rewrite (IH Hr). f_equal.
  unfold RawHooks.faulty, RawHooks.truthyNotText, RawHooks.unprintable in *.
  destruct (RawHooks.hookCondition hook) as [[|]|c],
    (RawHooks.hookName hook); try reflexivity; discriminate Hh.
Qed.

Lemma conforming_names typed at_ :
  RawHooks.hookNames (RawHooks.targeted at_ (map RawHooks.conforming typed))
  = Some (map (fun hook => ClineIntegration.orElse (name hook) (str "(no name)"))
            (hooksAt at_ typed)).
Proof.
  unfold hooksAt.
  induction typed as [|hook typed IH]; [reflexivity|].
  cbn [map RawHooks.targeted flat_map RawHooks.conforming RawHooks.hookRunAt
       filter].
  fold (RawHooks.targeted at_ (map RawHooks.conforming typed)).
  destruct (RunAt_eqb (runAt hook) at_); cbn [app]; [|exact IH].
  cbn [RawHooks.hookNames map]. rewrite IH.
  unfold RawHooks.nameOrDefault. cbn. now destruct (name hook).
Qed.

Lemma conforming_conditions typed at_ :
  existsb RawHooks.truthyNotText
    (RawHooks.targeted at_ (map RawHooks.conforming typed)) = false.
Proof.
  induction typed as [|hook typed IH]; [reflexivity|].
  cbn [map RawHooks.targeted flat_map RawHooks.conforming RawHooks.hookRunAt].
  fold (RawHooks.targeted at_ (map RawHooks.conforming typed)).
  destruct (RunAt_eqb (runAt hook) at_); cbn [app]; [|exact IH].
  cbn [existsb]. rewrite IH, orb_false_r.
  unfold RawHooks.truthyNotText. cbn. now destruct (condition hook).
Qed.

(** What a call of [runHooksWithLogging] that does not throw leaves. *)
Lemma raw_runHooksWithLogging_done env entries at_ fileUri st names :
  existsb RawHooks.isNull entries = false ->
  RawHooks.hookNames (RawHooks.targeted at_ entries) = Some names ->
  exists evs,
    RawHooks.runHooksWithLogging env entries at_ fileUri st
    = (RawHooks.Done,
       mkState (stats st)
         (hookLogs st
          ++ [LineStart at_
                match fileUri with
                | Some uri => fileLabelOf env uri
                | None => []
                end names;
              if existsb RawHooks.truthyNotText (RawHooks.targeted at_ entries)
              then LineFailed at_
                     match fileUri with
                     | Some uri => fileLabelOf env uri
                     | None => []
                     end
              else LineCompleted at_
                     match fileUri with
                     | Some uri => fileLabelOf env uri
                     | None => []
                     end])
         (lastHookLogIndex st) (latestResult st) (gitCalls st) (appendCalls st)
         (evs ++ trace st))
    /\ (existsb RawHooks.truthyNotText (RawHooks.targeted at_ entries) = false ->
        evs = rev (HooksEvaluated at_ (stats st)
                   :: flat_map (RawHooks.hookEvents env (stats st))
                        (RawHooks.targeted at_ entries))).
Proof.
  intros Hn Hnames.
  unfold RawHooks.runHooksWithLogging. rewrite Hn. cbv zeta. rewrite Hnames.
  change (ClineIntegration.orElse (asRelativePath env ?u (Some false)) ?u)
    with (fileLabelOf env u).
  set (fileLabel := match fileUri with
                    | Some uri => fileLabelOf env uri
                    | None => []
                    end).
  set (st1 := pushHookLog (LineStart at_ fileLabel names) st).
  assert (Hu : existsb RawHooks.unprintable (RawHooks.targeted at_ entries) = false).
  { destruct (existsb RawHooks.unprintable (RawHooks.targeted at_ entries)) eqn:Hu;
      [|reflexivity].
    apply raw_hookNames_none in Hu. rewrite Hu in Hnames. discriminate Hnames. }
  pose proof (raw_faulty_split _ Hu) as Hf.
  destruct (existsb RawHooks.truthyNotText (RawHooks.targeted at_ entries)) eqn:Ht.
  - assert (Hthrown : fst (RawHooks.executeHooks env entries at_ st1)
                      = RawHooks.TypeError).
    { apply raw_executeHooks_throws. now right. }
    destruct (raw_executeHooks_frame env entries at_ st1) as (evs & E).
    destruct (RawHooks.executeHooks env entries at_ st1) as [o st2].
    cbn [fst snd] in Hthrown, E. subst o st2.
    exists evs. split; [|discriminate].
    unfold pushHookLog, addEvents, st1. cbn.
    now rewrite <- app_assoc.
  - rewrite (raw_executeHooks_done env entries at_ st1 Hn Hf).
    eexists. split; [|reflexivity].
    unfold pushHookLog, addEvents, st1. cbn.
    now rewrite <- app_assoc.
Qed.

End HookFacts.

(** X14.  [executeHooks] on the hooks as the configuration file gives
    them.  It throws exactly when an element of the configuration is
    [null], or a hook registered for the lifecycle point has a condition
    that is truthy without being a string, or a name that cannot be
    printed.  When it returns it has changed nothing but the trace, and
    the commands issued are those of the hooks registered for the
    lifecycle point whose condition is falsy, empty or true of the
    statistics and whose command is a string, in the order of the
    configuration: a command that throws, or that is no string, does not
    keep the next hook from running.  On a configuration that conforms to
    [HookConfig] it always returns, and does what the typed
    [executeHooks] does; a command that starts with [vscode:] goes to the
    host editor without that prefix. *)
Theorem executeHooks_issues_matching_commands (env : Env)
    (entries : list RawHooks.entry) (at_ : RunAt) (st : State) :
  let final := RawHooks.executeHooks env entries at_ st in
  let hooks := RawHooks.targeted at_ entries in
  (fst final = RawHooks.TypeError <->
   existsb RawHooks.isNull entries = true
   \/ existsb RawHooks.faulty hooks = true)
  /\ (fst final = RawHooks.Done ->
      exists evs,
        snd final = RunSpec.addEvents evs st
        /\ HookSpec.issuedCommands (rev evs)
           = flat_map (RawHooks.commandsOf (stats st)) hooks)
  /\ (forall typed,
        entries = map RawHooks.conforming typed ->
        fst (HookRunner.executeHooks env typed at_ st) = Returned tt
        /\ final = (RawHooks.Done, snd (HookRunner.executeHooks env typed at_ st))
        /\ flat_map (RawHooks.commandsOf (stats st)) hooks
           = map HookSpec.commandOf
               (filter (fun hook =>
                          RunAt_eqb (runAt hook) at_
                          && negb (HookRunner.conditionFails hook (stats st)))
                  typed)).
Proof.
  cbv zeta. split; [apply raw_executeHooks_throws|]. split.
  - intros Hd.
    destruct (existsb RawHooks.isNull entries) eqn:Hn.
    { assert (F : fst (RawHooks.executeHooks env entries at_ st)
                  = RawHooks.TypeError).
      { apply raw_executeHooks_throws. now left. }
      rewrite Hd in F. discriminate F. }
    destruct (existsb RawHooks.faulty (RawHooks.targeted at_ entries)) eqn:Hf.
    { assert (F : fst (RawHooks.executeHooks env entries at_ st)
                  = RawHooks.TypeError).
      { apply raw_executeHooks_throws. now right. }
      rewrite Hd in F. discriminate F. }
    rewrite (raw_executeHooks_done env entries at_ st Hn Hf). cbn [snd].
    eexists. split; [reflexivity|]. rewrite rev_involutive.
    cbn [HookSpec.issuedCommands]. now apply raw_issuedCommands.
  - intros typed ->. rewrite executeHooks_exact. cbn [fst snd].
    split; [reflexivity|]. split.
    + rewrite (raw_executeHooks_done env _ at_ st (conforming_not_null typed)
                 (conforming_sound typed at_)).
      now rewrite conforming_events.
    + apply conforming_commands.
Qed.

(** X15.  [runHooksWithLogging] on the hooks as the configuration file
    gives them.  It throws, and then leaves [hookLogs] as it was, exactly
    when an element of the configuration is [null] or a hook registered
    for the lifecycle point has a name that cannot be printed.  Otherwise
    it returns and leaves exactly two lines more in [hookLogs]: the line
    that lists the hooks registered for the lifecycle point (by their
    names, [(no name)] for a hook whose name is falsy), and then the line
    that reports a failure when one of these hooks has a condition that
    is truthy without being a string, the line that says that the hooks
    completed when none has; the statistics are not touched.  On a
    configuration that conforms to [HookConfig] it returns with the
    second of these, as the typed [runHooksWithLogging] does. *)
Theorem runHooksWithLogging_logs_two_lines (env : Env)
    (entries : list RawHooks.entry) (at_ : RunAt) (fileUri : option jsstring)
    (st : State) :
  let final := RawHooks.runHooksWithLogging env entries at_ fileUri st in
  let hooks := RawHooks.targeted at_ entries in
  let fileLabel :=
    match fileUri with
    | Some uri => RunSpec.fileLabelOf env uri
    | None => []
    end in
  (fst final = RawHooks.TypeError <->
   existsb RawHooks.isNull entries = true
   \/ existsb RawHooks.unprintable hooks = true)
  /\ (fst final = RawHooks.TypeError -> snd final = st)
  /\ (fst final = RawHooks.Done ->
      exists names,
        RawHooks.hookNames hooks = Some names
        /\ hookLogs (snd final)
           = hookLogs st
             ++ [LineStart at_ fileLabel names;
                 if existsb RawHooks.truthyNotText hooks
                 then LineFailed at_ fileLabel
                 else LineCompleted at_ fileLabel]
        /\ stats (snd final) = stats st
        /\ lastHookLogIndex (snd final) = lastHookLogIndex st
        /\ latestResult (snd final) = latestResult st)
  /\ (forall typed,
        entries = map RawHooks.conforming typed ->
        fst (BatchProcessor.runHooksWithLogging env typed at_ fileUri st)
        = Returned tt
        /\ final
           = (RawHooks.Done,
              snd (BatchProcessor.runHooksWithLogging env typed at_ fileUri st))).
Proof.
  cbv zeta.
  assert (Hthrows :
    fst (RawHooks.runHooksWithLogging env entries at_ fileUri st)
    = RawHooks.TypeError <->
    existsb RawHooks.isNull entries = true
    \/ existsb RawHooks.unprintable (RawHooks.targeted at_ entries) = true).
  { destruct (existsb RawHooks.isNull entries) eqn:Hn.
    - unfold RawHooks.runHooksWithLogging. rewrite Hn.
      split; [now left|reflexivity].
    - destruct (RawHooks.hookNames (RawHooks.targeted at_ entries))
        as [names|] eqn:Hnames.
      + destruct (raw_runHooksWithLogging_done env entries at_ fileUri st names
                    Hn Hnames) as (evs & E & _).
        rewrite E. cbn [fst]. split; [discriminate|].
        intros [F|F]; [discriminate F|].
        apply raw_hookNames_none in F. rewrite F in Hnames. discriminate Hnames.
      + unfold RawHooks.runHooksWithLogging. rewrite Hn. cbv zeta.
        rewrite Hnames. split; [|reflexivity].
        intros _. right. now apply raw_hookNames_none. }
  split; [exact Hthrows|].
  destruct (existsb RawHooks.isNull entries) eqn:Hn.
  { unfold RawHooks.runHooksWithLogging. rewrite Hn. cbn [fst snd].
    split; [reflexivity|]. split; [discriminate|].
    intros typed ->. rewrite conforming_not_null in Hn. discriminate Hn. }
  destruct (RawHooks.hookNames (RawHooks.targeted at_ entries))
    as [names|] eqn:Hnames.
  2:{ unfold RawHooks.runHooksWithLogging. rewrite Hn. cbv zeta. rewrite Hnames.
      cbn [fst snd]. split; [reflexivity|]. split; [discriminate|].
      intros typed ->. rewrite conforming_names in Hnames. discriminate Hnames. }
  destruct (raw_runHooksWithLogging_done env entries at_ fileUri st names
              Hn Hnames) as (evs & E & Hevs).
  rewrite E. cbn [fst snd]. split; [discriminate|]. split.
  - intros _. exists names. cbn. repeat split.
  - intros typed ->. rewrite runHooksWithLogging_exact. cbn [fst snd].
    split; [reflexivity|].
    rewrite conforming_conditions in Hevs |- *.
    rewrite (Hevs eq_refl), conforming_events.
    rewrite conforming_names in Hnames. injection Hnames as <-.
    reflexivity.
Qed.

(** ** The run: its log, its counts and its errors *)

Section RunFrame.

Import HookRunner ClineIntegration BatchProcessor RunSpec HookSpec LogSpec
  Accounting.

(** *** Events *)

Lemma lastGitAnswer_app a b d :
  lastGitAnswer (a ++ b) d = lastGitAnswer a (lastGitAnswer b d).
Proof.
  induction a as [|e a IH]; [reflexivity|].
  cbn [app]. destruct e; cbn [lastGitAnswer]; try exact IH.
  destruct answer; [reflexivity|exact IH].
Qed.

Lemma lastGitAnswer_notGit a d :
  forallb notGitStatus a = true -> lastGitAnswer a d = d.
Proof.
  induction a as [|e a IH]; [reflexivity|].
  cbn [forallb]. intros H. apply andb_prop in H as [He Ha].
  destruct e; try discriminate He; cbn [lastGitAnswer]; now apply IH.
Qed.

Lemma quiet_notGit a :
  forallb quietEvent a = true -> forallb notGitStatus a = true.
Proof. apply forallb_impl. now intros []. Qed.

Lemma appendedBlocks_app a b :
  appendedBlocks (a ++ b) = appendedBlocks a ++ appendedBlocks b.
Proof.
  induction a as [|e a IH]; [reflexivity|].
  destruct e; cbn [app appendedBlocks]; now rewrite IH.
Qed.

Lemma blocksOf_app a b : blocksOf (a ++ b) = blocksOf b ++ blocksOf a.
Proof. unfold blocksOf. now rewrite rev_app_distr, appendedBlocks_app. Qed.

Lemma blocksOf_cons e a : blocksOf (e :: a) = blocksOf a ++ blocksOf [e].
Proof. apply (blocksOf_app [e] a). Qed.

Lemma blocksOf_quiet a : forallb quietEvent a = true -> blocksOf a = [].
Proof.
  unfold blocksOf. rewrite <- forallb_rev.
  induction (rev a) as [|e r IH]; [reflexivity|].
  cbn [forallb]. intros H. apply andb_prop in H as [He Hr].
  destruct e; try discriminate He; cbn [appendedBlocks]; now apply IH.
Qed.

Lemma blocksOf_git a : forallb isGitStatus a = true -> blocksOf a = [].
Proof.
  unfold blocksOf. rewrite <- forallb_rev.
  induction (rev a) as [|e r IH]; [reflexivity|].
  cbn [forallb]. intros H. apply andb_prop in H as [He Hr].
  destruct e; try discriminate He; cbn [appendedBlocks]; now apply IH.
Qed.

Lemma agentSteps_quiet l :
  forallb isAgentStep l = true -> forallb quietEvent l = true.
Proof. apply forallb_impl. now intros []. Qed.

Lemma hookEvents_quiet env snapshot hooks :
  forallb quietEvent (flat_map (hookEvents env snapshot) hooks) = true.
Proof.
  induction hooks as [|hook hooks IH]; [reflexivity|].
  cbn [flat_map]. rewrite forallb_app, IH, andb_true_r.
  unfold hookEvents. destruct (conditionFails hook snapshot); [reflexivity|].
  now destruct (commandThrows env (command hook)).
Qed.

(** *** Steps *)

Lemma step_refl env st : step env st st [].
Proof. repeat split. Qed.

Lemma step_trans env st st1 st2 e1 e2 :
  step env st st1 e1 -> step env st1 st2 e2 -> step env st st2 (e2 ++ e1).
Proof.
  intros (T1 & G1 & M1) (T2 & G2 & M2). split; [|split].
  - rewrite T2, T1. now rewrite app_assoc.
  - intros H. rewrite forallb_app. now rewrite (G1 H), (G2 H).
  - now rewrite lastGitAnswer_app, M2, M1.
Qed.

Lemma step_notGit env st st' evs :
  trace st' = evs ++ trace st ->
  forallb notGitStatus evs = true ->
  modifiedFiles (stats st') = modifiedFiles (stats st) ->
  step env st st' evs.
Proof.
  intros T G M. split; [exact T|]. split; [now intros _|].
  now rewrite lastGitAnswer_notGit.
Qed.

Lemma step_quiet env st st' evs :
  trace st' = evs ++ trace st ->
  forallb quietEvent evs = true ->
  modifiedFiles (stats st') = modifiedFiles (stats st) ->
  step env st st' evs.
Proof. intros T Q M. apply step_notGit; auto using quiet_notGit. Qed.

(** *** git *)

Lemma refresh_frame env st :
  exists st' answers,
    refreshModifiedFilesCount env st = (Returned tt, st')
    /\ step env st st' answers
    /\ forallb isGitStatus answers = true
    /\ counters (stats st') = counters (stats st)
    /\ hookLogs st' = hookLogs st
    /\ lastHookLogIndex st' = lastHookLogIndex st
    /\ latestResult st' = latestResult st.
Proof.
  unfold step, refreshModifiedFilesCount, refreshSteps.
  destruct (workspaceFolders env) as [|workspaceRoot others].
  - exists st, []. repeat split.
  - destruct (negb (isGitRepository env) || jseqb workspaceRoot []).
    + exists st, []. repeat split.
    + unfold bind, get, update, emit. cbn.
      destruct (gitModifiedCount env (gitCalls st)) as [n|]; cbn.
      * eexists. exists [GitStatus (Some n)]. split; [reflexivity|].
        cbn. repeat split. discriminate.
      * eexists. exists [GitStatus None]. split; [reflexivity|].
        cbn. repeat split. discriminate.
Qed.

(** *** Hooks *)

Lemma hooks_frame env hooks at_ fileUri st :
  exists st' evs,
    runHooksWithLogging env hooks at_ fileUri st = (Returned tt, st')
    /\ step env st st' evs
    /\ forallb quietEvent evs = true
    /\ stats st' = stats st
    /\ hookLogs st' = hookLogs st ++ hookLines env hooks at_ fileUri
    /\ lastHookLogIndex st' = lastHookLogIndex st
    /\ latestResult st' = latestResult st.
Proof.
  rewrite runHooksWithLogging_exact.
  assert (Q : forallb quietEvent
                (rev (HooksEvaluated at_ (stats st)
                      :: flat_map (hookEvents env (stats st)) (hooksAt at_ hooks)))
              = true).
  { rewrite forallb_rev. cbn [forallb quietEvent]. apply hookEvents_quiet. }
  eexists. eexists. split; [reflexivity|].
  split; [apply step_quiet; [reflexivity|exact Q|reflexivity]|].
  split; [exact Q|]. repeat split.
Qed.

(** *** The agent call and the counting that follows it *)

Lemma attemptTask_frame env cline hooks taskDescription file fileLabel st :
  exists st' evs,
    attemptTask env cline hooks taskDescription file fileLabel st
    = (Returned (agentOutcome env cline file taskDescription), st')
    /\ step env st st' evs
    /\ blocksOf evs = []
    /\ counters (stats st')
       = counters (bump (agentOutcome env cline file taskDescription) (stats st))
    /\ hookLogs st'
       = hookLogs st
         ++ match agentOutcome env cline file taskDescription with
            | failed => hookLines env hooks onError (Some file)
            | success => []
            end
    /\ lastHookLogIndex st' = lastHookLogIndex st
    /\ latestResult st' = latestResult st.
Proof.
  destruct (process_runs env cline file taskDescription)
    as (r & steps & E & Hs & _).
  rewrite (agentOutcome_result _ _ _ _ _ _ _ (E st)).
  unfold attemptTask, tryCatch.
  set (start := StartNewTask (fileLabelOf env file) taskDescription) in *.
  assert (Q : forall e, quietEvent e = true ->
                        forallb quietEvent (e :: steps ++ [start]) = true).
  { intros e He. cbn [forallb]. rewrite He, forallb_app.
    now rewrite (agentSteps_quiet _ Hs). }
  destruct r as [[]|e].
  - rewrite (bind_returned _ _ _ _ _ (E st)).
    eexists.
    exists (ProcessedMessage true fileLabel :: steps ++ [start]).
    split; [reflexivity|].
    split; [apply step_quiet; [reflexivity|now apply Q|reflexivity]|].
    split; [apply blocksOf_quiet; now apply Q|].
    split; [reflexivity|]. split; [cbn; now rewrite app_nil_r|].
    split; reflexivity.
  - rewrite (bind_thrown _ _ _ _ _ (E st)).
    rewrite (bind_returned _ _ _ _ _ (update_runs _ _)).
    rewrite (bind_returned _ _ _ _ _ (update_runs _ _)).
    rewrite (bind_returned _ _ _ _ _ (emit_adds _ _)).
    match goal with
    | |- context [bind (refreshModifiedFilesCount env) _ ?s] =>
        set (st0 := s);
        destruct (refresh_frame env st0)
          as (st1 & answers & E1 & S1 & G1 & C1 & H1 & I1 & L1);
        rewrite (bind_returned _ _ _ _ _ E1)
    end.
    destruct (hooks_frame env hooks onError (Some file) st1)
      as (st2 & hevs & E2 & S2 & Q2 & T2 & H2 & I2 & L2).
    rewrite (bind_returned _ _ _ _ _ E2).
    exists st2,
      (hevs ++ answers
         ++ ProcessedMessage false fileLabel :: steps ++ [start]).
    assert (S0 : step env st st0
                   (ProcessedMessage false fileLabel
                    :: steps ++ [start])).
    { apply step_quiet; [reflexivity|now apply Q|reflexivity]. }
    split; [reflexivity|].
    split; [exact (step_trans _ _ _ _ _ _ (step_trans _ _ _ _ _ _ S0 S1) S2)|].
    split.
    { rewrite !blocksOf_app, (blocksOf_quiet hevs Q2), (blocksOf_git _ G1).
      rewrite blocksOf_quiet; [reflexivity|now apply Q]. }
    split; [now rewrite T2, C1|].
    split; [now rewrite H2, H1|].
    split; [now rewrite I2, I1|now rewrite L2, L1].
Qed.

(** *** The log *)

Lemma appendLogSection_frame env block st :
  exists r st',
    appendLogSection env block st = (r, st')
    /\ stats st' = stats st
    /\ hookLogs st' = hookLogs st
    /\ lastHookLogIndex st' = lastHookLogIndex st
    /\ latestResult st' = latestResult st
    /\ ((r = Returned tt /\ trace st' = LogAppended block :: trace st)
        \/ (r = Thrown AppendFileRejected /\ trace st' = trace st
            /\ appendFile env (appendCalls st) = false)).
Proof.
  unfold appendLogSection, bind, get, update. cbn.
  destruct (appendFile env (appendCalls st)) eqn:Ea; cbn;
    eexists; eexists; (split; [reflexivity|]); cbn; repeat split.
  - now left.
  - right. repeat split.
Qed.

Lemma step_appended env st st' block :
  stats st' = stats st -> trace st' = LogAppended block :: trace st ->
  step env st st' [LogAppended block].
Proof.
  intros S T. apply step_notGit; [exact T|reflexivity|now rewrite S].
Qed.

Lemma step_same env st st' :
  stats st' = stats st -> trace st' = trace st -> step env st st' [].
Proof.
  intros S T. apply step_notGit; [exact T|reflexivity|now rewrite S].
Qed.

Lemma appendTaskLog_frame env cline logFilePath fileLabel taskStatus st :
  exists r st' evs,
    appendTaskLog env cline logFilePath fileLabel taskStatus st = (r, st')
    /\ step env st st' evs
    /\ stats st' = stats st
    /\ hookLogs st' = hookLogs st
    /\ latestResult st' = latestResult st
    /\ (forall e, r = Thrown e ->
          logFilePath <> None
          /\ ((e = AgentCallRejected /\ getTaskMessages cline = None)
              \/ (e = AppendFileRejected /\ exists n, appendFile env n = false)))
    /\ (logFilePath = None ->
          r = Returned tt /\ evs = []
          /\ lastHookLogIndex st' = lastHookLogIndex st)
    /\ (logFilePath <> None -> (forall n, appendFile env n = true) ->
          getTaskMessages cline <> None -> r = Returned tt)
    /\ (logFilePath <> None -> r = Returned tt ->
          lastHookLogIndex st' = length (hookLogs st)
          /\ evs = [LogAppended
                      (TaskLogBlock fileLabel taskStatus (messagesOf cline)
                         (skipn (lastHookLogIndex st) (hookLogs st)) (stats st))]).
Proof.
  unfold appendTaskLog, messagesOf.
  destruct logFilePath as [path|].
  2:{ exists (Returned tt), st, []. split; [reflexivity|].
      split; [apply step_refl|]. split; [reflexivity|]. split; [reflexivity|].
      split; [reflexivity|]. split; [discriminate|].
      split; [intros _; repeat split|].
      split; intros F; now elim F. }
  destruct (getTaskMessages cline) as [messages|].
  2:{ exists (Thrown AgentCallRejected), st, []. split; [reflexivity|].
      split; [apply step_refl|]. split; [reflexivity|]. split; [reflexivity|].
      split; [reflexivity|]. split.
      { intros e [= <-]. split; [discriminate|]. left. now split. }
      split; [intros F; discriminate F|].
      split; [intros _ _ F; now elim F|intros _ F; discriminate F]. }
  unfold bind at 1. unfold takeHookLogSlice at 1.
  unfold bind at 1. unfold get at 1. unfold bind at 1. unfold update at 1.
  unfold ret at 1. unfold bind at 1. unfold get at 1.
  match goal with
  | |- context [appendLogSection env ?b ?s] =>
      destruct (appendLogSection_frame env b s)
        as (r & st' & E & S & H & I & L & T);
      rewrite E
  end.
  cbn [stats hookLogs lastHookLogIndex latestResult trace markHookLogsWritten
       appendCalls] in S, H, I, L, T.
  exists r, st'.
  destruct T as [[-> T]|(-> & T & F)].
  - eexists. split; [reflexivity|].
    split; [eapply step_appended; eassumption|].
    split; [exact S|]. split; [exact H|]. split; [exact L|].
    split; [discriminate|]. split; [discriminate|].
    split; [reflexivity|]. intros _ _. now rewrite I.
  - exists []. split; [reflexivity|].
    split; [now apply step_same|].
    split; [exact S|]. split; [exact H|]. split; [exact L|].
    split.
    { intros e [= <-]. split; [discriminate|]. right.
      split; [reflexivity|]. now exists (appendCalls st). }
    split; [discriminate|].
    split; [intros _ Ha _; now rewrite Ha in F|intros _ F'; discriminate F'].
Qed.

(** *** One iteration of the loop *)

Lemma processOneFile_frame env cline hooks taskDescription logFilePath total
    file i st :
  exists r st' evs,
    processOneFile env cline hooks taskDescription logFilePath total file i st
    = (r, st')
    /\ step env st st' evs
    /\ counters (stats st')
       = counters (incrProcessedFiles
                     (bump (agentOutcome env (cline i) file taskDescription)
                        (stats st)))
    /\ latestResult st' = latestResult st
    /\ (forall e, r = Thrown e ->
          logFilePath <> None
          /\ ((e = AgentCallRejected /\ getTaskMessages (cline i) = None)
              \/ (e = AppendFileRejected /\ exists n, appendFile env n = false)))
    /\ (logFilePath = None ->
          r = Returned tt /\ blocksOf evs = []
          /\ lastHookLogIndex st' = lastHookLogIndex st)
    /\ (logFilePath <> None -> (forall n, appendFile env n = true) ->
          getTaskMessages (cline i) <> None -> r = Returned tt)
    /\ (logFilePath <> None -> r = Returned tt ->
          lastHookLogIndex st' = length (hookLogs st')
          /\ (lastHookLogIndex st = length (hookLogs st) ->
              map shapeOf (blocksOf evs)
              = [TaskShape (shownLabelOf env file)
                   (agentOutcome env (cline i) file taskDescription)
                   (messagesOf (cline i))
                   (iterationLines env hooks file
                      (agentOutcome env (cline i) file taskDescription))])).
Proof.
  unfold processOneFile. cbv zeta.
  change (orElse (asRelativePath env file None) file) with (shownLabelOf env file).
  rewrite (bind_returned _ _ _ _ _ (emit_adds _ _)).
  set (st0 := addEvents [ProgressReport (i + 1) total (asRelativePath env file None)] st).
  assert (S0 : step env st st0
                 [ProgressReport (i + 1) total (asRelativePath env file None)]).
  { apply step_quiet; reflexivity. }
  destruct (refresh_frame env st0)
    as (st1 & g1 & E1 & S1 & G1 & C1 & H1 & I1 & L1).
  rewrite (bind_returned _ _ _ _ _ E1).
  destruct (hooks_frame env hooks beforeFile (Some file) st1)
    as (st2 & a2 & E2 & S2 & Q2 & T2 & H2 & I2 & L2).
  rewrite (bind_returned _ _ _ _ _ E2).
  destruct (attemptTask_frame env (cline i) hooks taskDescription file
              (shownLabelOf env file) st2)
    as (st3 & e3 & E3 & S3 & B3 & C3 & H3 & I3 & L3).
  rewrite (bind_returned _ _ _ _ _ E3).
  set (o := agentOutcome env (cline i) file taskDescription) in *.
  rewrite (bind_returned _ _ _ _ _ (update_runs _ _)).
  set (st3' := withStats incrProcessedFiles st3).
  assert (S3' : step env st3 st3' []).
  { apply step_quiet; reflexivity. }
  destruct (refresh_frame env st3')
    as (st4 & g4 & E4 & S4 & G4 & C4 & H4 & I4 & L4).
  rewrite (bind_returned _ _ _ _ _ E4).
  destruct (hooks_frame env hooks afterFile (Some file) st4)
    as (st5 & a5 & E5 & S5 & Q5 & T5 & H5 & I5 & L5).
  rewrite (bind_returned _ _ _ _ _ E5).
  destruct (appendTaskLog_frame env (cline i) logFilePath (shownLabelOf env file)
              o st5) as (r & st6 & e6 & E6 & S6 & T6 & H6 & L6 & X6 & N6 & A6 & R6).
  rewrite E6.
  pose proof (step_trans _ _ _ _ _ _
                (step_trans _ _ _ _ _ _
                   (step_trans _ _ _ _ _ _
                      (step_trans _ _ _ _ _ _
                         (step_trans _ _ _ _ _ _
                            (step_trans _ _ _ _ _ _
                               (step_trans _ _ _ _ _ _ S0 S1) S2) S3) S3') S4)
                   S5) S6) as S.
  assert (Hlogs : hookLogs st5 = hookLogs st ++ iterationLines env hooks file o).
  { rewrite H5, H4. cbn [hookLogs withStats st3']. rewrite H3, H2, H1.
    cbn [hookLogs addEvents st0]. unfold iterationLines.
    now rewrite <- !app_assoc. }
  assert (Hidx : lastHookLogIndex st5 = lastHookLogIndex st).
  { rewrite I5, I4. cbn [lastHookLogIndex withStats st3']. rewrite I3, I2, I1.
    reflexivity. }
  assert (Hquiet : blocksOf (a5 ++ g4 ++ [] ++ e3 ++ a2 ++ g1
                             ++ [ProgressReport (i + 1) total
                                   (asRelativePath env file None)]) = []).
  { rewrite !blocksOf_app, B3, (blocksOf_quiet a5 Q5), (blocksOf_quiet a2 Q2).
    now rewrite (blocksOf_git _ G4), (blocksOf_git _ G1). }
  exists r, st6. eexists. split; [reflexivity|].
  split; [exact S|].
  split.
  { rewrite T6, T5, C4. cbn [stats withStats st3'].
    apply counters_incr; [now left|]. rewrite C3.
    apply counters_bump. now rewrite T2, C1. }
  split.
  { rewrite L6, L5, L4. cbn [latestResult withStats st3'].
    now rewrite L3, L2, L1. }
  split; [exact X6|].
  split.
  { intros Hnone. destruct (N6 Hnone) as (-> & -> & I6).
    split; [reflexivity|]. split; [exact Hquiet|]. now rewrite I6. }
  split; [exact A6|].
  intros Hsome Hr. destruct (R6 Hsome Hr) as (I6 & ->).
  split; [now rewrite I6, H6|].
  intros Hstart.
  rewrite (blocksOf_app [_] _), Hquiet. cbn [app blocksOf rev appendedBlocks map shapeOf].
  rewrite Hidx, Hstart, Hlogs, skipn_app, skipn_all, Nat.sub_diag.
  reflexivity.
Qed.

Lemma counted_step o s s1 os s2 :
  counters s1 = counters (incrProcessedFiles (bump o s)) ->
  counted os s1 s2 -> counted (o :: os) s s2.
Proof.
  intros E (K1 & K2 & K3 & K4 & K5 & K6 & K7).
  apply counters_fields in E as (E1 & E2 & E3 & E4 & E5 & E6 & E7).
  unfold counted, successes, failures in *.
  destruct o, s, s1; cbn in *; subst; repeat split; lia.
Qed.

Lemma counted_nil s : counted [] s s.
Proof. unfold counted. cbn. repeat split; lia. Qed.

Lemma loggingError_at env cline i e :
  (e = AgentCallRejected /\ getTaskMessages (cline i) = None)
  \/ (e = AppendFileRejected /\ exists n, appendFile env n = false) ->
  loggingError env cline e.
Proof.
  intros [[-> H]|[-> H]]; [right|left]; (split; [reflexivity|]); eauto.
Qed.

(** *** The loop over the files *)

Lemma fileLoop_frame env cline hooks taskDescription logFilePath total :
  forall files i st,
  exists r st' evs n,
    fileLoop env cline hooks taskDescription logFilePath total files i st
    = (r, st')
    /\ step env st st' evs
    /\ n <= length files
    /\ counted (firstn n (outcomes env cline taskDescription files i))
         (stats st) (stats st')
    /\ latestResult st' = latestResult st
    /\ (forall e, r = Thrown e ->
          logFilePath <> None /\ loggingError env cline e)
    /\ (logFilePath = None -> r = Returned tt /\ blocksOf evs = [])
    /\ (logFilePath <> None -> (forall n, appendFile env n = true) ->
          (forall j, getTaskMessages (cline j) <> None) -> r = Returned tt)
    /\ (logFilePath <> None -> r = Returned tt ->
          lastHookLogIndex st = length (hookLogs st) ->
          lastHookLogIndex st' = length (hookLogs st')
          /\ map shapeOf (blocksOf evs)
             = taskShapes env cline hooks taskDescription (firstn n files) i)
    /\ (forall k, stopsAfter env i k files -> r = Returned tt -> n = k).
Proof.
  induction files as [|file rest IH]; intros i st.
  - exists (Returned tt), st, [], 0. split; [reflexivity|].
    split; [apply step_refl|]. split; [cbn; lia|].
    split; [apply counted_nil|]. split; [reflexivity|].
    split; [discriminate|]. split; [now split|].
    split; [reflexivity|]. split; [intros _ _ H; now split|].
    intros k (_ & Hk & _) _. cbn in Hk. lia.
  - cbn [fileLoop].
    destruct (isCancellationRequested env i) eqn:Ec.
    + exists (Returned tt), st, [], 0. split; [reflexivity|].
      split; [apply step_refl|]. split; [cbn; lia|].
      split; [apply counted_nil|]. split; [reflexivity|].
      split; [discriminate|]. split; [now split|].
      split; [reflexivity|]. split; [intros _ _ H; now split|].
      intros k (Hj & _ & _) _. destruct k as [|k]; [reflexivity|].
      specialize (Hj 0 ltac:(lia)). rewrite Nat.add_0_r in Hj. congruence.
    + destruct (processOneFile_frame env cline hooks taskDescription logFilePath
                  total file i st)
        as (r1 & st1 & e1 & E1 & S1 & C1 & L1 & X1 & N1 & A1 & R1).
      destruct r1 as [[]|err].
      * rewrite (bind_returned _ _ _ _ _ E1).
        destruct (IH (S i) st1)
          as (r & st' & e2 & n & E & S2 & Hn & K & L & X & N & A & R & Kk).
        exists r, st', (e2 ++ e1), (S n).
        split; [exact E|]. split; [exact (step_trans _ _ _ _ _ _ S1 S2)|].
        split; [cbn; lia|].
        split; [cbn [outcomes firstn]; exact (counted_step _ _ _ _ _ C1 K)|].
        split; [now rewrite L|]. split; [exact X|].
        split.
        { intros Hnone. destruct (N Hnone) as [-> B].
          destruct (N1 Hnone) as (_ & B1 & _).
          split; [reflexivity|]. now rewrite blocksOf_app, B, B1. }
        split; [exact A|].
        split.
        { intros Hsome Hr Hstart.
          destruct (R1 Hsome eq_refl) as (I1 & B1).
          destruct (R Hsome Hr I1) as (I2 & B2).
          split; [exact I2|].
          rewrite blocksOf_app, map_app, (B1 Hstart), B2. reflexivity. }
        intros k (Hj & Hk & Hc) Hr.
        destruct k as [|k].
        { cbn [length] in Hc. specialize (Hc ltac:(lia)).
          rewrite Nat.add_0_r in Hc. congruence. }
        f_equal. apply Kk; [|exact Hr]. split; [|split].
        -- intros j Hlt. replace (S i + j) with (i + S j) by lia.
           apply Hj. lia.
        -- cbn [length] in Hk. lia.
        -- intros Hlt. replace (S i + k) with (i + S k) by lia.
           apply Hc. cbn [length]. lia.
      * rewrite (bind_thrown _ _ _ _ _ E1).
        exists (Thrown err), st1, e1, 1.
        split; [reflexivity|]. split; [exact S1|]. split; [cbn; lia|].
        split.
        { cbn [outcomes firstn].
          exact (counted_step _ _ _ _ _ C1 (counted_nil _)). }
        split; [exact L1|].
        split.
        { intros e [= <-]. destruct (X1 err eq_refl) as [Hl He].
          split; [exact Hl|]. now apply (loggingError_at env cline i). }
        split.
        { intros Hnone. destruct (N1 Hnone) as (F & _). discriminate F. }
        split.
        { intros Hsome Ha Hm. now apply A1. }
        split; [intros _ F; discriminate F|].
        intros k _ F. discriminate F.
Qed.

(** *** The completion sequence *)

Lemma appendSummary_frame env st :
  exists r st' evs,
    appendSummary env st = (r, st')
    /\ step env st st' evs
    /\ stats st' = stats st
    /\ latestResult st' = latestResult st
    /\ (forall e, r = Thrown e ->
          e = AppendFileRejected /\ exists n, appendFile env n = false)
    /\ ((forall n, appendFile env n = true) -> r = Returned tt)
    /\ (r = Returned tt ->
          evs = [LogAppended (SummaryBlock (stats st));
                    LogAppended
                      (HookRunBlock afterBatch
                         (skipn (lastHookLogIndex st) (hookLogs st)))]).
Proof.
  unfold appendSummary.
  assert (E0 : takeHookLogSlice st
               = (Returned (skipn (lastHookLogIndex st) (hookLogs st)),
                  markHookLogsWritten st)) by reflexivity.
  rewrite (bind_returned _ _ _ _ _ E0).
  destruct (appendLogSection_frame env
              (HookRunBlock afterBatch (skipn (lastHookLogIndex st) (hookLogs st)))
              (markHookLogsWritten st)) as (r1 & st1 & E1 & S1 & H1 & I1 & L1 & T1).
  cbn [stats trace latestResult appendCalls markHookLogsWritten] in S1, T1, L1.
  destruct T1 as [[-> T1]|(-> & T1 & F1)].
  - rewrite (bind_returned _ _ _ _ _ E1).
    assert (E2 : get st1 = (Returned st1, st1)) by reflexivity.
    rewrite (bind_returned _ _ _ _ _ E2).
    destruct (appendLogSection_frame env (SummaryBlock (stats st1)) st1)
      as (r3 & st3 & E3 & S3 & H3 & I3 & L3 & T3).
    rewrite E3. exists r3, st3.
    pose proof (step_appended env st st1 _ S1 T1) as P1.
    destruct T3 as [[-> T3]|(-> & T3 & F3)].
    + eexists. split; [reflexivity|].
      split; [exact (step_trans _ _ _ _ _ _ P1 (step_appended env st1 st3 _ S3 T3))|].
      split; [now rewrite S3|]. split; [now rewrite L3|].
      split; [discriminate|]. split; [reflexivity|]. intros _. now rewrite S1.
    + eexists. split; [reflexivity|].
      split; [exact (step_trans _ _ _ _ _ _ P1 (step_same env st1 st3 S3 T3))|].
      split; [now rewrite S3|]. split; [now rewrite L3|].
      split.
      { intros e [= <-]. split; [reflexivity|]. now exists (appendCalls st1). }
      split; [intros Ha; now rewrite Ha in F3|intros F; discriminate F].
  - rewrite (bind_thrown _ _ _ _ _ E1).
    exists (Thrown AppendFileRejected), st1, [].
    split; [reflexivity|]. split; [now apply step_same|].
    split; [exact S1|]. split; [exact L1|].
    split.
    { intros e [= <-]. split; [reflexivity|]. now exists (appendCalls st). }
    split; [intros Ha; now rewrite Ha in F1|intros F; discriminate F].
Qed.

Lemma completeBatch_frame env hooks logFilePath st :
  exists r st' evs,
    completeBatch env hooks logFilePath st = (r, st')
    /\ step env st st' evs
    /\ counters (stats st') = counters (setEndTime (clockAtEnd env) (stats st))
    /\ (forall e, r = Thrown e ->
          logFilePath <> None /\ e = AppendFileRejected
          /\ (exists n, appendFile env n = false)
          /\ latestResult st' = latestResult st)
    /\ (logFilePath = None -> r = Returned tt /\ blocksOf evs = [])
    /\ (logFilePath <> None -> (forall n, appendFile env n = true) ->
          r = Returned tt)
    /\ (logFilePath <> None -> r = Returned tt ->
          lastHookLogIndex st = length (hookLogs st) ->
          map shapeOf (blocksOf evs)
          = [HookRunShape afterBatch (hookLines env hooks afterBatch None);
             SummaryShape]).
Proof.
  unfold completeBatch.
  rewrite (bind_returned _ _ _ _ _ (update_runs _ _)).
  rewrite (bind_returned _ _ _ _ _ (emit_adds _ _)).
  set (st0 := addEvents [EndTimeSet (clockAtEnd env)]
                (withStats (setEndTime (clockAtEnd env)) st)).
  assert (S0 : step env st st0 [EndTimeSet (clockAtEnd env)]).
  { apply step_quiet; reflexivity. }
  destruct (refresh_frame env st0)
    as (st1 & g1 & E1 & S1 & G1 & C1 & H1 & I1 & L1).
  rewrite (bind_returned _ _ _ _ _ E1).
  destruct (hooks_frame env hooks afterBatch None st1)
    as (st2 & a2 & E2 & S2 & Q2 & T2 & H2 & I2 & L2).
  rewrite (bind_returned _ _ _ _ _ E2).
  pose proof (step_trans _ _ _ _ _ _ (step_trans _ _ _ _ _ _ S0 S1) S2) as S012.
  assert (C2 : counters (stats st2)
               = counters (setEndTime (clockAtEnd env) (stats st))).
  { now rewrite T2, C1. }
  assert (B2 : blocksOf (a2 ++ g1 ++ [EndTimeSet (clockAtEnd env)]) = []).
  { now rewrite !blocksOf_app, (blocksOf_quiet a2 Q2), (blocksOf_git _ G1). }
  assert (Hlogs : hookLogs st2 = hookLogs st ++ hookLines env hooks afterBatch None).
  { now rewrite H2, H1. }
  assert (Hidx : lastHookLogIndex st2 = lastHookLogIndex st).
  { now rewrite I2, I1. }
  assert (P : forall st3 : State,
            exists st' evs,
              (Dashboard.notifyDashboardResult env ;;
               match logFilePath with
               | Some path => emit (LogPathMessage path)
               | None => ret tt
               end ;;
               st4 <- get ;; emit (FinalSummaryMessage (stats st4))) st3
              = (Returned tt, st')
              /\ step env st3 st' evs
              /\ forallb quietEvent evs = true
              /\ stats st' = stats st3).
  { intros st3.
    unfold Dashboard.notifyDashboardResult, bind, get, update, emit, ret. cbn.
    destruct (activePanel env), logFilePath as [path|]; cbn;
      eexists;
      [exists [FinalSummaryMessage (stats st3); LogPathMessage path;
               DashboardPosted
                 (mkResult (stats st3)
                    (match endTime (stats st3) with
                     | Some t => t
                     | None => clockAtEnd env
                     end - startTime (stats st3))
                    (match endTime (stats st3) with
                     | Some t => t
                     | None => clockAtEnd env
                     end))]
      |exists [FinalSummaryMessage (stats st3);
               DashboardPosted
                 (mkResult (stats st3)
                    (match endTime (stats st3) with
                     | Some t => t
                     | None => clockAtEnd env
                     end - startTime (stats st3))
                    (match endTime (stats st3) with
                     | Some t => t
                     | None => clockAtEnd env
                     end))]
      |exists [FinalSummaryMessage (stats st3); LogPathMessage path]
      |exists [FinalSummaryMessage (stats st3)]];
      (split; [reflexivity|]);
      (split; [apply step_quiet; reflexivity|]); split; reflexivity. }
  destruct logFilePath as [path|].
  - destruct (appendSummary_frame env st2)
      as (r3 & st3 & e3 & E3 & S3 & T3 & L3 & X3 & A3 & R3).
    destruct r3 as [[]|err].
    + rewrite (bind_returned _ _ _ _ _ E3).
      destruct (P st3) as (st' & evs & E & S & Q & T).
      exists (Returned tt), st', (evs ++ e3 ++ a2 ++ g1 ++ [EndTimeSet (clockAtEnd env)]).
      split; [exact E|].
      split; [exact (step_trans _ _ _ _ _ _ (step_trans _ _ _ _ _ _ S012 S3) S)|].
      split; [now rewrite T, T3|].
      split; [discriminate|]. split; [discriminate|].
      split; [reflexivity|]. intros _ _ Hstart.
      rewrite (R3 eq_refl).
      rewrite blocksOf_app, (blocksOf_quiet evs Q), app_nil_r.
      rewrite (blocksOf_app [_; _]), B2.
      cbn [app blocksOf rev appendedBlocks map shapeOf].
      rewrite Hidx, Hstart, Hlogs, skipn_app, skipn_all, Nat.sub_diag.
      reflexivity.
    + rewrite (bind_thrown _ _ _ _ _ E3).
      exists (Thrown err), st3, (e3 ++ a2 ++ g1 ++ [EndTimeSet (clockAtEnd env)]).
      split; [reflexivity|].
      split; [exact (step_trans _ _ _ _ _ _ S012 S3)|].
      split; [now rewrite T3|].
      split.
      { intros e [= <-]. destruct (X3 err eq_refl) as [-> Hn].
        split; [discriminate|]. split; [reflexivity|]. split; [exact Hn|].
        rewrite L3, L2, L1. reflexivity. }
      split; [discriminate|].
      split; [intros _ Ha; now apply A3|intros _ F; discriminate F].
  - rewrite (bind_returned _ _ _ _ _ (eq_refl : ret tt st2 = (Returned tt, st2))).
    destruct (P st2) as (st' & evs & E & S & Q & T).
    exists (Returned tt), st', (evs ++ a2 ++ g1 ++ [EndTimeSet (clockAtEnd env)]).
    split; [exact E|].
    split; [exact (step_trans _ _ _ _ _ _ S012 S)|].
    split; [now rewrite T|].
    split; [discriminate|].
    split.
    { intros _. split; [reflexivity|].
      now rewrite blocksOf_app, (blocksOf_quiet evs Q), B2. }
    split; intros F; now elim F.
Qed.

(** *** The completion sequence, event by event *)

Lemma refresh_asks_nothing env st :
  refreshSteps env = [] -> refreshModifiedFilesCount env st = (Returned tt, st).
Proof.
  unfold refreshSteps, refreshModifiedFilesCount.
  destruct (workspaceFolders env) as [|workspaceRoot others]; [reflexivity|].
  destruct (negb (isGitRepository env) || jseqb workspaceRoot []);
    [reflexivity|discriminate].
Qed.

Lemma refresh_asks_git env st :
  refreshSteps env <> [] ->
  refreshModifiedFilesCount env st
  = (Returned tt,
     mkState
       (match gitModifiedCount env (gitCalls st) with
        | Some n => setModifiedFiles n (stats st)
        | None => stats st
        end)
       (hookLogs st) (lastHookLogIndex st) (latestResult st)
       (S (gitCalls st)) (appendCalls st)
       (GitStatus (gitModifiedCount env (gitCalls st)) :: trace st)).
Proof.
  unfold refreshSteps, refreshModifiedFilesCount.
  destruct (workspaceFolders env) as [|workspaceRoot others]; [intros F; now elim F|].
  destruct (negb (isGitRepository env) || jseqb workspaceRoot []);
    [intros F; now elim F|].
  intros _. unfold bind, get, update, emit. cbn.
  now destruct (gitModifiedCount env (gitCalls st)).
Qed.

Lemma bind_returns {A B} (m : M A) (k : A -> M B) st b st' :
  bind m k st = (Returned b, st') ->
  exists a st1, m st = (Returned a, st1) /\ k a st1 = (Returned b, st').
Proof.
  unfold bind. destruct (m st) as [[a|e] st1]; [|discriminate].
  intros H. now exists a, st1.
Qed.

Lemma appendLogSection_returns env block st st' :
  appendLogSection env block st = (Returned tt, st') ->
  st' = mkState (stats st) (hookLogs st) (lastHookLogIndex st) (latestResult st)
          (gitCalls st) (S (appendCalls st)) (LogAppended block :: trace st).
Proof.
  unfold appendLogSection, bind, get, update, emit. cbn.
  destruct (appendFile env (appendCalls st)); cbn; [|discriminate].
  now intros [= <-].
Qed.

Lemma completeBatch_exact env st st' :
  completeBatch env (hookConfigs env) (logFile env) st = (Returned tt, st') ->
  (logFile env <> None -> lastHookLogIndex st = length (hookLogs st)) ->
  trace st' = rev (CompletionSpec.completionEvents env st') ++ trace st
  /\ endTime (stats st') = Some (clockAtEnd env)
  /\ latestResult st'
     = Some (mkResult (stats st') (clockAtEnd env - startTime (stats st'))
               (clockAtEnd env)).
Proof.
  unfold completeBatch.
  rewrite (bind_returned _ _ _ _ _ (update_runs _ _)).
  rewrite (bind_returned _ _ _ _ _ (emit_adds _ _)).
  set (st0 := addEvents [EndTimeSet (clockAtEnd env)]
                (withStats (setEndTime (clockAtEnd env)) st)).
  assert (E1 : exists st1 answers,
            refreshModifiedFilesCount env st0 = (Returned tt, st1)
            /\ trace st1 = answers ++ trace st0
            /\ answers
               = match refreshSteps env with
                 | [] => []
                 | _ :: _ => [GitStatus (gitModifiedCount env (pred (gitCalls st1)))]
                 end
            /\ endTime (stats st1) = Some (clockAtEnd env)
            /\ hookLogs st1 = hookLogs st
            /\ lastHookLogIndex st1 = lastHookLogIndex st
            /\ appendCalls st1 = appendCalls st).
  { destruct (refreshSteps env) as [|c cs] eqn:Er.
    - exists st0, []. rewrite (refresh_asks_nothing env st0 Er). repeat split.
    - eexists. exists [GitStatus (gitModifiedCount env (gitCalls st))].
      rewrite (refresh_asks_git env st0) by (rewrite Er; discriminate).
      split; [reflexivity|]. cbn.
      split; [reflexivity|]. split; [reflexivity|].
      split; [now destruct (gitModifiedCount env (gitCalls st))|]. repeat split. }
  destruct E1 as (st1 & answers & E1 & T1 & A1 & D1 & H1 & I1 & C1).
  rewrite (bind_returned _ _ _ _ _ E1).
  rewrite (bind_returned _ _ _ _ _ (runHooksWithLogging_exact _ _ _ _ _)).
  match goal with
  | |- context [bind _ _ ?s] => set (st2 := s)
  end.
  intros E Hindex.
  assert (E3 : exists st3 appended,
            match logFile env with
            | Some _ => appendSummary env
            | None => ret tt
            end st2 = (Returned tt, st3)
            /\ trace st3 = appended ++ trace st2
            /\ appended
               = match logFile env with
                 | Some _ =>
                     [LogAppended (SummaryBlock (stats st1));
                      LogAppended
                        (HookRunBlock afterBatch
                           (hookLines env (hookConfigs env) afterBatch None))]
                 | None => []
                 end
            /\ stats st3 = stats st1
            /\ gitCalls st3 = gitCalls st1
            /\ latestResult st3 = latestResult st1).
  { apply bind_returns in E as (u & st3 & E3 & _). destruct u.
    destruct (logFile env) as [path|] eqn:El.
    - exists st3,
        [LogAppended (SummaryBlock (stats st1));
         LogAppended
           (HookRunBlock afterBatch
              (hookLines env (hookConfigs env) afterBatch None))].
      split; [exact E3|].
      unfold appendSummary in E3.
      apply bind_returns in E3 as (slice & sa & Ea & E3).
      injection Ea as <- <-.
      apply bind_returns in E3 as ([] & sb & Eb & E3).
      apply appendLogSection_returns in Eb. subst sb.
      apply bind_returns in E3 as (sc & sd & Ec & E3).
      injection Ec as <- <-.
      apply appendLogSection_returns in E3. subst st3.
      cbn [trace stats gitCalls latestResult hookLogs lastHookLogIndex
           markHookLogsWritten st2].
      rewrite I1, H1, (Hindex ltac:(discriminate)), skipn_app, skipn_all,
        Nat.sub_diag.
      split; [reflexivity|]. repeat split.
    - injection E3 as <-. exists st2, []. repeat split. }
  destruct E3 as (st3 & appended & E3 & T3 & A3 & S3 & G3 & L3).
  rewrite (bind_returned _ _ _ _ _ E3) in E.
  revert E.
  unfold Dashboard.notifyDashboardResult, bind, get, update, emit, ret.
  cbn [fst snd].
  rewrite S3, D1.
  unfold CompletionSpec.completionEvents.
  destruct (activePanel env), (logFile env) as [path|]; cbn;
    intros [= <-]; cbn; rewrite ?S3, ?D1, ?G3, T3, A3; cbn [st2 trace];
    rewrite T1, A1; cbn [st0 trace addEvents];
    (split; [|split; reflexivity]);
    rewrite ?rev_app_distr; cbn [rev app]; rewrite ?rev_app_distr;
    cbn [rev app]; rewrite <- ?app_assoc; cbn [app];
    destruct (refreshSteps env); reflexivity.
Qed.

(** *** The whole run *)

Lemma openBatch_frame env files taskDescription st0 :
  exists r st' evs,
    openBatch env files taskDescription st0 = (r, st')
    /\ trace st' = evs ++ trace st0
    /\ (refreshSteps env = [] -> forallb notGitStatus evs = true)
    /\ modifiedFiles (stats st') = lastGitAnswer evs 0
    /\ counters (stats st') = counters (initialStats env files)
    /\ latestResult st' = latestResult st0
    /\ (forall e, r = Thrown e ->
          logFile env <> None /\ e = AppendFileRejected
          /\ exists n, appendFile env n = false)
    /\ (forall p, r = Returned p -> p = logFile env)
    /\ (logFile env = None -> r = Returned None /\ blocksOf evs = [])
    /\ (logFile env <> None -> (forall n, appendFile env n = true) ->
          r = Returned (logFile env))
    /\ (logFile env <> None -> r = Returned (logFile env) ->
          lastHookLogIndex st' = length (hookLogs st')
          /\ (lastHookLogIndex st0 = length (hookLogs st0) ->
              map shapeOf (blocksOf evs)
              = [HookRunShape beforeBatch
                   (hookLines env (hookConfigs env) beforeBatch None)])).
Proof.
  unfold openBatch. cbv zeta.
  fold (initialStats env files).
  rewrite (bind_returned _ _ _ _ _ (update_runs _ _)).
  set (st1 := withStats (fun _ => initialStats env files) st0).
  assert (E2 : exists c,
    createBatchLogFile env (hookConfigs env) taskDescription st1
    = (Returned (logFile env), addEvents [c] st1)
    /\ quietEvent c = true).
  { unfold createBatchLogFile, bind, get, emit, update, ret. cbn.
    destruct (logFile env); eexists; (split; [reflexivity|]); reflexivity. }
  destruct E2 as (c & E2 & Qc).
  rewrite (bind_returned _ _ _ _ _ E2).
  set (st2 := addEvents [c] st1).
  destruct (refresh_frame env st2)
    as (st3 & g3 & E3 & S3 & G3 & C3 & H3 & I3 & L3).
  rewrite (bind_returned _ _ _ _ _ E3).
  destruct (hooks_frame env (hookConfigs env) beforeBatch None st3)
    as (st4 & a4 & E4 & S4 & Q4 & T4 & H4 & I4 & L4).
  rewrite (bind_returned _ _ _ _ _ E4).
  assert (S2 : step env st1 st2 [c]).
  { apply step_quiet; [reflexivity|cbn; now rewrite Qc|reflexivity]. }
  pose proof (step_trans _ _ _ _ _ _ (step_trans _ _ _ _ _ _ S2 S3) S4)
    as (T & G & M).
  cbn [trace stats withStats st1 initialStats modifiedFiles] in T, M.
  assert (C4 : counters (stats st4) = counters (initialStats env files)).
  { now rewrite T4, C3. }
  assert (B4 : blocksOf (a4 ++ g3 ++ [c]) = []).
  { rewrite !blocksOf_app, (blocksOf_quiet a4 Q4), (blocksOf_git _ G3).
    rewrite blocksOf_quiet; [reflexivity|cbn; now rewrite Qc]. }
  assert (Hlogs : hookLogs st4
                  = hookLogs st0 ++ hookLines env (hookConfigs env) beforeBatch None).
  { now rewrite H4, H3. }
  assert (Hidx : lastHookLogIndex st4 = lastHookLogIndex st0).
  { now rewrite I4, I3. }
  assert (L04 : latestResult st4 = latestResult st0).
  { now rewrite L4, L3. }
  destruct (logFile env) as [path|] eqn:El.
  - assert (E0 : takeHookLogSlice st4
                 = (Returned (skipn (lastHookLogIndex st4) (hookLogs st4)),
                    markHookLogsWritten st4)) by reflexivity.
    unfold bind at 1. rewrite (bind_returned _ _ _ _ _ E0).
    match goal with
    | |- context [appendLogSection env ?b ?s] =>
        destruct (appendLogSection_frame env b s)
          as (r5 & st5 & E5 & S5 & H5 & I5 & L5 & T5)
    end.
    cbn [stats trace latestResult hookLogs lastHookLogIndex appendCalls
         markHookLogsWritten] in S5, T5, L5, H5, I5.
    cbv beta. rewrite E5. cbn [fst snd].
    destruct T5 as [[-> T5]|(-> & T5 & F5)].
    + exists (Returned (Some path)), st5. eexists.
      split; [reflexivity|].
      split; [rewrite T5, T; now rewrite app_comm_cons|].
      split.
      { intros Hg. cbn [forallb notGitStatus isGitStatus negb andb].
        now apply G. }
      split; [rewrite S5; exact M|]. split; [now rewrite S5|].
      split; [now rewrite L5|]. split; [discriminate|].
      split; [now intros p [= <-]|]. split; [discriminate|].
      split; [reflexivity|].
      intros _ _. split; [now rewrite I5, H5|].
      intros Hstart. rewrite blocksOf_cons, B4.
      cbn [app blocksOf rev appendedBlocks map shapeOf].
      rewrite Hidx, Hstart, Hlogs, skipn_app, skipn_all, Nat.sub_diag.
      reflexivity.
    + exists (Thrown AppendFileRejected), st5, (a4 ++ g3 ++ [c]).
      split; [reflexivity|]. split; [now rewrite T5|].
      split; [exact G|]. split; [rewrite S5; exact M|].
      split; [now rewrite S5|]. split; [now rewrite L5|].
      split.
      { intros e [= <-]. split; [discriminate|]. split; [reflexivity|].
        now exists (appendCalls st4). }
      split; [discriminate|]. split; [discriminate|].
      split; [intros _ Ha; now rewrite Ha in F5|intros _ F; discriminate F].
  - rewrite (bind_returned _ _ _ _ _ (eq_refl : ret tt st4 = (Returned tt, st4))).
    exists (Returned None), st4, (a4 ++ g3 ++ [c]).
    split; [reflexivity|]. split; [exact T|]. split; [exact G|].
    split; [exact M|]. split; [exact C4|]. split; [exact L04|].
    split; [discriminate|]. split; [now intros p [= <-]|].
    split; [now split|]. split; intros F; now elim F.
Qed.

Lemma counted_from os a b s' :
  counters a = counters b -> counted os a s' -> counted os b s'.
Proof.
  intros E (K1 & K2 & K3 & K4 & K5 & K6 & K7).
  apply counters_fields in E as (E1 & E2 & E3 & E4 & E5 & E6 & E7).
  unfold counted. rewrite <- E1, <- E2, <- E3, <- E4, <- E5, <- E6, <- E7.
  repeat split; assumption.
Qed.

Lemma counted_to os s a b :
  counters a = counters b -> counted os s a -> counted os s b.
Proof.
  intros E (K1 & K2 & K3 & K4 & K5 & K6 & K7).
  apply counters_fields in E as (E1 & E2 & E3 & E4 & E5 & E6 & E7).
  unfold counted. rewrite <- E1, <- E2, <- E3, <- E4, <- E5, <- E6, <- E7.
  repeat split; assumption.
Qed.

Lemma counted_setEndTime os s s' t :
  counted os s s' -> counted os (setEndTime t s) (setEndTime t s').
Proof.
  intros (K1 & K2 & K3 & K4 & K5 & K6 & K7).
  unfold counted, setEndTime. cbn. repeat split; assumption.
Qed.

Lemma same_events (a b c : list event) : a ++ c = b ++ c -> a = b.
Proof. apply app_inv_tail. Qed.

Lemma runBatch_frame env cline files taskDescription st0 :
  exists r st' evs n finished,
    runBatch env cline files taskDescription st0 = (r, st')
    /\ trace st' = evs ++ trace st0
    /\ (refreshSteps env = [] -> forallb notGitStatus evs = true)
    /\ modifiedFiles (stats st') = lastGitAnswer evs 0
    /\ n <= length files
    /\ counted (firstn n (outcomes env cline taskDescription files 0))
         (mkStats (Z.of_nat (length files)) 0 0 0 0 0 (clockAtStart env) finished)
         (stats st')
    /\ (r = Returned tt -> finished = Some (clockAtEnd env))
    /\ (forall e, r = Thrown e ->
          logFile env <> None /\ loggingError env cline e
          /\ latestResult st' = latestResult st0)
    /\ (logFile env = None -> r = Returned tt /\ blocksOf evs = [])
    /\ (logFile env <> None -> (forall n, appendFile env n = true) ->
          (forall j, getTaskMessages (cline j) <> None) -> r = Returned tt)
    /\ (logFile env <> None -> r = Returned tt ->
          lastHookLogIndex st0 = length (hookLogs st0) ->
          map shapeOf (blocksOf evs)
          = expectedLog env cline taskDescription files n)
    /\ (forall k, stopsAfter env 0 k files -> r = Returned tt -> n = k)
    /\ (r = Returned tt ->
          exists before,
            evs = rev (CompletionSpec.completionEvents env st')
                  ++ ProgressCompleted :: before
            /\ forallb notCompleted before = true
            /\ latestResult st'
               = Some (mkResult (stats st')
                         (clockAtEnd env - startTime (stats st'))
                         (clockAtEnd env))).
Proof.
  unfold runBatch. cbv zeta.
  destruct (openBatch_frame env files taskDescription st0)
    as (r1 & st1 & e1 & E1 & T1 & G1 & M1 & C1 & L1 & X1 & P1 & N1 & A1 & R1).
  assert (K0 : counted (firstn 0 (outcomes env cline taskDescription files 0))
                 (initialStats env files) (stats st1)).
  { apply (counted_to _ _ (initialStats env files)); [now rewrite C1|].
    apply counted_nil. }
  destruct r1 as [p|err].
  2: { rewrite (bind_thrown _ _ _ _ _ E1).
       exists (Thrown err), st1, e1, 0, None.
       split; [reflexivity|]. split; [exact T1|]. split; [exact G1|].
       split; [exact M1|]. split; [lia|]. split; [exact K0|].
       split; [discriminate|].
       split.
       { intros e [= <-]. destruct (X1 err eq_refl) as (Hl & -> & Hn).
         split; [exact Hl|]. split; [now left|exact L1]. }
       split.
       { intros Hl. destruct (N1 Hl) as [F _]. discriminate F. }
       split.
       { intros Hl Ha _. discriminate (A1 Hl Ha). }
       split; [intros _ F; discriminate F|].
       split; [intros k _ F; discriminate F|intros F; discriminate F]. }
  rewrite (bind_returned _ _ _ _ _ E1).
  pose proof (P1 p eq_refl) as ->.
  destruct (fileLoop_frame env cline (hookConfigs env) taskDescription
              (logFile env) (length files) files 0 st1)
    as (r2 & st2 & e2 & n & E2 & S2 & Hn & K2 & L2 & X2 & N2 & A2 & R2 & Q2).
  assert (K02 : counted (firstn n (outcomes env cline taskDescription files 0))
                  (initialStats env files) (stats st2)).
  { apply (counted_from _ (stats st1)); [|exact K2].
    apply counters_fields. destruct K0 as (B1 & B2 & B3 & B4 & B5 & B6 & B7).
    cbn [firstn length successes failures filter Z.of_nat] in B4, B5, B6, B7.
    repeat split; try assumption; lia. }
  assert (O : forall st' evs, step env st1 st' evs ->
              trace st' = (evs ++ e1) ++ trace st0
              /\ (refreshSteps env = [] -> forallb notGitStatus (evs ++ e1) = true)
              /\ modifiedFiles (stats st') = lastGitAnswer (evs ++ e1) 0).
  { intros st' evs (T & G & M). split; [|split].
    - rewrite T, T1. now rewrite app_assoc.
    - intros H. rewrite forallb_app. now rewrite (G H), (G1 H).
    - now rewrite lastGitAnswer_app, M, M1. }
  destruct r2 as [[]|err].
  2: { rewrite (bind_thrown _ _ _ _ _ E2).
       destruct (O _ _ S2) as (T & G & M).
       exists (Thrown err), st2, (e2 ++ e1), n, None.
       split; [reflexivity|]. split; [exact T|]. split; [exact G|].
       split; [exact M|]. split; [exact Hn|]. split; [exact K02|].
       split; [discriminate|].
       split.
       { intros e [= <-]. destruct (X2 err eq_refl) as (Hl & He).
         split; [exact Hl|]. split; [exact He|]. now rewrite L2. }
       split.
       { intros Hl. destruct (N2 Hl) as [F _]. discriminate F. }
       split.
       { intros Hl Ha Hm. discriminate (A2 Hl Ha Hm). }
       split; [intros _ F; discriminate F|].
       split; [intros k _ F; discriminate F|intros F; discriminate F]. }
  rewrite (bind_returned _ _ _ _ _ E2).
  rewrite (bind_returned _ _ _ _ _ (emit_adds _ _)).
  set (st3 := addEvents [ProgressCompleted] st2).
  assert (S3 : step env st2 st3 [ProgressCompleted]).
  { apply step_quiet; reflexivity. }
  destruct (completeBatch_frame env (hookConfigs env) (logFile env) st3)
    as (r4 & st4 & e4 & E4 & S4 & C4 & X4 & N4 & A4 & R4).
  rewrite E4.
  destruct (O _ _ (step_trans _ _ _ _ _ _ (step_trans _ _ _ _ _ _ S2 S3) S4))
    as (T & G & M).
  exists r4, st4, ((e4 ++ [ProgressCompleted] ++ e2) ++ e1), n,
    (Some (clockAtEnd env)).
  split; [reflexivity|]. split; [exact T|]. split; [exact G|].
  split; [exact M|]. split; [exact Hn|].
  split.
  { apply (counted_to _ _ (setEndTime (clockAtEnd env) (stats st2)));
      [now rewrite C4|].
    exact (counted_setEndTime _ _ _ (clockAtEnd env) K02). }
  split; [reflexivity|].
  split.
  { intros e Hr. destruct (X4 e Hr) as (Hl & -> & Ha & L4).
    split; [exact Hl|]. split; [now left|].
    rewrite L4. cbn [latestResult st3 addEvents]. now rewrite L2. }
  split.
  { intros Hl. destruct (N4 Hl) as [-> B4]. split; [reflexivity|].
    destruct (N1 Hl) as [_ B1]. destruct (N2 Hl) as [_ B2].
    rewrite !blocksOf_app, B1, B2, B4. reflexivity. }
  split.
  { intros Hl Ha Hm. now apply A4. }
  split.
  { intros Hl Hr Hstart. destruct (R1 Hl eq_refl) as (I1 & B1).
    destruct (R2 Hl eq_refl I1) as (I2 & B2).
    rewrite !blocksOf_app, !map_app, (B1 Hstart), B2, (R4 Hl Hr I2).
    unfold expectedLog. cbn [blocksOf rev app appendedBlocks map].
    now rewrite app_nil_r. }
  split; [intros k Hk _; now apply Q2|].
  intros ->.
  assert (Hindex : logFile env <> None ->
                   lastHookLogIndex st3 = length (hookLogs st3)).
  { intros Hl. destruct (R1 Hl eq_refl) as (I1 & _).
    now destruct (R2 Hl eq_refl I1) as (I2 & _). }
  destruct (completeBatch_exact env st3 st4 E4 Hindex) as (T4 & D4 & L4).
  exists (e2 ++ e1). split; [|split; [|exact L4]].
  - destruct S4 as (T4' & _). rewrite T4' in T4.
    apply same_events in T4. rewrite T4.
    now rewrite <- !app_assoc.
  - destruct (openBatch_runs env files taskDescription st0)
      as (r1' & st1' & e1' & E1' & T1' & _ & _ & _ & Q1' & _).
    rewrite E1 in E1'. injection E1' as <- <-.
    rewrite T1 in T1'. apply same_events in T1'. subst e1'.
    destruct (fileLoop_runs env cline (hookConfigs env) taskDescription
                (logFile env) (length files) files 0 st1)
      as (r2' & st2' & e2' & n' & E2' & _ & T2' & _ & _ & Q2' & _).
    rewrite E2 in E2'. injection E2' as <- <-.
    destruct S2 as (T2 & _). rewrite T2 in T2'.
    apply same_events in T2'. subst e2'.
    now rewrite forallb_app, Q1', Q2'.
Qed.

End RunFrame.
(* ================================================================= *)
(** ** The run: its log, its statistics, its errors *)

Section RunFacts.

Import HookRunner ClineIntegration BatchProcessor RunSpec HookSpec LogSpec
  Accounting.

Lemma outcomes_length env cline taskDescription files :
  forall i, length (outcomes env cline taskDescription files i) = length files.
Proof.
  induction files as [|file rest IH]; intros i; [reflexivity|].
  cbn [outcomes length]. now rewrite IH.
Qed.

Lemma refreshSteps_outside_git env :
  isGitRepository env = false -> refreshSteps env = [].
Proof.
  intros H. unfold refreshSteps. rewrite H.
  now destruct (workspaceFolders env).
Qed.

End RunFacts.

(** X16.  The log file of a run.  When the log file is open, every
    append resolves and the agent hands over its messages, a run that stops
    after [k] files appends, after the header, exactly: the block of the
    [beforeBatch] hooks; one task block per processed file, in the order of
    the files, with the label of the file as the loop shows it
    ([asRelativePath(file)], which in a workspace of several folders has
    the name of the folder first), the outcome of its agent call, the
    messages of the agent and the hook lines of that iteration
    ([beforeFile], [onError] when the call threw, [afterFile], each with
    the label that [asRelativePath(file, false)] gives); the block of the
    [afterBatch] hooks; the summary.  So every hook line is written once,
    in the block of the step that produced it. *)
Theorem run_log_has_one_block_per_step (env : Env) (cline : nat -> ClineAPI)
    (files : list jsstring) (taskDescription : jsstring)
    (previous : option DashboardResult) (k : nat)
    (Hlog : logFile env <> None)
    (Happend : forall n, appendFile env n = true)
    (Hmessages : forall i, getTaskMessages (cline i) <> None)
    (Hstop : RunSpec.stopsAfter env 0 k files) :
  let final :=
    BatchProcessor.runBatch env cline files taskDescription
      (BatchProcessor.initialState previous) in
  fst final = Returned tt
  /\ map LogSpec.shapeOf (LogSpec.appendedBlocks (RunSpec.history (snd final)))
     = LogSpec.expectedLog env cline taskDescription files k.
Proof.
  cbv zeta.
  destruct (runBatch_frame env cline files taskDescription
              (BatchProcessor.initialState previous))
    as (r & st' & evs & n & e & E & T & _ & _ & _ & _ & _ & _ & _ & A & R & Q & _).
  pose proof (A Hlog Happend Hmessages) as ->.
  rewrite E. cbn [fst snd]. split; [reflexivity|].
  rewrite <- (Q k Hstop eq_refl), <- (R Hlog eq_refl eq_refl).
  unfold RunSpec.history, LogSpec.blocksOf. rewrite T.
  cbn [trace BatchProcessor.initialState]. now rewrite app_nil_r.
Qed.

Lemma run_log_has_one_block_per_step_witness :
  fst (BatchProcessor.runBatch Examples.twoFolders
         (fun i => match i with 0 => Examples.rejecting | _ => Examples.completing end)
         [str "/ws/a.ts"; str "/ws/b.ts"; str "/ws/c.ts"] (str "add comments")
         (BatchProcessor.initialState None))
  = Returned tt
  /\ map LogSpec.shapeOf
       (LogSpec.appendedBlocks
          (RunSpec.history
             (snd (BatchProcessor.runBatch Examples.twoFolders
                     (fun i => match i with
                               | 0 => Examples.rejecting
                               | _ => Examples.completing
                               end)
                     [str "/ws/a.ts"; str "/ws/b.ts"; str "/ws/c.ts"]
                     (str "add comments") (BatchProcessor.initialState None)))))
     = LogSpec.expectedLog Examples.twoFolders
         (fun i => match i with 0 => Examples.rejecting | _ => Examples.completing end)
         (str "add comments")
         [str "/ws/a.ts"; str "/ws/b.ts"; str "/ws/c.ts"] 3
  /\ nth_error
       (LogSpec.expectedLog Examples.twoFolders
          (fun i => match i with 0 => Examples.rejecting | _ => Examples.completing end)
          (str "add comments")
          [str "/ws/a.ts"; str "/ws/b.ts"; str "/ws/c.ts"] 3) 1
     = Some
         (LogSpec.TaskShape (str "ws/a.ts") failed []
            [LineStart beforeFile (str "a.ts") [];
             LineCompleted beforeFile (str "a.ts");
             LineStart onError (str "a.ts") [str "seen"; str "failed"];
             LineCompleted onError (str "a.ts");
             LineStart afterFile (str "a.ts") [];
             LineCompleted afterFile (str "a.ts")]).
Proof.
  unshelve epose proof
    (run_log_has_one_block_per_step Examples.twoFolders
       (fun i => match i with 0 => Examples.rejecting | _ => Examples.completing end)
       [str "/ws/a.ts"; str "/ws/b.ts"; str "/ws/c.ts"] (str "add comments")
       None 3 _ _ _ _) as (Hr & Hb).
  - discriminate.
  - intros n. reflexivity.
  - intros i. destruct i; discriminate.
  - split; [intros j _; reflexivity|]. split; [cbn; lia|cbn; lia].
  - split; [exact Hr|]. split; [exact Hb|]. vm_compute. reflexivity.
Defined.

(** X17.  The statistics at the end of a run.  When logging cannot
    reject, a run over [files] that stops after [k] of them ends with:
    [totalFiles] the number of files, [processedFiles = k],
    [successfulFiles] the number of the first [k] agent calls that
    returned, [failedFiles] and [errorCount] both the number of those that
    threw, [modifiedFiles] the latest number that git answered during the
    run (0 when it answered none), [startTime] and [endTime] the two
    readings of the clock. *)
Theorem run_final_statistics (env : Env) (cline : nat -> ClineAPI)
    (files : list jsstring) (taskDescription : jsstring)
    (previous : option DashboardResult) (k : nat)
    (Hlog : RunSpec.loggingResolves env cline)
    (Hstop : RunSpec.stopsAfter env 0 k files) :
  let final :=
    snd (BatchProcessor.runBatch env cline files taskDescription
           (BatchProcessor.initialState previous)) in
  let called := firstn k (LogSpec.outcomes env cline taskDescription files 0) in
  stats final
  = mkStats (Z.of_nat (length files)) (Z.of_nat k)
      (Z.of_nat (LogSpec.successes called)) (Z.of_nat (LogSpec.failures called))
      (LogSpec.lastGitAnswer (trace final) 0)
      (Z.of_nat (LogSpec.failures called))
      (clockAtStart env) (Some (clockAtEnd env)).
Proof.
  cbv zeta.
  destruct (runBatch_frame env cline files taskDescription
              (BatchProcessor.initialState previous))
    as (r & st' & evs & n & e & E & T & _ & M & Hn & K & F & _ & N & A & _ & Q & _).
  assert (Hr : r = Returned tt).
  { destruct Hlog as [Hl|[Ha Hm]]; [now apply N|].
    destruct (logFile env) eqn:El; [|now apply N].
    now apply A. }
  subst r. rewrite (F eq_refl) in K. rewrite (Q k Hstop eq_refl) in K.
  rewrite E. cbn [snd]. rewrite T.
  cbn [trace BatchProcessor.initialState]. rewrite app_nil_r.
  destruct K as (K1 & K2 & K3 & K4 & K5 & K6 & K7).
  cbn [totalFiles startTime endTime processedFiles successfulFiles failedFiles
       errorCount] in K1, K2, K3, K4, K5, K6, K7.
  rewrite length_firstn, outcomes_length in K4.
  destruct Hstop as (_ & Hk & _).
  rewrite Nat.min_l in K4 by exact Hk.
  destruct (stats st'); cbn in *. now subst.
Qed.

Lemma run_final_statistics_witness :
  stats (snd (BatchProcessor.runBatch Examples.firstFails
                (fun i => match i with
                          | 0 => Examples.rejecting
                          | _ => Examples.completing
                          end)
                [str "/ws/a.ts"; str "/ws/b.ts"; str "/ws/c.ts"]
                (str "add comments") (BatchProcessor.initialState None)))
  = mkStats 3 3 2 1 0 1 1000 (Some 9000%Z).
Proof.
  unshelve epose proof
    (run_final_statistics Examples.firstFails
       (fun i => match i with 0 => Examples.rejecting | _ => Examples.completing end)
       [str "/ws/a.ts"; str "/ws/b.ts"; str "/ws/c.ts"] (str "add comments")
       None 3 _ _) as H.
  - right. split; [intros n; reflexivity|intros i; destruct i; discriminate].
  - split; [intros j _; reflexivity|]. split; [cbn; lia|cbn; lia].
  - cbv zeta in H. rewrite H. reflexivity.
Defined.

(** X18.  [modifiedFiles] and git.  At the end of every call of
    [startBatchProcessing], also one that throws or returns early,
    [modifiedFiles] is the number that the latest successful [git status]
    of the run gave, and 0 when none did: a [git status] that fails leaves
    the count as it was.  Outside a git repository the run never asks git,
    and [modifiedFiles] is 0. *)
Theorem modifiedFiles_is_the_latest_git_answer (env : Env)
    (previous : option DashboardResult) :
  let final :=
    snd (BatchProcessor.startBatchProcessing env
           (BatchProcessor.initialState previous)) in
  modifiedFiles (stats final) = LogSpec.lastGitAnswer (trace final) 0
  /\ (isGitRepository env = false ->
      forallb LogSpec.notGitStatus (trace final) = true
      /\ modifiedFiles (stats final) = 0%Z).
Proof.
  cbv zeta.
  destruct (startBatchProcessing_cases env (BatchProcessor.initialState previous))
    as [E|[E|(cline & files & taskDescription & _ & E)]]; rewrite E.
  - cbn. split; [reflexivity|]. intros _. split; reflexivity.
  - cbn. split; [reflexivity|]. intros _. split; reflexivity.
  - destruct (runBatch_frame env cline files taskDescription
                (BatchProcessor.initialState previous))
      as (r & st' & evs & n & e & E' & T & G & M & _).
    rewrite E'. cbn [snd]. rewrite T.
    cbn [trace BatchProcessor.initialState]. rewrite app_nil_r.
    split; [exact M|]. intros Hg.
    pose proof (G (refreshSteps_outside_git env Hg)) as Hn.
    split; [exact Hn|]. rewrite M. now apply lastGitAnswer_notGit.
Qed.
(* ================================================================= *)
(** ** The dashboard panels *)

Section PanelFacts.

Import DashboardPanels.

Lemma performAll_app a b d :
  performAll (a ++ b) d
  = (fst (performAll b (fst (performAll a d))),
     snd (performAll a d) ++ snd (performAll b (fst (performAll a d)))).
Proof.
  revert d. induction a as [|x a IH]; intros d.
  - cbn. now destruct (performAll b d).
  - cbn [app performAll]. destruct (perform x d) as [d1 p1].
    rewrite IH. destruct (performAll a d1) as [d2 p2]. cbn [fst snd].
    now rewrite app_assoc.
Qed.

Lemma performAll_latest acts :
  forall d,
    latestResult (fst (performAll acts d)) = latestNotified acts (latestResult d)
    /\ panelsCreated (fst (performAll acts d))
       = panelsCreated d + length (filter isOpenDashboard acts).
Proof.
  induction acts as [|a acts IH]; intros d.
  - cbn. split; [reflexivity|lia].
  - cbn [performAll]. destruct (perform a d) as [d1 p1] eqn:E1.
    specialize (IH d1). destruct (performAll acts d1) as [d2 p2].
    cbn [fst] in *. destruct IH as [IH1 IH2]. rewrite IH1, IH2.
    destruct a; cbn in E1; injection E1 as <- _; cbn; split;
      try reflexivity; lia.
Qed.

Lemma performAll_no_panel acts :
  forall d, activePanel d = None -> forallb opensNoPanel acts = true ->
    activePanel (fst (performAll acts d)) = None.
Proof.
  induction acts as [|a acts IH]; intros d Hd Ha; [exact Hd|].
  cbn [forallb] in Ha. apply andb_prop in Ha as [H1 H2].
  cbn [performAll]. destruct (perform a d) as [d1 p1] eqn:E1.
  specialize (IH d1). destruct (performAll acts d1) as [d2 p2]. cbn [fst] in *.
  apply IH; [|exact H2].
  destruct a; try discriminate H1; cbn in E1; injection E1 as <- _;
    try reflexivity; exact Hd.
Qed.

Lemma performAll_active_open acts :
  forall d open,
    (forall p, activePanel d = Some p -> In p open) ->
    forall p, activePanel (fst (performAll acts d)) = Some p ->
      In p (openPanels acts (panelsCreated d) open).
Proof.
  induction acts as [|a acts IH]; intros d open Hd p Hp.
  - now apply Hd.
  - cbn [performAll] in Hp. destruct (perform a d) as [d1 p1] eqn:E1.
    pose proof (IH d1) as IH1. destruct (performAll acts d1) as [d2 p2].
    cbn [fst] in *.
    destruct a; cbn in E1; injection E1 as <- _; cbn [openPanels].
    + apply (IH1 (panelsCreated d :: open)); [|exact Hp].
      cbn. intros q [= <-]. now left.
    + apply (IH1 (filter (fun q => negb (Nat.eqb q panel)) open)); [|exact Hp].
      cbn. discriminate.
    + now apply (IH1 open).
    + apply (IH1 open); [|exact Hp]. exact Hd.
Qed.

End PanelFacts.

(** X20.  A dashboard that is opened shows the latest result.
    After any sequence of openings, disposals, requests and notifications,
    [openDashboard] makes the new panel the active one and posts to it,
    once, the result of the latest [notifyDashboardResult]; it posts
    nothing when no run has notified yet. *)
Theorem openDashboard_posts_the_latest_result
    (acts : list DashboardPanels.action) :
  let before := fst (DashboardPanels.performAll acts DashboardPanels.loaded) in
  let panel := length (filter DashboardPanels.isOpenDashboard acts) in
  DashboardPanels.activePanel (fst (DashboardPanels.openDashboard before))
  = Some panel
  /\ snd (DashboardPanels.openDashboard before)
     = match DashboardPanels.latestNotified acts None with
       | Some result => [(panel, result)]
       | None => []
       end.
Proof.
  cbv zeta.
  destruct (performAll_latest acts DashboardPanels.loaded) as [L C].
  unfold DashboardPanels.openDashboard, DashboardPanels.postLatest.
  cbn [fst snd DashboardPanels.activePanel DashboardPanels.latestResult].
  rewrite L, C. cbn. split; reflexivity.
Qed.

(** X21.  Disposing any panel silences the notifications.  Once a
    panel has been disposed, whichever it is, and no dashboard has been
    opened since, [notifyDashboardResult] posts to no panel: a panel that
    was opened before and is still open gets nothing until it asks with
    [requestLatestStats], which is answered with the stored result. *)
Theorem disposed_panel_silences_notifications
    (acts later : list DashboardPanels.action) (panel other : nat)
    (stats : BatchProcessingStats) (now : Z)
    (Hlater : forallb DashboardPanels.opensNoPanel later = true) :
  let before :=
    fst (DashboardPanels.performAll
           (acts ++ DashboardPanels.PanelDisposed panel :: later)
           DashboardPanels.loaded) in
  let notified := DashboardPanels.notifyDashboardResult stats now before in
  snd notified = []
  /\ snd (DashboardPanels.requestLatestStats other (fst notified))
     = [(other, DashboardPanels.resultOf stats now)].
Proof.
  cbv zeta. rewrite performAll_app. cbn [fst].
  cbn [DashboardPanels.performAll DashboardPanels.perform
       DashboardPanels.onDidDispose].
  pose proof (performAll_no_panel later
    (DashboardPanels.mkPanels None
       (DashboardPanels.latestResult
          (fst (DashboardPanels.performAll acts DashboardPanels.loaded)))
       (DashboardPanels.panelsCreated
          (fst (DashboardPanels.performAll acts DashboardPanels.loaded))))
    eq_refl Hlater) as H.
  destruct (DashboardPanels.performAll later _) as [d2 p2]. cbn [fst] in *.
  unfold DashboardPanels.notifyDashboardResult. cbn. rewrite H.
  split; reflexivity.
Qed.

Lemma disposed_panel_silences_notifications_witness :
  In 1 (DashboardPanels.openPanels
          [DashboardPanels.OpenDashboard; DashboardPanels.OpenDashboard;
           DashboardPanels.PanelDisposed 0] 0 [])
  /\ snd (DashboardPanels.notifyDashboardResult
            (mkStats 3 3 2 1 0 1 1000 (Some 9000%Z)) 9500
            (fst (DashboardPanels.performAll
                    ([DashboardPanels.OpenDashboard; DashboardPanels.OpenDashboard]
                     ++ DashboardPanels.PanelDisposed 0 :: [])
                    DashboardPanels.loaded)))
     = []
  /\ snd (DashboardPanels.requestLatestStats 1
            (fst (DashboardPanels.notifyDashboardResult
                    (mkStats 3 3 2 1 0 1 1000 (Some 9000%Z)) 9500
                    (fst (DashboardPanels.performAll
                            ([DashboardPanels.OpenDashboard;
                              DashboardPanels.OpenDashboard]
                             ++ DashboardPanels.PanelDisposed 0 :: [])
                            DashboardPanels.loaded)))))
     = [(1, DashboardPanels.resultOf (mkStats 3 3 2 1 0 1 1000 (Some 9000%Z)) 9500)].
Proof.
  split; [now left|].
  exact (disposed_panel_silences_notifications
           [DashboardPanels.OpenDashboard; DashboardPanels.OpenDashboard] []
           0 1 (mkStats 3 3 2 1 0 1 1000 (Some 9000%Z)) 9500 eq_refl).
Defined.

(** X22.  A notification goes to one open panel at most.
    After any sequence of actions, what [notifyDashboardResult] posts goes
    to a panel that has been created and not disposed, and carries the
    result just computed from the statistics; the module keeps that result
    as the latest. *)
Theorem notifyDashboardResult_posts_to_an_open_panel
    (acts : list DashboardPanels.action) (stats : BatchProcessingStats)
    (now : Z) (panel : nat) (result : DashboardResult)
    (Hposted :
       In (panel, result)
         (snd (DashboardPanels.notifyDashboardResult stats now
                 (fst (DashboardPanels.performAll acts DashboardPanels.loaded))))) :
  In panel (DashboardPanels.openPanels acts 0 [])
  /\ result = DashboardPanels.resultOf stats now
  /\ snd (DashboardPanels.notifyDashboardResult stats now
            (fst (DashboardPanels.performAll acts DashboardPanels.loaded)))
     = [(panel, result)]
  /\ DashboardPanels.latestResult
       (fst (DashboardPanels.notifyDashboardResult stats now
               (fst (DashboardPanels.performAll acts DashboardPanels.loaded))))
     = Some result.
Proof.
  revert Hposted. unfold DashboardPanels.notifyDashboardResult.
  cbn [fst snd DashboardPanels.activePanel DashboardPanels.latestResult].
  destruct (DashboardPanels.activePanel
              (fst (DashboardPanels.performAll acts DashboardPanels.loaded)))
    as [p|] eqn:Ep; [|intros []].
  intros [[= <- <-]|[]].
  split; [|repeat split].
  apply (performAll_active_open acts DashboardPanels.loaded []);
    [discriminate|exact Ep].
Qed.

Lemma notifyDashboardResult_posts_to_an_open_panel_witness :
  In 1 (DashboardPanels.openPanels
          [DashboardPanels.OpenDashboard; DashboardPanels.OpenDashboard] 0 [])
  /\ DashboardPanels.resultOf (mkStats 3 3 2 1 0 1 1000 None) 9500
     = DashboardPanels.resultOf (mkStats 3 3 2 1 0 1 1000 None) 9500
  /\ snd (DashboardPanels.notifyDashboardResult (mkStats 3 3 2 1 0 1 1000 None) 9500
            (fst (DashboardPanels.performAll
                    [DashboardPanels.OpenDashboard; DashboardPanels.OpenDashboard]
                    DashboardPanels.loaded)))
     = [(1, DashboardPanels.resultOf (mkStats 3 3 2 1 0 1 1000 None) 9500)]
  /\ DashboardPanels.latestResult
       (fst (DashboardPanels.notifyDashboardResult
               (mkStats 3 3 2 1 0 1 1000 None) 9500
               (fst (DashboardPanels.performAll
                       [DashboardPanels.OpenDashboard; DashboardPanels.OpenDashboard]
                       DashboardPanels.loaded))))
     = Some (DashboardPanels.resultOf (mkStats 3 3 2 1 0 1 1000 None) 9500).
Proof.
  exact (notifyDashboardResult_posts_to_an_open_panel
           [DashboardPanels.OpenDashboard; DashboardPanels.OpenDashboard]
           (mkStats 3 3 2 1 0 1 1000 None) 9500 1
           (DashboardPanels.resultOf (mkStats 3 3 2 1 0 1 1000 None) 9500)
           (or_introl eq_refl)).
Defined.
(* ================================================================= *)
(** ** The end of a run, cancelled or not *)

Section CompletionFacts.

Import HookRunner BatchProcessor RunSpec HookSpec LogSpec CompletionSpec.





End CompletionFacts.


